(** * PaperDownloader: a shallow embedding of [downloader.py]

    The document-resolution engine of the literature-search tool:
    the router [get_handler], the eight publisher strategies
    ([handle_pubmed] ... [handle_generic]) and the batch loop [download],
    together with the helpers they are built from.

    Conventions.
    - A Python [str] is a [string]; its characters are code points below
      256 (URLs, header values and file names are ASCII in practice).
    - Network access and file writes are effects.  They are threaded
      through an explicit [World] that records every GET issued and every
      write made; a method of the class is a function in the monad [M].
    - A Python exception is the [Raised] completion of a computation.
    - The outside world (the HTTP transport, and the parsers of
      BeautifulSoup and [json]) is a field of the environment [Env], the
      counterpart of [self] plus the imported libraries. *)

From Stdlib Require Import String Ascii List Bool Arith ZArith Lia.
Import ListNotations.
Local Open Scope string_scope.

(** ** Python string methods *)

Module Py.

(** [c in s] for a single character. *)
Fixpoint has_char (c : ascii) (s : string) : bool :=
  match s with
  | EmptyString => false
  | String a r => Ascii.eqb a c || has_char c r
  end.

(** [s.startswith(p)]. *)
Fixpoint startswith (p s : string) : bool :=
  match p, s with
  | EmptyString, _ => true
  | String a p', String b s' => Ascii.eqb a b && startswith p' s'
  | String _ _, EmptyString => false
  end.

(** [sub in s]: substring test. *)
Fixpoint contains (sub s : string) : bool :=
  startswith sub s ||
  match s with
  | EmptyString => false
  | String _ r => contains sub r
  end.

(** [s.endswith(suf)]: some suffix of [s] equals [suf]. *)
Fixpoint endswith (suf s : string) : bool :=
  String.eqb suf s ||
  match s with
  | EmptyString => false
  | String _ r => endswith suf r
  end.

(** [str.lower] on one character: A-Z, and the upper-case letters of
    Latin-1 (0xC0-0xDE except the multiplication sign 0xD7).  Below code
    point 256 [str.lower] works character by character; beyond, it does
    not (a capital sigma is lowered by its place in the word), so that
    [lower] of a concatenation is the concatenation of the [lower]s only
    in this range. *)
Definition lower_char (a : ascii) : ascii :=
  let n := nat_of_ascii a in
  if (((65 <=? n) && (n <=? 90)) ||
      ((192 <=? n) && (n <=? 222) && negb (n =? 215)))%nat
  then ascii_of_nat (n + 32) else a.

(** [s.lower()]. *)
Fixpoint lower (s : string) : string :=
  match s with
  | EmptyString => EmptyString
  | String a r => String (lower_char a) (lower r)
  end.

(** Truth value of a [str]: non-empty. *)
Definition truthy (s : string) : bool :=
  match s with EmptyString => false | String _ _ => true end.

(** [s.rstrip(c)] for a one-character argument. *)
Fixpoint rstrip (c : ascii) (s : string) : string :=
  match s with
  | EmptyString => EmptyString
  | String a r =>
      match rstrip c r with
      | EmptyString => if Ascii.eqb a c then EmptyString else String a EmptyString
      | r' => String a r'
      end
  end.

(** [s.lstrip(chars)] with the set of characters given as a predicate. *)
Fixpoint lstrip (p : ascii -> bool) (s : string) : string :=
  match s with
  | EmptyString => EmptyString
  | String a r => if p a then lstrip p r else s
  end.

(** Trailing counterpart of [lstrip]. *)
Fixpoint rstrip_by (p : ascii -> bool) (s : string) : string :=
  match s with
  | EmptyString => EmptyString
  | String a r =>
      match rstrip_by p r with
      | EmptyString => if p a then EmptyString else String a EmptyString
      | r' => String a r'
      end
  end.

(** [str.isspace] on one character (code points below 256). *)
Definition isspace (a : ascii) : bool :=
  let n := nat_of_ascii a in
  (((9 <=? n) && (n <=? 13)) || ((28 <=? n) && (n <=? 32)) ||
   (n =? 133) || (n =? 160))%nat.

(** [s.strip()]. *)
Definition strip (s : string) : string := rstrip_by isspace (lstrip isspace s).

(** [s.split(c)[0]], also the first component of [s.split(c, 1)]. *)
Fixpoint before_first (c : ascii) (s : string) : string :=
  match s with
  | EmptyString => EmptyString
  | String a r => if Ascii.eqb a c then EmptyString else String a (before_first c r)
  end.

(** The part after the first [c], when [c] occurs. *)
Fixpoint after_first (c : ascii) (s : string) : option string :=
  match s with
  | EmptyString => None
  | String a r => if Ascii.eqb a c then Some r else after_first c r
  end.

(** [s.split(c)[-1]], which is also [s[s.rfind(c) + 1:]]. *)
Fixpoint after_last (c : ascii) (s : string) : string :=
  match s with
  | EmptyString => EmptyString
  | String a r =>
      if has_char c r then after_last c r
      else if Ascii.eqb a c then r else s
  end.

(** [s.replace(c, "")]. *)
Fixpoint remove_char (c : ascii) (s : string) : string :=
  match s with
  | EmptyString => EmptyString
  | String a r => if Ascii.eqb a c then remove_char c r else String a (remove_char c r)
  end.

(** [all(p(c) for c in s)]. *)
Fixpoint all_chars (p : ascii -> bool) (s : string) : bool :=
  match s with
  | EmptyString => true
  | String a r => p a && all_chars p r
  end.

(** Longest prefix of characters satisfying [p], and the rest. *)
Fixpoint span (p : ascii -> bool) (s : string) : string * string :=
  match s with
  | EmptyString => (EmptyString, EmptyString)
  | String a r =>
      if p a then let (x, y) := span p r in (String a x, y)
      else (EmptyString, s)
  end.

Definition isdigit (a : ascii) : bool :=
  let n := nat_of_ascii a in ((48 <=? n) && (n <=? 57))%nat.

Definition is_ascii_alpha (a : ascii) : bool :=
  let n := nat_of_ascii a in
  (((65 <=? n) && (n <=? 90)) || ((97 <=? n) && (n <=? 122)))%nat.

(** [s[n:]]. *)
Fixpoint drop (n : nat) (s : string) : string :=
  match n, s with
  | O, _ => s
  | S n', String _ r => drop n' r
  | S _, EmptyString => EmptyString
  end.

(** [posixpath.basename]. *)
Definition basename (p : string) : string := after_last "/" p.

(** [posixpath.join(a, b)]. *)
Definition path_join (a b : string) : string :=
  if startswith "/" b then b
  else if negb (truthy a) || endswith "/" a then a ++ b
  else a ++ "/" ++ b.

End Py.

(** ** urllib.parse.urlparse

    The fields the downloader reads: [scheme], [netloc] and [path].
    The model follows [urlsplit] of CPython 3.12 step by step.
    [urlparse] is the split; [accepted] tells whether [urlsplit] returns
    it or raises [ValueError] instead, which it does for an authority
    with unbalanced square brackets and for one whose bracketed part the
    library's address check turns down.  (The third cause, a character
    that NFKC-normalises to a delimiter, does not arise for code points
    below 256.) *)

Module Url.

Record ParseResult := mkParse {
  scheme : string;
  netloc : string;
  path : string
}.

Definition is_c0_or_space (a : ascii) : bool := (nat_of_ascii a <=? 32)%nat.

Definition is_scheme_char (a : ascii) : bool :=
  Py.is_ascii_alpha a || Py.isdigit a ||
  Ascii.eqb a "+" || Ascii.eqb a "-" || Ascii.eqb a ".".

(** Leading control characters and spaces are stripped; tab, carriage
    return and newline are removed everywhere. *)
Definition sanitize (url : string) : string :=
  Py.remove_char "010" (Py.remove_char "013" (Py.remove_char "009"
    (Py.lstrip is_c0_or_space url))).

(** [i = url.find(':')], and the scheme when [url[:i]] is one. *)
Definition split_scheme (url : string) : string * string :=
  match Py.after_first ":" url with
  | Some rest =>
      let pre := Py.before_first ":" url in
      match pre with
      | String a _ =>
          if Py.is_ascii_alpha a && Py.all_chars is_scheme_char pre
          then (Py.lower pre, rest) else (EmptyString, url)
      | EmptyString => (EmptyString, url)
      end
  | None => (EmptyString, url)
  end.

Definition is_netloc_delim (a : ascii) : bool :=
  Ascii.eqb a "/" || Ascii.eqb a "?" || Ascii.eqb a "#".

(** [_splitnetloc(url, 2)] when [url[:2] == '//']. *)
Definition split_netloc (url : string) : string * string :=
  if Py.startswith "//" url
  then Py.span (fun a => negb (is_netloc_delim a)) (Py.drop 2 url)
  else (EmptyString, url).

Definition uses_params : list string :=
  [""; "ftp"; "hdl"; "prospero"; "http"; "imap"; "https"; "shttp";
   "rtsp"; "rtspu"; "sip"; "sips"; "mms"; "sftp"; "tel"].

(** First component of [_splitparams]: the parameters of the last path
    segment are cut off. *)
Fixpoint strip_params (p : string) : string :=
  match p with
  | EmptyString => EmptyString
  | String a r =>
      if Ascii.eqb a "/" || Py.has_char "/" r
      then String a (strip_params r)
      else Py.before_first ";" p
  end.

Definition urlparse (url : string) : ParseResult :=
  let (sch, rest) := split_scheme (sanitize url) in
  let (loc, rest) := split_netloc rest in
  let rest := Py.before_first "#" rest in
  let rest := Py.before_first "?" rest in
  let rest :=
    if existsb (String.eqb sch) uses_params && Py.has_char ";" rest
    then strip_params rest else rest in
  mkParse sch loc rest.

(** [urlsplit(url)] does not raise.  [bracketed_ok netloc] stands for the
    check of a network location that holds both brackets
    ([_check_bracketed_netloc], or [_check_bracketed_host] on the part
    between them, by the version of the library). *)
Definition accepted (bracketed_ok : string -> bool) (url : string) : bool :=
  let loc := netloc (urlparse url) in
  match Py.has_char "[" loc, Py.has_char "]" loc with
  | false, false => true
  | true, true => bracketed_ok loc
  | _, _ => false
  end.

End Url.

(** ** The outside world *)

(** [self.session.get] and the module-level [requests.get] are two
    different clients: only the first carries the User-Agent header. *)
Inductive Client := SessionGet | RequestsGet.

Record Request := mkRequest {
  client : Client;
  target : string
}.

(** The parts of a [requests.Response] the downloader reads.  [headers]
    is looked up without regard to the case of the name; [url] is the
    final URL after redirects; [content] is the body that
    [iter_content] streams. *)
Module Resp.
Record t := mk {
  status_code : Z;
  headers : list (string * string);
  url : string;
  text : string;
  content : string
}.
End Resp.
Definition Response : Type := Resp.t.

(** What one GET comes to: a response, or a transport-level failure
    (DNS, TLS, timeout, connection reset), which [requests] raises as an
    exception. *)
Inductive Outcome :=
| Responded (r : Response)
| TransportFailed.

(** A transport answers a request knowing every request sent before it:
    nothing is assumed about the network, not even that it answers the
    same request the same way twice. *)
Definition Transport := list Request -> Request -> Outcome.

(** Parsed JSON, as [Response.json] returns it. *)
#[local] Unset Elimination Schemes.
Inductive Json :=
| JNull
| JBool (b : bool)
| JNum (z : Z)
| JStr (s : string)
| JArr (l : list Json)
| JObj (kv : list (string * Json)).
#[local] Set Elimination Schemes.

(** [self] and the libraries it calls: the output directory, the
    network, and the parsers, which are taken as given.
    - [anchor_hrefs html]: the [href] values of
      [BeautifulSoup(html, "html.parser").find_all("a", href=True)], in
      document order;
    - [article_id xml t]: the text of
      [BeautifulSoup(xml, "xml").find("ArticleId", {"IdType": t})],
      [None] when there is no such element;
    - [json_loads body]: the parsed body, [None] when it is not JSON;
    - [bracketed_netloc_ok netloc]: whether [urlsplit] lets a network
      location with both square brackets pass (see [Url.accepted]). *)
Record Env := mkEnv {
  out_dir : string;
  transport : Transport;
  anchor_hrefs : string -> list string;
  article_id : string -> string -> option string;
  json_loads : string -> option Json;
  bracketed_netloc_ok : string -> bool
}.

(** Everything the downloader has done so far: the GETs it sent, in
    order, and the writes it made, in order: one entry for each call of
    [save_pdf], with the path it opened and the content it put there.
    [written] is a log, not a directory: [save_pdf] opens its file with
    "wb", so a write to a path that occurs earlier in the log replaces
    that file. *)
Record World := mkWorld {
  sent : list Request;
  written : list (string * string)
}.

Definition fresh : World := mkWorld [] [].

Inductive Exn :=
| RequestException
| JSONDecodeError
| TypeError
| AttributeError
| ValueError.

(** How a call ends. *)
Inductive Completion (A : Type) :=
| Normal (a : A)
| Raised (e : Exn).
Arguments Normal {A} a.
Arguments Raised {A} e.

(** A method body: it starts in a world and ends, normally or with an
    exception, in a later one. *)
Definition M (A : Type) : Type := World -> Completion A * World.

Definition ret {A} (a : A) : M A := fun w => (Normal a, w).

Definition raise {A} (e : Exn) : M A := fun w => (Raised e, w).

Definition bind {A B} (m : M A) (k : A -> M B) : M B :=
  fun w =>
    match m w with
    | (Normal a, w') => k a w'
    | (Raised e, w') => (Raised e, w')
    end.

(** [try: m  except Exception: h]. *)
Definition try_except {A} (m : M A) (h : M A) : M A :=
  fun w =>
    match m w with
    | (Normal a, w') => (Normal a, w')
    | (Raised _, w') => h w'
    end.

Declare Scope py_scope.
Delimit Scope py_scope with py.
Notation "x <- m ;; k" := (bind m (fun x => k))
  (at level 100, m at next level, right associativity) : py_scope.
Notation "' p <- m ;; k" := (bind m (fun p => k))
  (at level 100, p pattern, m at next level, right associativity) : py_scope.
Local Open Scope py_scope.

(** ** Response helpers *)

(** [r.headers.get(name, "")]. *)
Fixpoint headers_get (name : string) (hs : list (string * string)) : string :=
  match hs with
  | [] => ""
  | (k, v) :: rest =>
      if String.eqb (Py.lower k) (Py.lower name) then v else headers_get name rest
  end.

(** [Response.ok], which is also the truth value of a response
    ([Response.__bool__]): false exactly for the statuses 400 to 599. *)
Definition ok (r : Response) : bool :=
  negb ((400 <=? Resp.status_code r)%Z && (Resp.status_code r <? 600)%Z).

(** Truth value of an optional string ([None] and [""] are false). *)
Definition truthy_opt (s : option string) : bool :=
  match s with
  | Some x => Py.truthy x
  | None => false
  end.

(** ** Results *)

Record DownloadResult := mkResult {
  success : bool;
  source_url : string;
  local_path : option string;
  fallback_url : option string;
  reason : option string
}.

(** [DownloadResult(True, url, local_path=path)]. *)
Definition Downloaded (src path : string) : DownloadResult :=
  mkResult true src (Some path) None None.

(** [DownloadResult(False, url, reason=why)]. *)
Definition Failed (src why : string) : DownloadResult :=
  mkResult false src None None (Some why).

(** [DownloadResult(False, url, fallback_url=page, reason=why)]. *)
Definition Manual (src page why : string) : DownloadResult :=
  mkResult false src None (Some page) (Some why).

(** ** The pattern of [handle_arxiv]

    [re.search(r"arxiv\.org/(abs|pdf)/([0-9]+\.[0-9]+)", url)] and its
    second group.  The first run of digits is greedy and must be followed
    by a dot, so it is the whole run; the second run is greedy and last,
    so it is the whole run too.  [re.search] returns the match that
    starts leftmost. *)
Module ArxivRe.

(** [([0-9]+\.[0-9]+)] at the start of [s]. *)
Definition match_id (s : string) : option string :=
  let (d1, r1) := Py.span Py.isdigit s in
  match d1, r1 with
  | String _ _, String "." r2 =>
      let (d2, _) := Py.span Py.isdigit r2 in
      match d2 with
      | String _ _ => Some (d1 ++ "." ++ d2)
      | EmptyString => None
      end
  | _, _ => None
  end.

(** The whole pattern at the start of [s]. *)
Definition match_here (s : string) : option string :=
  if Py.startswith "arxiv.org/abs/" s || Py.startswith "arxiv.org/pdf/" s
  then match_id (Py.drop 14 s)
  else None.

(** [m.group(2)] of [re.search(pattern, s)], [None] when there is no
    match. *)
Fixpoint search (s : string) : option string :=
  match match_here s with
  | Some id => Some id
  | None =>
      match s with
      | EmptyString => None
      | String _ r => search r
      end
  end.

End ArxivRe.

(** ** Truth values and lookups of parsed JSON, for [unpaywall_lookup] *)

(** Truth value of a parsed JSON value. *)
Definition json_truthy (j : Json) : bool :=
  match j with
  | JNull => false
  | JBool b => b
  | JNum z => negb (z =? 0)%Z
  | JStr s => Py.truthy s
  | JArr l => match l with [] => false | _ :: _ => true end
  | JObj kv => match kv with [] => false | _ :: _ => true end
  end.

(** [dict.get(key)] on the pairs of an object; [None] is [JNull]. *)
Fixpoint dict_get (key : string) (kv : list (string * Json)) : Json :=
  match kv with
  | [] => JNull
  | (k, v) :: rest => if String.eqb k key then v else dict_get key rest
  end.

Definition has_key (key : string) (kv : list (string * Json)) : bool :=
  existsb (fun p => String.eqb (fst p) key) kv.

(** [j.get(key)]: only a dict has the method. *)
Definition json_get (j : Json) (key : string) : M Json :=
  match j with
  | JObj kv => ret (dict_get key kv)
  | _ => raise AttributeError
  end.

(** The items a [for] loop over [j] visits: the elements of a list, the
    keys of a dict, the characters of a string. *)
Definition json_iter (j : Json) : M (list Json) :=
  match j with
  | JArr l => ret l
  | JObj kv => ret (map (fun p => JStr (fst p)) kv)
  | JStr s => ret (map (fun a => JStr (String a EmptyString)) (list_ascii_of_string s))
  | _ => raise TypeError
  end.

(** [j == "publisher"]. *)
Definition json_is_str (j : Json) (s : string) : bool :=
  match j with
  | JStr x => String.eqb x s
  | _ => false
  end.

(** ** class PaperDownloader

    Console output ([print]) is not modelled. *)

Definition UNPAYWALL_EMAIL : string := "your_email@example.com".

Section PaperDownloader.

Variable self : Env.

(** One GET through [client]: the request is recorded, and the
    transport decides what comes back.  Time-outs, [stream] and
    [allow_redirects] are the transport's business. *)
Definition get (client : Client) (url : string) : M Response :=
  fun w =>
    let rq := mkRequest client url in
    let w' := mkWorld (sent w ++ [rq])%list (written w) in
    match transport self (sent w) rq with
    | Responded r => (Normal r, w')
    | TransportFailed => (Raised RequestException, w')
    end.

(** *** utilities *)

Definition safe_filename (url : string) : string :=
  let name := Py.basename (Url.path (Url.urlparse url)) in
  let name :=
    if negb (Py.endswith ".pdf" (Py.lower name)) then name ++ ".pdf" else name in
  if Py.truthy name then name else "paper.pdf".

(** The body is taken as received in full and the file is written in
    one step: a connection that breaks while [iter_content] streams the
    body (the GET was made with [stream=True]), an [open] that fails and
    a write that fails are outside the model.  Where the model of a
    strategy stores a file and returns a success, the code does so when
    these steps complete, and raises when one of them fails.  [urlparse]
    inside [safe_filename] is applied to the URL of a GET that was just
    answered, and is taken to accept it. *)
Definition save_pdf (response : Response) (source_url : string) : M string :=
  fun w =>
    let path := Py.path_join (out_dir self) (safe_filename source_url) in
    (Normal path,
     mkWorld (sent w) (written w ++ [(path, Resp.content response)])%list).

Definition is_pdf (r : Response) : bool :=
  Py.contains "application/pdf"
    (Py.lower (headers_get "Content-Type" (Resp.headers r))).

Definition try_direct_pdf (url : string) : M (option Response) :=
  r <- try_except (r <- get SessionGet url ;; ret (Some r)) (ret None) ;;
  match r with
  | None => ret None
  | Some r => if is_pdf r then ret (Some r) else ret None
  end.

(** *** site helpers *)

(** The pair [(None, None)] is [None]; [(pdf, pdf_url)] is [Some]. *)
Fixpoint try_suffix_pdf (base_url : string) (suffixes : list string)
  : M (option (Response * string)) :=
  match suffixes with
  | [] => ret None
  | s :: suffixes' =>
      let pdf_url := Py.rstrip "/" base_url ++ s in
      pdf <- try_direct_pdf pdf_url ;;
      match pdf with
      | Some r => if ok r then ret (Some (r, pdf_url))
                  else try_suffix_pdf base_url suffixes'
      | None => try_suffix_pdf base_url suffixes'
      end
  end.

Definition resolve_entry_url (url : string) : string := url.

Definition resolve_doi_redirect (url : string) : M string :=
  r <- get SessionGet url ;;
  ret (Resp.url r).

(** *** PubMed metadata *)

Definition get_pubmed_xml (pubmed_url : string) : M (option string) :=
  let pmid := Py.after_last "/" (Py.rstrip "/" pubmed_url) in
  let api :=
    "https://eutils.ncbi.nlm.nih.gov/entrez/eutils/efetch.fcgi"
    ++ "?db=pubmed&id=" ++ pmid ++ "&retmode=xml" in
  r <- get RequestsGet api ;;
  ret (if (Resp.status_code r =? 200)%Z then Some (Resp.text r) else None).

Definition get_doi_from_pubmed (pubmed_url : string) : M (option string) :=
  xml <- get_pubmed_xml pubmed_url ;;
  match xml with
  | Some xml =>
      if negb (Py.truthy xml) then ret None
      else ret (article_id self xml "doi")
  | None => ret None
  end.

Definition get_pmcid_from_pubmed (pubmed_url : string) : M (option string) :=
  xml <- get_pubmed_xml pubmed_url ;;
  match xml with
  | Some xml =>
      if negb (Py.truthy xml) then ret None
      else ret (article_id self xml "pmc")
  | None => ret None
  end.

(** *** Unpaywall *)

(** First [loc] with [loc.get("host_type") == "publisher" and
    loc.get(field)], and its [loc[field]]. *)
Fixpoint first_publisher (field : string) (locations : list Json)
  : M (option Json) :=
  match locations with
  | [] => ret None
  | loc :: rest =>
      host_type <- json_get loc "host_type" ;;
      if json_is_str host_type "publisher" then
        v <- json_get loc field ;;
        if json_truthy v then ret (Some v) else first_publisher field rest
      else first_publisher field rest
  end.

(** The result is a JSON value; Python's [None] is [JNull]. *)
Definition unpaywall_lookup (doi : string) : M Json :=
  let api := "https://api.unpaywall.org/v2/" ++ doi ++ "?email=" ++ UNPAYWALL_EMAIL in
  r <- get RequestsGet api ;;
  if negb (Resp.status_code r =? 200)%Z then ret JNull
  else
    match json_loads self (Resp.text r) with
    | None => raise JSONDecodeError
    | Some data =>
        match data with
        | JObj kv =>
            locations <-
              json_iter (if has_key "oa_locations" kv
                         then dict_get "oa_locations" kv else JArr []) ;;
            by_pdf <- first_publisher "url_for_pdf" locations ;;
            match by_pdf with
            | Some v => ret v
            | None =>
                by_url <- first_publisher "url" locations ;;
                match by_url with
                | Some v => ret v
                | None =>
                    let best := dict_get "best_oa_location" kv in
                    if json_truthy best then
                      pdf <- json_get best "url_for_pdf" ;;
                      if json_truthy pdf then ret pdf
                      else json_get best "url"
                    else ret JNull
                end
            end
        | _ => raise AttributeError
        end
    end.

(** *** DOI -> publisher page *)

Definition is_doi_url (url : string) : bool :=
  Py.contains "doi.org/" url || Py.startswith "10." url.

(** The pair [(None, None)] is [None]; [(r.url, r.text)] is [Some]. *)
Definition resolve_doi (doi : string) : M (option (string * string)) :=
  let doi_url := "https://doi.org/" ++ doi in
  try_except
    (r <- get SessionGet doi_url ;;
     if (Resp.status_code r =? 200)%Z
     then ret (Some (Resp.url r, Resp.text r))
     else ret None)
    (ret None).

(** The loop of [extract_pdf_from_html] over the [href] values.
    [base_url] is the final URL of a response, which [urlparse] is taken
    to accept. *)
Fixpoint first_pdf_href (hrefs : list string) (base_url : string)
  : option string :=
  match hrefs with
  | [] => None
  | a :: rest =>
      let href := Py.strip a in
      if Py.contains ".pdf" (Py.lower href) then
        if Py.startswith "/" href then
          let parsed := Url.urlparse base_url in
          Some (Url.scheme parsed ++ "://" ++ Url.netloc parsed ++ href)
        else Some href
      else first_pdf_href rest base_url
  end.

Definition extract_pdf_from_html (html base_url : string) : option string :=
  first_pdf_href (anchor_hrefs self html) base_url.

(** *** PMC *)

Definition try_pmc_pdf (pmcid : string) : M (option Response * string) :=
  let pdf_url := "https://www.ncbi.nlm.nih.gov/pmc/articles/" ++ pmcid ++ "/pdf/" in
  pdf <- try_direct_pdf pdf_url ;;
  ret (pdf, pdf_url).

(** *** handlers *)

(** [if pdf: yes(pdf) else: no], for [pdf] a response or [None].  A
    response is true when it is [ok]. *)
Definition if_pdf {A} (pdf : option Response)
    (yes : Response -> M A) (no : M A) : M A :=
  match pdf with
  | Some r => if ok r then yes r else no
  | None => no
  end.

(** The shared tail of several handlers:
    [[
    if pdf_url:
        pdf = self.try_direct_pdf(pdf_url)
        if pdf:
            path = self.save_pdf(pdf, pdf_url)
            return DownloadResult(True, url, local_path=path)
    return otherwise
    ]] *)
Definition fetch_extracted (url : string) (pdf_url : option string)
    (otherwise : DownloadResult) : M DownloadResult :=
  match pdf_url with
  | Some pdf_url =>
      if Py.truthy pdf_url then
        pdf <- try_direct_pdf pdf_url ;;
        if_pdf pdf
          (fun pdf => path <- save_pdf pdf pdf_url ;; ret (Downloaded url path))
          (ret otherwise)
      else ret otherwise
  | None => ret otherwise
  end.

(** [handle_pubmed] from [doi = self.get_doi_from_pubmed(url)] on. *)
Definition pubmed_by_doi (url : string) : M DownloadResult :=
  doi <- get_doi_from_pubmed url ;;
  match doi with
  | Some doi =>
      if negb (Py.truthy doi) then ret (Failed url "No PMC and no DOI")
      else
        page <- resolve_doi doi ;;
        match page with
        | Some (landing_url, html) =>
            if negb (Py.truthy landing_url) || negb (Py.truthy html) then
              ret (Manual url ("https://doi.org/" ++ doi)
                     "Could not resolve publisher page")
            else
              fetch_extracted url (extract_pdf_from_html html landing_url)
                (Manual url landing_url "Publisher page (manual download)")
        | None =>
            ret (Manual url ("https://doi.org/" ++ doi)
                   "Could not resolve publisher page")
        end
  | None => ret (Failed url "No PMC and no DOI")
  end.

Definition handle_pubmed (url : string) : M DownloadResult :=
  pmcid <- get_pmcid_from_pubmed url ;;
  match pmcid with
  | Some pmcid =>
      if Py.truthy pmcid then
        '(pdf, pdf_url) <- try_pmc_pdf pmcid ;;
        if_pdf pdf
          (fun pdf => path <- save_pdf pdf pdf_url ;; ret (Downloaded url path))
          (pubmed_by_doi url)
      else pubmed_by_doi url
  | None => pubmed_by_doi url
  end.

Definition handle_arxiv (url : string) : M DownloadResult :=
  match ArxivRe.search url with
  | None => ret (Failed url "Invalid arXiv URL")
  | Some id =>
      let pdf_url := "https://arxiv.org/pdf/" ++ id ++ ".pdf" in
      pdf <- try_direct_pdf pdf_url ;;
      if_pdf pdf
        (fun pdf => path <- save_pdf pdf pdf_url ;; ret (Downloaded url path))
        (ret (Failed url "arXiv PDF failed"))
  end.

Definition handle_generic (url : string) : M DownloadResult :=
  pdf <- try_direct_pdf url ;;
  if_pdf pdf
    (fun pdf => path <- save_pdf pdf url ;; ret (Downloaded url path))
    (ret (Failed url "No direct PDF")).

(** The parameter [url] is rebound to its part before the first
    question mark, and the result is built from the rebound name. *)
Definition handle_biorxiv (url : string) : M DownloadResult :=
  let url := Py.before_first "?" url in
  found <- try_suffix_pdf url [".full.pdf"; "/full.pdf"] ;;
  match found with
  | Some (pdf, pdf_url) =>
      if_pdf (Some pdf)
        (fun pdf => path <- save_pdf pdf pdf_url ;; ret (Downloaded url path))
        (ret (Failed url "bioRxiv PDF not found"))
  | None => ret (Failed url "bioRxiv PDF not found")
  end.

Definition handle_nature (url : string) : M DownloadResult :=
  r <- get SessionGet url ;;
  if negb (Resp.status_code r =? 200)%Z then
    ret (Failed url "Nature page unreachable")
  else
    fetch_extracted url (extract_pdf_from_html (Resp.text r) (Resp.url r))
      (Manual url url "Nature PDF not found").

Definition handle_science (url : string) : M DownloadResult :=
  r <- get SessionGet url ;;
  if negb (Resp.status_code r =? 200)%Z then
    ret (Failed url "Science page unreachable")
  else
    fetch_extracted url (extract_pdf_from_html (Resp.text r) (Resp.url r))
      (Manual url url "Science PDF not found").

Definition handle_cell (url : string) : M DownloadResult :=
  r <- get SessionGet url ;;
  if negb (Resp.status_code r =? 200)%Z then
    ret (Failed url "Cell page unreachable")
  else
    fetch_extracted url (extract_pdf_from_html (Resp.text r) (Resp.url r))
      (Manual url url "Cell PDF not found").

(** [handle_frontiers] from [r = self.session.get(url, timeout=20)] on. *)
Definition frontiers_by_page (url : string) : M DownloadResult :=
  r <- get SessionGet url ;;
  if (Resp.status_code r =? 200)%Z then
    fetch_extracted url (extract_pdf_from_html (Resp.text r) (Resp.url r))
      (Manual url url "Frontiers PDF not found")
  else ret (Manual url url "Frontiers PDF not found").

Definition handle_frontiers (url : string) : M DownloadResult :=
  found <- try_suffix_pdf url ["/pdf"] ;;
  match found with
  | Some (pdf, pdf_url) =>
      if_pdf (Some pdf)
        (fun pdf => path <- save_pdf pdf pdf_url ;; ret (Downloaded url path))
        (frontiers_by_page url)
  | None => frontiers_by_page url
  end.

(** *** router *)

Definition Handler : Type := string -> M DownloadResult.

(** The chain of tests on [domain]. *)
Definition handler_for (domain : string) : Handler :=
  if Py.contains "pubmed.ncbi.nlm.nih.gov" domain then handle_pubmed
  else if Py.contains "arxiv.org" domain then handle_arxiv
  else if Py.contains "biorxiv.org" domain || Py.contains "medrxiv.org" domain
    then handle_biorxiv
  else if Py.contains "nature.com" domain then handle_nature
  else if Py.contains "science.org" domain || Py.contains "sciencemag.org" domain
    then handle_science
  else if Py.contains "cell.com" domain then handle_cell
  else if Py.contains "frontiersin.org" domain then handle_frontiers
  else handle_generic.

Definition get_handler (url : string) : M (Handler * string) :=
  resolved_url <-
    (if is_doi_url url then
       try_except
         (r <- get SessionGet url ;;
          if (Resp.status_code r =? 200)%Z then ret (Resp.url r) else ret url)
         (ret url)
     else ret url) ;;
  if Url.accepted (bracketed_netloc_ok self) resolved_url then
    let domain := Py.lower (Url.netloc (Url.urlparse resolved_url)) in
    ret (handler_for domain, resolved_url)
  else raise ValueError.

(** *** public API *)

(** The [for] loop of [download], from the results collected so far. *)
Fixpoint download_loop (results : list DownloadResult) (urls : list string)
  : M (list DownloadResult) :=
  match urls with
  | [] => ret results
  | url :: urls' =>
      '(handler, resolved_url) <- get_handler url ;;
      res <- handler resolved_url ;;
      download_loop (results ++ [res])%list urls'
  end.

Definition download (urls : list string) : M (list DownloadResult) :=
  download_loop [] urls.

End PaperDownloader.

(** ** More Python string methods, for [search_app.py] *)

Module PyStr.

(** [s.split(c)] for a one-character separator. *)
Fixpoint split (c : ascii) (s : string) : list string :=
  match s with
  | EmptyString => [EmptyString]
  | String a r =>
      if Ascii.eqb a c then EmptyString :: split c r
      else match split c r with
           | piece :: pieces => String a piece :: pieces
           | [] => [String a EmptyString]
           end
  end.

(** [sep.join(l)]. *)
Fixpoint join (sep : string) (l : list string) : string :=
  match l with
  | [] => EmptyString
  | [x] => x
  | x :: rest => x ++ sep ++ join sep rest
  end.

(** [s[:n]]. *)
Fixpoint take (n : nat) (s : string) : string :=
  match n, s with
  | O, _ => EmptyString
  | S n', String a r => String a (take n' r)
  | S _, EmptyString => EmptyString
  end.

(** The lowest index, counted from [i], at which [sub] starts in [s];
    -1 when there is none. *)
Fixpoint find_at (sub s : string) (i : Z) : Z :=
  if Py.startswith sub s then i
  else match s with
       | EmptyString => (-1)%Z
       | String _ r => find_at sub r (i + 1)%Z
       end.

(** [s.find(sub, start)]: a negative [start] counts from the end. *)
Definition find (sub s : string) (start : Z) : Z :=
  let n := Z.of_nat (String.length s) in
  let start := if (start <? 0)%Z then Z.max 0 (start + n) else start in
  if (n <? start)%Z then (-1)%Z
  else find_at sub (Py.drop (Z.to_nat start) s) start.

(** An index of a slice brought into range. *)
Definition clamp (n k : Z) : Z :=
  if (k <? 0)%Z then Z.max 0 (k + n) else Z.min k n.

(** [s[i:j]]. *)
Definition slice (s : string) (i j : Z) : string :=
  let n := Z.of_nat (String.length s) in
  take (Z.to_nat (clamp n j - clamp n i)) (Py.drop (Z.to_nat (clamp n i)) s).

(** The one-character string of a double quote. *)
Definition dquote : string := String (ascii_of_nat 34) EmptyString.

End PyStr.

(** ** search_app.py: topics, keywords and links *)

Definition parse_topics (topic_input : string) : list string :=
  map (fun t => Py.lower (Py.strip t))
      (filter (fun t => Py.truthy (Py.strip t)) (PyStr.split "," topic_input)).

Definition contains_all_keywords (text : string) (keywords : list string) : bool :=
  let text := Py.lower text in
  forallb (fun k => Py.contains k text) keywords.

Definition build_pubmed_query (topic_input : string) : string :=
  let topics := parse_topics topic_input in
  match topics with
  | [t] => t
  | _ => PyStr.join " AND "
           (map (fun t => PyStr.dquote ++ t ++ PyStr.dquote ++ "[Title/Abstract]")
                topics)
  end.

(** A paper record as the search functions build it; [find_pdf_link]
    reads two of its keys. *)
Module Paper.
Record t := mk {
  source : string;
  url : string
}.
End Paper.

Definition find_pdf_link (self : Env) (paper : Paper.t) : M string :=
  if String.eqb (Paper.source paper) "pubmed" then
    let base_url := Paper.url paper in
    response <- get self RequestsGet base_url ;;
    if (Resp.status_code response =? 200)%Z
       && Py.contains "doi.org" (Resp.text response)
    then
      let start := PyStr.find "https://doi.org/" (Resp.text response) 0 in
      let stop := PyStr.find PyStr.dquote (Resp.text response) start in
      ret (PyStr.slice (Resp.text response) start stop)
    else ret base_url
  else ret (Paper.url paper).

(** * Specification vocabulary and test doubles

    The predicates the theorems are stated with, and the concrete
    environments the examples, witnesses and counterexamples run in. *)

(** ** Postconditions of method bodies *)

(** [m] started in [w] ends in a completion and a world satisfying [Q]. *)
Definition wp {A} (m : M A) (Q : Completion A -> World -> Prop) (w : World)
  : Prop :=
  Q (fst (m w)) (snd (m w)).

(** Lifting a postcondition on normal returns: an exception satisfies it. *)
Definition on_return {A} (P : A -> World -> Prop)
  : Completion A -> World -> Prop :=
  fun c w => match c with Normal a => P a w | Raised _ => True end.

(** ** The shape of a result *)

(** A field is populated when it is set and not the empty string. *)
Definition populated (field : option string) : bool := truthy_opt field.

(** How many of [local_path], [fallback_url], [reason] are populated. *)
Definition populated_fields (res : DownloadResult) : nat :=
  (if populated (local_path res) then 1 else 0) +
  (if populated (fallback_url res) then 1 else 0) +
  (if populated (reason res) then 1 else 0).

(** What every handler's result looks like: a success carries a path
    and nothing else; a failure carries a reason and no path, with or
    without a fallback URL next to the reason. *)
Definition shaped (res : DownloadResult) : Prop :=
  if success res
  then populated (local_path res) = true /\
       fallback_url res = None /\ reason res = None
  else local_path res = None /\ populated (reason res) = true.

(** The three ways a handler builds its result for the URL [src] it
    reports: a stored file, a bare failure, a failure with a page to
    visit.  Paths and reasons are never empty. *)
Inductive outcome_of (src : string) : DownloadResult -> Prop :=
| is_downloaded path :
    Py.truthy path = true -> outcome_of src (Downloaded src path)
| is_failed why :
    Py.truthy why = true -> outcome_of src (Failed src why)
| is_manual page why :
    Py.truthy why = true -> outcome_of src (Manual src page why).

(** The eight strategies. *)
Definition handlers (self : Env) : list (string -> M DownloadResult) :=
  [handle_pubmed self; handle_arxiv self; handle_biorxiv self;
   handle_nature self; handle_science self; handle_cell self;
   handle_frontiers self; handle_generic self].

(** Whenever [m] returns, it returns an outcome for [src]. *)
Definition returns_for (src : string) (m : M DownloadResult) : Prop :=
  forall w, wp m (on_return (fun res _ => outcome_of src res)) w.

(** ** Test doubles

    Environments for concrete runs: a transport that answers by the
    requested URL alone, parsers that find nothing, and a [urlsplit]
    without address check, which lets every network location with both
    brackets pass. *)

Definition stub (answer : string -> Outcome) : Env :=
  mkEnv "downloaded_papers" (fun _ rq => answer (target rq))
        (fun _ => []) (fun _ _ => None) (fun _ => None) (fun _ => true).

(** A 200 HTML page at [url]. *)
Definition page (url : string) : Response :=
  Resp.mk 200 [("Content-Type", "text/html; charset=utf-8")] url
          "<html><body>article</body></html>" "<html><body>article</body></html>".

(** A response at [url] declaring a PDF body, with the given status. *)
Definition pdf_file (status : Z) (url : string) : Response :=
  Resp.mk status [("Content-Type", "application/pdf")] url "" "%PDF-1.7".

(** Every host answers with an HTML page. *)
Definition pages_only : Env := stub (fun url => Responded (page url)).

(** No host can be reached. *)
Definition offline : Env := stub (fun _ => TransportFailed).

Definition nature_article : string :=
  "https://www.nature.com/articles/s41586-020-2649-2".

(** Every host but www.nature.com serves PDFs; every request to
    www.nature.com fails in transport. *)
Definition nature_down : Env :=
  stub (fun url =>
          if Py.contains "www.nature.com" url then TransportFailed
          else Responded (pdf_file 200 url)).

(** What the Nature handler returns for a page without a PDF link. *)
Definition nature_manual : DownloadResult :=
  Manual nature_article nature_article "Nature PDF not found".

(** ** C4: routing a DOI reference *)




(** The host the router classifies: the lower-cased network location. *)
Definition host_of (url : string) : string :=
  Py.lower (Url.netloc (Url.urlparse url)).

(** What a DOI reference resolves to, seen from world [w]: the final URL
    of the GET when it answers 200, else the reference itself. *)
Definition doi_target (self : Env) (w : World) (url : string) : string :=
  match transport self (sent w) (mkRequest SessionGet url) with
  | Responded r => if (Resp.status_code r =? 200)%Z then Resp.url r else url
  | TransportFailed => url
  end.

(** The world after one more GET. *)
Definition after_get (w : World) (client : Client) (url : string) : World :=
  mkWorld (sent w ++ [mkRequest client url])%list (written w).

(** [urlparse] accepts [url] in the environment [self]. *)
Definition parses (self : Env) (url : string) : bool :=
  Url.accepted (bracketed_netloc_ok self) url.

(** How the router ends on the resolved reference [ref]: with the
    strategy for its host, or with the [ValueError] of [urlparse]. *)
Definition routing (self : Env) (ref : string) : Completion (Handler * string) :=
  if parses self ref then Normal (handler_for self (host_of ref), ref)
  else Raised ValueError.


(** A DOI of a Science article that the resolver redirects to Nature. *)
Definition science_doi : string := "https://doi.org/10.1126/science.abc1234".

Definition doi_to_nature : Env :=
  stub (fun url =>
          if String.eqb url science_doi then Responded (page nature_article)
          else Responded (page url)).

(** ** Substrings up to case *)

(** [needle] occurs in [hay] up to the case of letters. *)
Definition occurs_ignoring_case (needle hay : string) : Prop :=
  exists pre mid post, hay = pre ++ mid ++ post /\ Py.lower mid = needle.

(** ** One direct attempt *)

(** The value of [try_direct_pdf]: the response when the transport
    answered and the answer declares a PDF. *)
Definition declared_pdf (self : Env) (w : World) (url : string)
  : option Response :=
  match transport self (sent w) (mkRequest SessionGet url) with
  | Responded r => if is_pdf r then Some r else None
  | TransportFailed => None
  end.

(** The response a handler accepts as a download: a declared PDF whose
    status is not an error status. *)
Definition delivered (self : Env) (w : World) (url : string)
  : option Response :=
  match declared_pdf self w url with
  | Some r => if ok r then Some r else None
  | None => None
  end.

(** The world after a file is stored under the name derived from [url]. *)
Definition after_save (self : Env) (w : World) (url : string) (r : Response)
  : World :=
  mkWorld (sent w)
    (written w ++ [(Py.path_join (out_dir self) (safe_filename url),
                    Resp.content r)])%list.

(** The result of a download stored under the name derived from [pdf_url]. *)
Definition stored (self : Env) (src pdf_url : string) : DownloadResult :=
  Downloaded src (Py.path_join (out_dir self) (safe_filename pdf_url)).

(** ** C5: the Generic strategy *)

(** Every host answers 203 Non-Authoritative Information with a PDF
    content type, as behind a transforming proxy. *)
Definition behind_proxy : Env := stub (fun url => Responded (pdf_file 203 url)).

(** A host that answers 404 with an HTML body. *)
Definition not_found : Env :=
  stub (fun url =>
          Responded (Resp.mk 404 [("content-type", "text/html")] url
                             "Not Found" "Not Found")).

(** ** C8: the two bioRxiv variants *)

(** The first variant answers 404 with an HTML body; the second
    declares a PDF but answers 503. *)
Definition second_variant_unavailable : Env :=
  stub (fun url =>
          if Py.endswith "/full.pdf" url then Responded (pdf_file 503 url)
          else Responded (Resp.mk 404 [("Content-Type", "text/html")] url
                                  "Not Found" "Not Found")).

Definition biorxiv_article : string :=
  "https://www.biorxiv.org/content/10.1101/2020.01.01.12345v1".

(** ** C7: the arXiv strategy *)

(** A numeric identifier: digits, a dot, digits. *)
Definition numeric_id (id : string) : Prop :=
  exists d1 d2,
    id = d1 ++ "." ++ d2 /\
    Py.all_chars Py.isdigit d1 = true /\ Py.truthy d1 = true /\
    Py.all_chars Py.isdigit d2 = true /\ Py.truthy d2 = true.

(** [url] contains [arxiv.org/abs/<id>] or [arxiv.org/pdf/<id>]. *)
Definition arxiv_form (url : string) : Prop :=
  exists pre kind id post,
    url = pre ++ "arxiv.org/" ++ kind ++ "/" ++ id ++ post /\
    (kind = "abs" \/ kind = "pdf") /\ numeric_id id.

(** [s] does not go on with a digit. *)
Definition no_digit_ahead (s : string) : bool :=
  match s with
  | String c _ => negb (Py.isdigit c)
  | EmptyString => true
  end.

(** [id] is the identifier of the first reference to arXiv in [url]:
    the pattern occurs with [id] after a part [pre] that holds no
    occurrence itself, and the second run of digits of [id] is whole, no
    digit follows it.  (The first run is whole by its place between the
    slash and the dot.) *)
Definition first_arxiv_id (url id : string) : Prop :=
  exists pre kind post,
    url = pre ++ "arxiv.org/" ++ kind ++ "/" ++ id ++ post /\
    (kind = "abs" \/ kind = "pdf") /\ numeric_id id /\
    no_digit_ahead post = true /\ ~ arxiv_form pre.

(** ** C9: the reference a result reports *)

(** The reference as the router hands it to the strategy, seen from
    world [w]. *)
Definition resolved_reference (self : Env) (w : World) (url : string) : string :=
  if is_doi_url url then doi_target self w url else url.

(** The hosts the router sends to the bioRxiv/medRxiv strategy. *)
Definition biorxiv_host (host : string) : bool :=
  negb (Py.contains "pubmed.ncbi.nlm.nih.gov" host) &&
  negb (Py.contains "arxiv.org" host) &&
  (Py.contains "biorxiv.org" host || Py.contains "medrxiv.org" host).

(** The reference that the strategy selected for the resolved reference
    [ref] reports: [ref] itself, which the bioRxiv/medRxiv strategy cuts
    before its first question mark. *)
Definition reported_reference (ref : string) : string :=
  if biorxiv_host (host_of ref) then Py.before_first "?" ref else ref.

(** The world in which the loop of [download] turns to the next
    reference, after its turn for [url] that started in [w]. *)
Definition after_turn (self : Env) (w : World) (url : string) : World :=
  snd (('(handler, resolved_url) <- get_handler self url ;;
        handler resolved_url) w).

(** The results [rs] report, one by one and in order, the references
    [urls] as the router resolves them in the run that starts in [w]:
    each in the world its own turn starts in. *)
Fixpoint reports_resolved (self : Env) (w : World) (urls : list string)
    (rs : list DownloadResult) : Prop :=
  match urls, rs with
  | [], [] => True
  | url :: urls', res :: rs' =>
      source_url res = reported_reference (resolved_reference self w url) /\
      reports_resolved self (after_turn self w url) urls' rs'
  | _, _ => False
  end.

(** ** C10: the Unpaywall resolver is never reached *)

(** The requests [unpaywall_lookup] makes: module-level GETs of the
    Unpaywall API. *)
Definition is_unpaywall_call (rq : Request) : bool :=
  match client rq with
  | RequestsGet => Py.startswith "https://api.unpaywall.org/v2/" (target rq)
  | SessionGet => false
  end.

(** Two transports that may differ in how the Unpaywall API behaves and
    in nothing else. *)
Definition same_but_unpaywall (t1 t2 : Transport) : Prop :=
  forall history rq, is_unpaywall_call rq = false -> t1 history rq = t2 history rq.

(** The downloader [self] on another network. *)
Definition with_transport (self : Env) (t : Transport) : Env :=
  mkEnv (out_dir self) t (anchor_hrefs self) (article_id self) (json_loads self)
        (bracketed_netloc_ok self).

(** No request sent so far went to the Unpaywall API. *)
Definition unpaywall_free (w : World) : Prop :=
  Forall (fun rq => is_unpaywall_call rq = false) (sent w).

(** Two bodies that do the same in every world and keep away from the
    Unpaywall API. *)
Definition alike {A} (m1 m2 : M A) : Prop :=
  forall w, m1 w = m2 w /\ (unpaywall_free w -> unpaywall_free (snd (m1 w))).

(** A body that leaves the world as it is. *)
Definition worldless {A} (m : M A) : Prop := forall w, snd (m w) = w.

(** An open-access record as the Unpaywall API returns it. *)
Definition oa_record : Json :=
  JObj [("oa_locations",
         JArr [JObj [("host_type", JStr "repository");
                     ("url_for_pdf", JStr "https://europepmc.org/a.pdf")];
               JObj [("host_type", JStr "publisher");
                     ("url_for_pdf", JStr "https://example.org/oa.pdf")]]);
        ("best_oa_location", JNull)].

(** A downloader whose JSON parser understands one body. *)
Definition lab : Env :=
  mkEnv "downloaded_papers" (fun _ _ => TransportFailed)
        (fun _ => []) (fun _ _ => None)
        (fun body => if String.eqb body "oa" then Some oa_record else None)
        (fun _ => true).

(** The Unpaywall API answers with the record; every other host with a
    page. *)
Definition api_up : Transport :=
  fun _ rq =>
    if is_unpaywall_call rq
    then Responded (Resp.mk 200 [("Content-Type", "application/json")]
                            (target rq) "oa" "oa")
    else Responded (page (target rq)).

(** The Unpaywall API cannot be reached; every other host answers as
    before. *)
Definition api_down : Transport :=
  fun _ rq =>
    if is_unpaywall_call rq then TransportFailed
    else Responded (page (target rq)).

(** ** The scenarios of the specification *)

(** arXiv serves the canonical PDF; nothing else can be reached. *)
Definition arxiv_only : Env :=
  stub (fun url =>
          if String.eqb url "https://arxiv.org/pdf/2301.00001.pdf"
          then Responded (pdf_file 200 url) else TransportFailed).

(** Only the [/full.pdf] variant of the bioRxiv article is a PDF. *)
Definition second_variant_only : Env :=
  stub (fun url =>
          if String.eqb url (biorxiv_article ++ "/full.pdf")
          then Responded (pdf_file 200 url)
          else Responded (Resp.mk 404 [("Content-Type", "text/html")] url
                                  "Not Found" "Not Found")).

(** PubMed knows a PMC identifier for every article, and every
    session GET is answered with a PDF. *)
Definition pmc_available : Env :=
  mkEnv "downloaded_papers"
        (fun _ rq =>
           match client rq with
           | RequestsGet => Responded (page (target rq))
           | SessionGet => Responded (pdf_file 200 (target rq))
           end)
        (fun _ => [])
        (fun _ id_type => if String.eqb id_type "pmc" then Some "PMC7029158" else None)
        (fun _ => None) (fun _ => true).

(** ** Further vocabulary: links, fetch helpers, budgets *)

(** An [href] that [extract_pdf_from_html] takes for a PDF link. *)
Definition is_pdf_href (a : string) : bool :=
  Py.contains ".pdf" (Py.lower (Py.strip a)).

(** A root-relative [href] made absolute on the site of [base_url]. *)
Definition absolutize (base_url href : string) : string :=
  if Py.startswith "/" href
  then Url.scheme (Url.urlparse base_url) ++ "://"
       ++ Url.netloc (Url.urlparse base_url) ++ href
  else href.

(** A call that always returns, and writes no file. *)
Definition returns_quietly {A} (m : M A) : Prop :=
  forall w, exists a w', m w = (Normal a, w') /\ written w' = written w.

(** No request is answered. *)
Definition cut_off (self : Env) : Prop :=
  forall history rq, transport self history rq = TransportFailed.

(** The GETs of the variants of [base_url] with the given suffixes. *)
Definition variant_requests (base_url : string) (suffixes : list string)
  : list Request :=
  map (fun s => mkRequest SessionGet (Py.rstrip "/" base_url ++ s)) suffixes.

(** [m] sends at most [n] requests, and forgets none that was sent. *)
Definition spends {A} (n : nat) (m : M A) : Prop :=
  forall w, exists new,
    sent (snd (m w)) = (sent w ++ new)%list /\ length new <= n.

(** [m] writes no file, however it ends. *)
Definition keeps_files {A} (m : M A) : Prop :=
  forall w, written (snd (m w)) = written w.

(** The paths of the successful results, in order. *)
Definition stored_paths (rs : list DownloadResult) : list string :=
  flat_map (fun res =>
              if success res
              then match local_path res with Some p => [p] | None => [] end
              else []) rs.

(** Whenever [m] returns, it has made one write if the result is a
    success, to the path the result reports, and none if it is a
    failure. *)
Definition accounts (m : M DownloadResult) : Prop :=
  forall w,
    match m w with
    | (Normal res, w') =>
        exists files,
          written w' = (written w ++ files)%list /\
          map fst files = stored_paths [res]
    | (Raised _, _) => True
    end.

(** Two PubMed references, for each of which [pmc_available] stores the
    PDF of PubMed Central. *)
Definition two_pubmed_references : list string :=
  ["https://pubmed.ncbi.nlm.nih.gov/31452104/";
   "https://pubmed.ncbi.nlm.nih.gov/29892012/"].

(** Two completions that agree in everything but the wording of the
    reason. *)
Definition same_up_to_reason (c1 c2 : Completion DownloadResult) : Prop :=
  match c1, c2 with
  | Normal a, Normal b =>
      success a = success b /\ source_url a = source_url b /\
      local_path a = local_path b /\ fallback_url a = fallback_url b
  | Raised e1, Raised e2 => e1 = e2
  | _, _ => False
  end.

(** The body that Nature, Science and Cell share, with its two messages. *)
Definition landing_page_handler (self : Env) (unreachable not_found url : string)
  : M DownloadResult :=
  r <- get self SessionGet url ;;
  if negb (Resp.status_code r =? 200)%Z then ret (Failed url unreachable)
  else fetch_extracted self url
         (extract_pdf_from_html self (Resp.text r) (Resp.url r))
         (Manual url url not_found).

(** The E-utilities URL [get_pubmed_xml] calls for a PubMed page. *)
Definition efetch_url (pubmed_url : string) : string :=
  "https://eutils.ncbi.nlm.nih.gov/entrez/eutils/efetch.fcgi"
  ++ "?db=pubmed&id=" ++ Py.after_last "/" (Py.rstrip "/" pubmed_url)
  ++ "&retmode=xml".

(** The identifier of type [id_type] that the metadata answer [r]
    yields: none unless the status is 200 and the body is not empty. *)
Definition listed_id (self : Env) (r : Response) (id_type : string)
  : option string :=
  if (Resp.status_code r =? 200)%Z && Py.truthy (Resp.text r)
  then article_id self (Resp.text r) id_type
  else None.

(** The URL [unpaywall_lookup] calls for a DOI. *)
Definition unpaywall_url (doi : string) : string :=
  "https://api.unpaywall.org/v2/" ++ doi ++ "?email=" ++ UNPAYWALL_EMAIL.

(** The value of [field] that makes an open-access location count:
    the location is hosted by the publisher and the value is true. *)
Definition publisher_value (field : string) (loc : Json) : option Json :=
  match loc with
  | JObj kv =>
      if json_is_str (dict_get "host_type" kv) "publisher"
         && json_truthy (dict_get field kv)
      then Some (dict_get field kv) else None
  | _ => None
  end.

Definition is_object (j : Json) : bool :=
  match j with JObj _ => true | _ => false end.

(** A character that leaves no topic behind: a comma or white space. *)
Definition blank_or_comma (a : ascii) : bool := Ascii.eqb a "," || Py.isspace a.

(** The DOI link prefix [find_pdf_link] looks for in a PubMed page. *)
Definition doi_link : string := "https://doi.org/".

(** Every host answers 200 with the given page text. *)
Definition serving (body : string) : Env :=
  stub (fun url =>
          Responded (Resp.mk 200 [("Content-Type", "text/html; charset=utf-8")]
                             url body body)).

Definition pubmed_record : Paper.t :=
  Paper.mk "pubmed" "https://pubmed.ncbi.nlm.nih.gov/31452104/".

(** An answer to the GET of a DOI link that [handle_pubmed] cannot use:
    no answer, a status other than 200, or an empty final URL or body. *)
Definition unresolved (o : Outcome) : bool :=
  match o with
  | Responded r =>
      negb (Resp.status_code r =? 200)%Z
      || negb (Py.truthy (Resp.url r)) || negb (Py.truthy (Resp.text r))
  | TransportFailed => true
  end.

(** PubMed lists a DOI and no PMC identifier for every article, and no
    session GET is answered. *)
Definition doi_listed : Env :=
  mkEnv "downloaded_papers"
        (fun _ rq =>
           match client rq with
           | RequestsGet => Responded (page (target rq))
           | SessionGet => TransportFailed
           end)
        (fun _ => [])
        (fun _ id_type => if String.eqb id_type "doi" then Some "10.1000/x" else None)
        (fun _ => None) (fun _ => true).

(** * Theorems *)

(** ** Checks of the model on concrete inputs *)

Example urlparse_nature :
  Url.urlparse "https://www.nature.com/articles/s41586-020-2649-2.pdf?x=1#top"
  = Url.mkParse "https" "www.nature.com" "/articles/s41586-020-2649-2.pdf".
Proof. reflexivity. Qed.

Example urlparse_bare_doi :
  Url.urlparse "10.1038/nature12373" = Url.mkParse "" "" "10.1038/nature12373".
Proof. reflexivity. Qed.

Example urlparse_params :
  Url.path (Url.urlparse "HTTP://Host:80/a;x/b;v=1.pdf") = "/a;x/b".
Proof. reflexivity. Qed.

Example basename_dir : Py.basename "/pmc/articles/PMC1/pdf/" = "".
Proof. reflexivity. Qed.

Example rstrip_slashes : Py.rstrip "/" "a/b//" = "a/b".
Proof. reflexivity. Qed.

Example arxiv_abs : ArxivRe.search "https://arxiv.org/abs/2301.00001v2" = Some "2301.00001".
Proof. reflexivity. Qed.

Example arxiv_no_id : ArxivRe.search "https://arxiv.org/abs/hep-th/9901001" = None.
Proof. reflexivity. Qed.

(** ** Reasoning about method bodies *)

Lemma wp_ret {A} (a : A) Q w : Q (Normal a) w -> wp (ret a) Q w.
Proof. exact (fun H => H). Qed.

Lemma wp_raise {A} e (Q : Completion A -> World -> Prop) w :
  Q (Raised e) w -> wp (raise e) Q w.
Proof. exact (fun H => H). Qed.

Lemma wp_bind {A B} (m : M A) (k : A -> M B) Q w :
  wp m (fun c w' =>
          match c with
          | Normal a => wp (k a) Q w'
          | Raised e => Q (Raised e) w'
          end) w ->
  wp (bind m k) Q w.
Proof.
  unfold wp, bind. destruct (m w) as [[a | e] w']; simpl; auto.
Qed.

Lemma wp_try_except {A} (m h : M A) Q w :
  wp m (fun c w' =>
          match c with
          | Normal a => Q (Normal a) w'
          | Raised _ => wp h Q w'
          end) w ->
  wp (try_except m h) Q w.
Proof.
  unfold wp, try_except. destruct (m w) as [[a | e] w']; simpl; auto.
Qed.

(** A normal return read back from [wp]. *)
Lemma wp_returned {A} (m : M A) P w a w' :
  wp m (on_return P) w -> m w = (Normal a, w') -> P a w'.
Proof. unfold wp. intros H E. rewrite E in H. exact H. Qed.

(** ** Strings *)

Lemma append_nil_r (s : string) : s ++ "" = s.
Proof. induction s; simpl; congruence. Qed.

Lemma append_assoc (a b c : string) : (a ++ b) ++ c = a ++ b ++ c.
Proof. induction a; simpl; congruence. Qed.

Lemma truthy_app_r (a b : string) : Py.truthy b = true -> Py.truthy (a ++ b) = true.
Proof. destruct a; simpl; auto. Qed.

Lemma lower_truthy (s : string) : Py.truthy (Py.lower s) = Py.truthy s.
Proof. destruct s; reflexivity. Qed.

Lemma endswith_truthy (suf s : string) :
  Py.truthy suf = true -> Py.endswith suf s = true -> Py.truthy s = true.
Proof.
  destruct s; simpl; auto.
  destruct suf; simpl; intros; congruence.
Qed.

Section Filenames.

Variable self : Env.

(** The name under which a PDF is stored is never empty: the default
    of [safe_filename] is never taken. *)
Lemma safe_filename_truthy url : Py.truthy (safe_filename url) = true.
Proof.
  unfold safe_filename.
  set (name := Py.basename _).
  destruct (Py.endswith ".pdf" (Py.lower name)) eqn:E; simpl.
  - assert (T : Py.truthy name = true).
    { rewrite <- lower_truthy. now apply (endswith_truthy ".pdf"). }
    rewrite T. exact T.
  - assert (T : Py.truthy (name ++ ".pdf") = true) by now apply truthy_app_r.
    rewrite T. exact T.
Qed.

(** [safe_filename] in closed form: the last path segment, with ".pdf"
    appended unless it already ends so.  "paper.pdf" is the result only
    for a segment named so. *)
Lemma safe_filename_closed_form url :
  safe_filename url
  = let name := Py.basename (Url.path (Url.urlparse url)) in
    if Py.endswith ".pdf" (Py.lower name) then name else name ++ ".pdf".
Proof.
  unfold safe_filename. cbv zeta.
  set (name := Py.basename _).
  destruct (Py.endswith ".pdf" (Py.lower name)) eqn:E; simpl.
  - assert (T : Py.truthy name = true).
    { rewrite <- lower_truthy. now apply (endswith_truthy ".pdf"). }
    now rewrite T.
  - assert (T : Py.truthy (name ++ ".pdf") = true) by now apply truthy_app_r.
    now rewrite T.
Qed.

Lemma path_join_truthy a b : Py.truthy b = true -> Py.truthy (Py.path_join a b) = true.
Proof.
  intros T. unfold Py.path_join.
  destruct (Py.startswith "/" b); auto.
  destruct (negb (Py.truthy a) || Py.endswith "/" a);
    repeat (apply truthy_app_r); exact T.
Qed.

Lemma save_pdf_spec r u w :
  save_pdf self r u w =
    (Normal (Py.path_join (out_dir self) (safe_filename u)),
     mkWorld (sent w)
       (written w ++ [(Py.path_join (out_dir self) (safe_filename u),
                       Resp.content r)])%list).
Proof. reflexivity. Qed.

Lemma save_pdf_truthy r u Q w :
  (forall path w', Py.truthy path = true -> Q (Normal path) w') ->
  wp (save_pdf self r u) Q w.
Proof.
  intros H. unfold wp. rewrite save_pdf_spec. simpl.
  apply H, path_join_truthy, safe_filename_truthy.
Qed.

End Filenames.

(** ** The shape of a result *)

Create HintDb shape.
#[local] Hint Constructors outcome_of : shape.

Lemma outcome_shaped src res : outcome_of src res -> shaped res.
Proof. intros [path T | why T | page why T]; unfold shaped; simpl; auto. Qed.

Lemma outcome_source src res : outcome_of src res -> source_url res = src.
Proof. now intros [path T | why T | page why T]. Qed.

Lemma wp_any {A} (m : M A) (Q : Completion A -> World -> Prop) w :
  (forall c w', Q c w') -> wp m Q w.
Proof. unfold wp. auto. Qed.

(** Run the first call of a body, whatever it gives, and go on. *)
Ltac after_any :=
  apply wp_bind; apply wp_any; intros [? | ?] ?; [ | exact I ].

(** Split on the value a body branches on. *)
Ltac on_branch :=
  match goal with
  | |- wp (match ?d with Some _ => _ | None => _ end) _ _ => destruct d
  | |- wp (let '(_, _) := ?p in _) _ _ => destruct p
  | |- wp (if ?b then _ else _) _ _ => destruct b
  end.

Lemma returned_outcome src m w res w' :
  returns_for src m -> m w = (Normal res, w') -> outcome_of src res.
Proof. intros H E. exact (wp_returned _ _ _ _ _ (H w) E). Qed.

Section Shapes.

Variable self : Env.

Lemma ret_for src res : outcome_of src res -> returns_for src (ret res).
Proof. intros H w. apply wp_ret. exact H. Qed.

Lemma save_then_downloaded r u url : 
  returns_for url (path <- save_pdf self r u ;; ret (Downloaded url path)).
Proof.
  intros w. apply wp_bind, save_pdf_truthy. intros. apply wp_ret. simpl.
  auto with shape.
Qed.

Lemma if_pdf_for src pdf yes no :
  (forall r, returns_for src (yes r)) -> returns_for src no ->
  returns_for src (if_pdf pdf yes no).
Proof.
  intros Hy Hn w. unfold if_pdf.
  destruct pdf as [r | ]; [destruct (ok r) | ]; first [apply Hy | apply Hn].
Qed.

(** Close a branch that ends a handler. *)
Ltac finish :=
  first
    [ apply ret_for; auto with shape; fail
    | apply if_pdf_for;
      [ intros ? ?; apply save_then_downloaded | try (apply ret_for; auto with shape) ] ].

Lemma fetch_extracted_for url pdf_url otherwise :
  outcome_of url otherwise ->
  returns_for url (fetch_extracted self url pdf_url otherwise).
Proof.
  intros H w. unfold fetch_extracted.
  destruct pdf_url as [p | ]; [ | now apply ret_for].
  destruct (Py.truthy p); [ | now apply ret_for].
  after_any. apply if_pdf_for.
  - intros ? ?. apply save_then_downloaded.
  - now apply ret_for.
Qed.

Lemma pubmed_by_doi_for url : returns_for url (pubmed_by_doi self url).
Proof.
  intros w. unfold pubmed_by_doi.
  after_any. on_branch; [ | finish].
  on_branch; [finish | ].
  after_any. on_branch; [ | finish].
  on_branch. on_branch; [finish | ].
  apply fetch_extracted_for. auto with shape.
Qed.

Lemma handle_pubmed_for url : returns_for url (handle_pubmed self url).
Proof.
  intros w. unfold handle_pubmed.
  after_any. on_branch; [ | apply pubmed_by_doi_for].
  on_branch; [ | apply pubmed_by_doi_for].
  after_any. on_branch. finish. apply pubmed_by_doi_for.
Qed.

Lemma handle_arxiv_for url : returns_for url (handle_arxiv self url).
Proof.
  intros w. unfold handle_arxiv.
  destruct (ArxivRe.search url) as [id | ]; [ | finish].
  after_any. finish.
Qed.

Lemma handle_generic_for url : returns_for url (handle_generic self url).
Proof. intros w. unfold handle_generic. after_any. finish. Qed.

(** The bioRxiv handler reports the URL cut at the first question mark. *)
Lemma handle_biorxiv_for url :
  returns_for (Py.before_first "?" url) (handle_biorxiv self url).
Proof.
  intros w. unfold handle_biorxiv.
  after_any. on_branch; [ | finish]. on_branch. finish.
Qed.

(** Nature, Science and Cell have one body up to the two messages. *)
Lemma landing_page_for url unreachable not_found :
  Py.truthy unreachable = true -> Py.truthy not_found = true ->
  returns_for url
    (r <- get self SessionGet url ;;
     if negb (Resp.status_code r =? 200)%Z then ret (Failed url unreachable)
     else fetch_extracted self url
            (extract_pdf_from_html self (Resp.text r) (Resp.url r))
            (Manual url url not_found)).
Proof.
  intros T1 T2 w. after_any. on_branch; [finish | ].
  apply fetch_extracted_for; auto with shape.
Qed.

Lemma handle_nature_for url : returns_for url (handle_nature self url).
Proof. now apply landing_page_for. Qed.

Lemma handle_science_for url : returns_for url (handle_science self url).
Proof. now apply landing_page_for. Qed.

Lemma handle_cell_for url : returns_for url (handle_cell self url).
Proof. now apply landing_page_for. Qed.

Lemma frontiers_by_page_for url : returns_for url (frontiers_by_page self url).
Proof.
  intros w. unfold frontiers_by_page. after_any. on_branch; [ | finish].
  apply fetch_extracted_for; auto with shape.
Qed.

Lemma handle_frontiers_for url : returns_for url (handle_frontiers self url).
Proof.
  intros w. unfold handle_frontiers.
  after_any. on_branch; [ | apply frontiers_by_page_for].
  on_branch. finish. apply frontiers_by_page_for.
Qed.

Lemma handlers_shaped h url w res w' :
  In h (handlers self) -> h url w = (Normal res, w') -> shaped res.
Proof.
  unfold handlers. simpl.
  intros [<- | [<- | [<- | [<- | [<- | [<- | [<- | [<- | []]]]]]]]] Hrun;
    eapply outcome_shaped, returned_outcome; try exact Hrun.
  - apply handle_pubmed_for.
  - apply handle_arxiv_for.
  - apply handle_biorxiv_for.
  - apply handle_nature_for.
  - apply handle_science_for.
  - apply handle_cell_for.
  - apply handle_frontiers_for.
  - apply handle_generic_for.
Qed.

End Shapes.

(** ** C1: one populated field per result *)

(** C1, as stated, fails: the Nature handler, given a landing page
    without a PDF link, returns a result whose [fallback_url] and
    [reason] are both populated. *)
Lemma C1_nature_populates_two_fields :
  handle_nature pages_only nature_article fresh
  = (Normal nature_manual, mkWorld [mkRequest SessionGet nature_article] [])
  /\ In (handle_nature pages_only) (handlers pages_only)
  /\ fallback_url nature_manual = Some nature_article
  /\ reason nature_manual = Some "Nature PDF not found"
  /\ populated_fields nature_manual = 2.
Proof.
  split; [reflexivity | split; [ | repeat split]].
  unfold handlers. simpl. tauto.
Qed.

(** C1, amended: every result a strategy handler returns is either a
    success, whose [local_path] is non-empty and whose [fallback_url]
    and [reason] are absent, or a failure, whose [local_path] is absent
    and whose [reason] is non-empty (a [fallback_url] may come with the
    reason). *)
Theorem C1_result_shape (self : Env) (h : string -> M DownloadResult)
    (url : string) (w w' : World) (res : DownloadResult) :
  In h (handlers self) ->
  h url w = (Normal res, w') ->
  (success res = true ->
     populated (local_path res) = true /\
     fallback_url res = None /\ reason res = None) /\
  (success res = false ->
     local_path res = None /\ populated (reason res) = true).
Proof.
  intros Hh Hrun.
  assert (S : shaped res) by exact (handlers_shaped self h url w res w' Hh Hrun).
  unfold shaped in S.
  destruct (success res); split; intros E; auto; discriminate.
Qed.

Lemma C1_result_shape_witness :
  (success nature_manual = true ->
     populated (local_path nature_manual) = true /\
     fallback_url nature_manual = None /\ reason nature_manual = None) /\
  (success nature_manual = false ->
     local_path nature_manual = None /\
     populated (reason nature_manual) = true).
Proof.
  apply (C1_result_shape pages_only (handle_nature pages_only) nature_article
           fresh (mkWorld [mkRequest SessionGet nature_article] [])).
  - unfold handlers. simpl. tauto.
  - reflexivity.
Defined.

(** ** C2: transport failures inside a handler *)

(** C2 fails on the code: the landing-page GET of [handle_nature] is
    not guarded, so a transport failure leaves the handler as an
    exception and no result is returned. *)
Theorem C2_nature_raises :
  handle_nature offline nature_article fresh
  = (Raised RequestException, mkWorld [mkRequest SessionGet nature_article] []).
Proof. reflexivity. Qed.

(** ** C3: the batch report *)

(** C3 fails on the code: with the second of three references a Nature
    article that cannot be reached, [download] ends with the exception
    and returns no report, although the first reference was downloaded
    and the third would have been. *)
Theorem C3_batch_aborts :
  download nature_down
    ["https://arxiv.org/abs/2301.00001"; nature_article;
     "https://example.org/files/paper.pdf"] fresh
  = (Raised RequestException,
     mkWorld [mkRequest SessionGet "https://arxiv.org/pdf/2301.00001.pdf";
              mkRequest SessionGet nature_article]
             [("downloaded_papers/2301.00001.pdf", "%PDF-1.7")])
  /\ download nature_down
       ["https://arxiv.org/abs/2301.00001";
        "https://example.org/files/paper.pdf"] fresh
     = (Normal [Downloaded "https://arxiv.org/abs/2301.00001"
                  "downloaded_papers/2301.00001.pdf";
                Downloaded "https://example.org/files/paper.pdf"
                  "downloaded_papers/paper.pdf"],
        mkWorld [mkRequest SessionGet "https://arxiv.org/pdf/2301.00001.pdf";
                 mkRequest SessionGet "https://example.org/files/paper.pdf"]
                [("downloaded_papers/2301.00001.pdf", "%PDF-1.7");
                 ("downloaded_papers/paper.pdf", "%PDF-1.7")]).
Proof. split; reflexivity. Qed.

(** ** C6: the stored file name *)

(** C6 fails on the code: the suffix is appended before the default is
    considered, so a URL whose path ends in a slash (the PMC PDF URL that
    [try_pmc_pdf] builds is one) is stored as [.pdf], not as
    [paper.pdf].  The two examples of the claim hold. *)
Theorem C6_empty_name_is_dot_pdf :
  safe_filename "https://www.ncbi.nlm.nih.gov/pmc/articles/PMC7029158/pdf/" = ".pdf"
  /\ safe_filename "https://example.org" = ".pdf"
  /\ safe_filename "https://www.biorxiv.org/content/10.1101/2020.01.01.12345.full"
     = "2020.01.01.12345.full.pdf"
  /\ safe_filename "https://example.org/files/paper.pdf" = "paper.pdf".
Proof. repeat split; reflexivity. Qed.

(** ** C4: routing a DOI reference *)


Lemma get_handler_doi self url w :
  is_doi_url url = true ->
  get_handler self url w
  = (routing self (doi_target self w url), after_get w SessionGet url).
Proof.
  intros D.
  unfold get_handler, bind, try_except, get, doi_target, routing, parses,
    host_of, after_get.
  rewrite D.
  destruct (transport self (sent w) (mkRequest SessionGet url)) as [r | ]; simpl.
  - destruct (Resp.status_code r =? 200)%Z; simpl;
      destruct (Url.accepted _ _); reflexivity.
  - destruct (Url.accepted _ _); reflexivity.
Qed.

Lemma get_handler_plain self url w :
  is_doi_url url = false ->
  get_handler self url w = (routing self url, w).
Proof.
  intros D. unfold get_handler, bind, routing, parses, host_of. rewrite D. simpl.
  destruct (Url.accepted _ _); reflexivity.
Qed.




(** ** Substrings *)

Lemma startswith_app p post : Py.startswith p (p ++ post) = true.
Proof.
  induction p as [ | a p IH]; simpl; [reflexivity | ].
  now rewrite Ascii.eqb_refl, IH.
Qed.

Lemma startswith_inv p s :
  Py.startswith p s = true -> exists post, s = p ++ post.
Proof.
  revert s. induction p as [ | a p IH]; intros s H; simpl in *.
  - now exists s.
  - destruct s as [ | b s]; [discriminate | ].
    apply andb_true_iff in H as [E H]. apply Ascii.eqb_eq in E. subst b.
    destruct (IH _ H) as [post ->]. now exists post.
Qed.

Lemma contains_startswith sub s :
  Py.startswith sub s = true -> Py.contains sub s = true.
Proof. intros H. destruct s; simpl; now rewrite H. Qed.

(** [sub in s] holds exactly when [s] is [pre ++ sub ++ post]. *)
Lemma contains_iff sub s :
  Py.contains sub s = true <-> exists pre post, s = pre ++ sub ++ post.
Proof.
  split.
  - induction s as [ | a s IH]; simpl; intros H.
    + rewrite orb_false_r in H. destruct (startswith_inv _ _ H) as [post E].
      now exists "", post.
    + apply orb_true_iff in H as [H | H].
      * destruct (startswith_inv _ _ H) as [post E]. now exists "", post.
      * destruct (IH H) as (pre & post & ->). now exists (String a pre), post.
  - intros (pre & post & ->).
    induction pre as [ | a pre IH]; simpl.
    + apply contains_startswith, startswith_app.
    + rewrite IH. apply orb_true_r.
Qed.

Lemma lower_app a b : Py.lower (a ++ b) = Py.lower a ++ Py.lower b.
Proof. induction a; simpl; congruence. Qed.

Lemma lower_app_inv a b s :
  Py.lower s = a ++ b ->
  exists a' b', s = a' ++ b' /\ Py.lower a' = a /\ Py.lower b' = b.
Proof.
  revert s. induction a as [ | x a IH]; intros s H; simpl in *.
  - now exists "", s.
  - destruct s as [ | y s]; [discriminate | ]. simpl in H.
    injection H as Hx Hs. destruct (IH _ Hs) as (a' & b' & -> & <- & <-).
    exists (String y a'), b'. simpl. now rewrite Hx.
Qed.

Lemma contains_lower_iff needle hay :
  Py.contains needle (Py.lower hay) = true <-> occurs_ignoring_case needle hay.
Proof.
  rewrite contains_iff. split.
  - intros (pre & post & E).
    apply lower_app_inv in E as (pre' & rest & -> & _ & E).
    apply lower_app_inv in E as (mid & post' & -> & E & _).
    now exists pre', mid, post'.
  - intros (pre & mid & post & -> & <-).
    exists (Py.lower pre), (Py.lower post). now rewrite !lower_app.
Qed.

(** ** One direct attempt *)

Lemma try_direct_pdf_spec self url w :
  try_direct_pdf self url w
  = (Normal (declared_pdf self w url), after_get w SessionGet url).
Proof.
  unfold try_direct_pdf, declared_pdf, bind, try_except, get, after_get.
  destruct (transport self (sent w) (mkRequest SessionGet url)) as [r | ]; simpl.
  - destruct (is_pdf r); reflexivity.
  - reflexivity.
Qed.

Lemma ok_false_iff r :
  ok r = false <-> (400 <= Resp.status_code r < 600)%Z.
Proof.
  unfold ok. rewrite negb_false_iff, andb_true_iff, Z.leb_le, Z.ltb_lt. tauto.
Qed.

Lemma handle_generic_spec self url w :
  handle_generic self url w
  = match delivered self w url with
    | Some r => (Normal (stored self url url),
                 after_save self (after_get w SessionGet url) url r)
    | None => (Normal (Failed url "No direct PDF"), after_get w SessionGet url)
    end.
Proof.
  unfold handle_generic, bind, delivered. rewrite try_direct_pdf_spec.
  destruct (declared_pdf self w url) as [r | ]; simpl; [ | reflexivity].
  destruct (ok r); reflexivity.
Qed.

(** ** C5: the Generic strategy *)

(** C5, as stated, fails: a response whose status is not 200 (here 203)
    and whose content type is PDF is stored and reported as a success. *)
Lemma C5_non_200_is_stored :
  handle_generic behind_proxy "https://example.org/files/paper" fresh
  = (Normal (Downloaded "https://example.org/files/paper"
               "downloaded_papers/paper.pdf"),
     mkWorld [mkRequest SessionGet "https://example.org/files/paper"]
             [("downloaded_papers/paper.pdf", "%PDF-1.7")])
  /\ transport behind_proxy [] (mkRequest SessionGet "https://example.org/files/paper")
     = Responded (pdf_file 203 "https://example.org/files/paper")
  /\ (Resp.status_code (pdf_file 203 "https://example.org/files/paper") =? 200)%Z
     = false.
Proof. repeat split; reflexivity. Qed.

(** C5, amended: when the response to the GET of a Generic reference has
    a content-type header that does not contain "application/pdf"
    (ignoring case), or a status code from 400 to 599, the result has
    [success = false], the reason "No direct PDF" and neither
    [local_path] nor [fallback_url].  The PDF check is true exactly when
    the content-type header contains "application/pdf", ignoring case. *)
Theorem C5_generic_failure (self : Env) (url : string) (w : World) (r : Response) :
  transport self (sent w) (mkRequest SessionGet url) = Responded r ->
  (is_pdf r = true <->
     occurs_ignoring_case "application/pdf"
       (headers_get "Content-Type" (Resp.headers r))) /\
  (is_pdf r = false \/ (400 <= Resp.status_code r < 600)%Z ->
     handle_generic self url w
     = (Normal (mkResult false url None None (Some "No direct PDF")),
        after_get w SessionGet url)).
Proof.
  intros T. split; [apply contains_lower_iff | ].
  rewrite handle_generic_spec. unfold delivered, declared_pdf. rewrite T.
  intros [P | S].
  - now rewrite P.
  - apply ok_false_iff in S. destruct (is_pdf r); [now rewrite S | reflexivity].
Qed.

Lemma C5_generic_failure_witness :
  (is_pdf (Resp.mk 404 [("content-type", "text/html")]
             "https://example.org/a" "Not Found" "Not Found") = true <->
     occurs_ignoring_case "application/pdf"
       (headers_get "Content-Type"
          (Resp.headers (Resp.mk 404 [("content-type", "text/html")]
                           "https://example.org/a" "Not Found" "Not Found")))) /\
  handle_generic not_found "https://example.org/a" fresh
  = (Normal (mkResult false "https://example.org/a" None None (Some "No direct PDF")),
     after_get fresh SessionGet "https://example.org/a").
Proof.
  destruct (C5_generic_failure not_found "https://example.org/a" fresh
              (Resp.mk 404 [("content-type", "text/html")]
                 "https://example.org/a" "Not Found" "Not Found") eq_refl)
    as (H1 & H2).
  split; [exact H1 | ].
  apply H2. left. reflexivity.
Defined.

(** ** C8: the two bioRxiv variants *)

Lemma try_suffix_pdf_cons self base_url s suffixes w :
  try_suffix_pdf self base_url (s :: suffixes) w
  = match delivered self w (Py.rstrip "/" base_url ++ s) with
    | Some r => (Normal (Some (r, Py.rstrip "/" base_url ++ s)),
                 after_get w SessionGet (Py.rstrip "/" base_url ++ s))
    | None => try_suffix_pdf self base_url suffixes
                (after_get w SessionGet (Py.rstrip "/" base_url ++ s))
    end.
Proof.
  simpl. unfold bind at 1. rewrite try_direct_pdf_spec. unfold delivered.
  destruct (declared_pdf self w _) as [r | ]; [ | reflexivity].
  destruct (ok r); reflexivity.
Qed.

(** Two suffixes: the second is requested only after the first was
    not delivered. *)
Lemma try_suffix_pdf_two self base_url s1 s2 w :
  try_suffix_pdf self base_url [s1; s2] w
  = let first := Py.rstrip "/" base_url ++ s1 in
    let second := Py.rstrip "/" base_url ++ s2 in
    let w1 := after_get w SessionGet first in
    let w2 := after_get w1 SessionGet second in
    match delivered self w first with
    | Some r => (Normal (Some (r, first)), w1)
    | None =>
        match delivered self w1 second with
        | Some r => (Normal (Some (r, second)), w2)
        | None => (Normal None, w2)
        end
    end.
Proof.
  cbv zeta. rewrite try_suffix_pdf_cons.
  destruct (delivered self w _); [reflexivity | ].
  rewrite try_suffix_pdf_cons.
  destruct (delivered self _ _); reflexivity.
Qed.

Lemma delivered_ok self w url r : delivered self w url = Some r -> ok r = true.
Proof.
  unfold delivered. destruct (declared_pdf self w url) as [r' | ]; [ | discriminate].
  destruct (ok r') eqn:O; [ | discriminate]. now intros [= <-].
Qed.

(** C8, as stated, fails: only the [/full.pdf] variant returns a PDF
    content type, yet the result is a failure, because that response has
    an error status. *)
Lemma C8_pdf_content_type_rejected :
  handle_biorxiv second_variant_unavailable biorxiv_article fresh
  = (Normal (Failed biorxiv_article "bioRxiv PDF not found"),
     mkWorld [mkRequest SessionGet (biorxiv_article ++ ".full.pdf");
              mkRequest SessionGet (biorxiv_article ++ "/full.pdf")] [])
  /\ declared_pdf second_variant_unavailable fresh (biorxiv_article ++ ".full.pdf")
     = None
  /\ declared_pdf second_variant_unavailable
       (after_get fresh SessionGet (biorxiv_article ++ ".full.pdf"))
       (biorxiv_article ++ "/full.pdf")
     = Some (pdf_file 503 (biorxiv_article ++ "/full.pdf")).
Proof. repeat split; reflexivity. Qed.

(** C8, amended: the bioRxiv/medRxiv strategy cuts the URL at the first
    question mark and probes the variant [.full.pdf] and then the variant
    [/full.pdf] of what is left (without trailing slashes), stopping at
    the first whose response has a PDF content type and a status outside
    400-599: when the first variant answers so, it is the only GET and
    its body is stored; otherwise the second variant is requested next,
    and when it answers so the result is a success stored from the
    second variant; otherwise the result is the failure "bioRxiv PDF not
    found" after exactly these two GETs. *)
Theorem C8_biorxiv_variants (self : Env) (url : string) (w : World) :
  let src := Py.before_first "?" url in
  let first := Py.rstrip "/" src ++ ".full.pdf" in
  let second := Py.rstrip "/" src ++ "/full.pdf" in
  let w1 := after_get w SessionGet first in
  let w2 := after_get w1 SessionGet second in
  handle_biorxiv self url w
  = match delivered self w first with
    | Some r => (Normal (stored self src first), after_save self w1 first r)
    | None =>
        match delivered self w1 second with
        | Some r => (Normal (stored self src second), after_save self w2 second r)
        | None => (Normal (Failed src "bioRxiv PDF not found"), w2)
        end
    end.
Proof.
  intros src first second w1 w2.
  unfold handle_biorxiv, bind. fold src.
  rewrite try_suffix_pdf_two. cbv zeta. fold first second w1 w2.
  destruct (delivered self w first) as [r | ] eqn:D1.
  - unfold if_pdf. cbv beta iota. now rewrite (delivered_ok _ _ _ _ D1).
  - destruct (delivered self w1 second) as [r | ] eqn:D2; [ | reflexivity].
    unfold if_pdf. cbv beta iota. now rewrite (delivered_ok _ _ _ _ D2).
Qed.

(** ** C7: the arXiv strategy *)

Lemma span_app_stop p x c r :
  p c = false ->
  Py.span p (x ++ String c r) = (fst (Py.span p x), snd (Py.span p x) ++ String c r).
Proof.
  intros Hc. induction x as [ | a x IH]; simpl.
  - now rewrite Hc.
  - destruct (p a); [ | reflexivity].
    rewrite IH. now destruct (Py.span p x).
Qed.

Lemma match_id_stop x c r r' :
  Py.isdigit c = false -> c <> "."%char ->
  ArxivRe.match_id (x ++ String c r) = ArxivRe.match_id (x ++ String c r').
Proof.
  intros Hc Hd. unfold ArxivRe.match_id.
  rewrite !span_app_stop by exact Hc.
  destruct (Py.span Py.isdigit x) as [d1 y]; simpl.
  destruct d1 as [ | a d1]; [reflexivity | ].
  destruct y as [ | b y]; simpl.
  - destruct (Ascii.eqb_spec c "."); [contradiction | ].
    destruct c as [[] [] [] [] [] [] [] []]; try reflexivity. contradiction.
  - destruct b as [[] [] [] [] [] [] [] []]; try reflexivity.
    rewrite !span_app_stop by exact Hc.
    now destruct (Py.span Py.isdigit y).
Qed.

(** Decide every comparison of characters in the goal. *)
Ltac split_eqb :=
  repeat match goal with
         | |- context [Ascii.eqb ?x ?y] =>
             destruct (Ascii.eqb_spec x y); [subst | ]; simpl
         end.

Lemma match_here_abs_pdf pre t :
  ArxivRe.match_here (pre ++ "arxiv.org/abs/" ++ t)
  = ArxivRe.match_here (pre ++ "arxiv.org/pdf/" ++ t).
Proof.
  unfold ArxivRe.match_here.
  do 14 (destruct pre as [ | ? pre]; [simpl; split_eqb; reflexivity | ]).
  simpl.
  rewrite (match_id_stop pre "a" _ ("rxiv.org/pdf/" ++ t)) by (reflexivity || discriminate).
  reflexivity.
Qed.

Lemma search_unfold s :
  ArxivRe.search s
  = match ArxivRe.match_here s with
    | Some id => Some id
    | None => match s with
              | EmptyString => None
              | String _ r => ArxivRe.search r
              end
    end.
Proof. destruct s; reflexivity. Qed.

Lemma search_abs_pdf pre t :
  ArxivRe.search (pre ++ "arxiv.org/abs/" ++ t)
  = ArxivRe.search (pre ++ "arxiv.org/pdf/" ++ t).
Proof.
  induction pre as [ | a pre IH].
  - simpl. destruct (ArxivRe.match_id t); reflexivity.
  - change (String a pre ++ ?x) with (String a (pre ++ x)).
    cbn [ArxivRe.search].
    change (String a (pre ++ ?x)) with (String a pre ++ x).
    rewrite match_here_abs_pdf, IH. reflexivity.
Qed.

Lemma span_split p s :
  s = fst (Py.span p s) ++ snd (Py.span p s) /\
  Py.all_chars p (fst (Py.span p s)) = true.
Proof.
  induction s as [ | a s [IH1 IH2]]; simpl; [auto | ].
  destruct (p a) eqn:E; simpl; [ | auto].
  destruct (Py.span p s) as [x y]; simpl in *.
  split; [now f_equal | now rewrite E].
Qed.

Lemma span_app_all p x y :
  Py.all_chars p x = true ->
  Py.span p (x ++ y) = (x ++ fst (Py.span p y), snd (Py.span p y)).
Proof.
  induction x as [ | a x IH]; simpl; intros H.
  - now destruct (Py.span p y).
  - apply andb_true_iff in H as [Ha Hx]. rewrite Ha, (IH Hx). reflexivity.
Qed.

Lemma match_id_sound s id :
  ArxivRe.match_id s = Some id -> numeric_id id /\ exists post, s = id ++ post.
Proof.
  unfold ArxivRe.match_id.
  destruct (span_split Py.isdigit s) as [E1 A1].
  destruct (Py.span Py.isdigit s) as [d1 r1]; simpl in *.
  destruct d1 as [ | a d1]; [discriminate | ].
  destruct r1 as [ | b r2]; [discriminate | ].
  destruct (Ascii.eqb_spec b "."); [subst b | ].
  2:{ destruct b as [[] [] [] [] [] [] [] []]; try discriminate. contradiction. }
  destruct (span_split Py.isdigit r2) as [E2 A2].
  destruct (Py.span Py.isdigit r2) as [d2 r3]; simpl in *.
  destruct d2 as [ | c d2]; [discriminate | ].
  intros [= <-]. split.
  - exists (String a d1), (String c d2). auto.
  - exists r3. rewrite E1, E2. simpl. rewrite !append_assoc. reflexivity.
Qed.

Lemma match_id_complete d1 d2 post :
  Py.all_chars Py.isdigit d1 = true -> Py.truthy d1 = true ->
  Py.all_chars Py.isdigit d2 = true -> Py.truthy d2 = true ->
  exists id, ArxivRe.match_id (d1 ++ "." ++ d2 ++ post) = Some id.
Proof.
  intros A1 T1 A2 T2. unfold ArxivRe.match_id.
  rewrite (span_app_all _ _ _ A1). simpl.
  rewrite append_nil_r.
  destruct d1 as [ | a d1]; [discriminate | ].
  rewrite (span_app_all _ _ _ A2).
  destruct d2 as [ | c d2]; [discriminate | ]. simpl.
  eexists. reflexivity.
Qed.

Lemma match_here_sound s id :
  ArxivRe.match_here s = Some id ->
  numeric_id id /\
  exists kind post,
    s = "arxiv.org/" ++ kind ++ "/" ++ id ++ post /\ (kind = "abs" \/ kind = "pdf").
Proof.
  unfold ArxivRe.match_here.
  destruct (Py.startswith "arxiv.org/abs/" s) eqn:A; cbn [orb].
  - apply startswith_inv in A as [t ->]. simpl.
    intros H. apply match_id_sound in H as [N [post ->]].
    split; [exact N | ]. exists "abs", post. auto.
  - destruct (Py.startswith "arxiv.org/pdf/" s) eqn:P; [ | discriminate].
    clear A. apply startswith_inv in P as [t ->]. simpl.
    intros H. apply match_id_sound in H as [N [post ->]].
    split; [exact N | ]. exists "pdf", post. auto.
Qed.

Lemma search_sound url id :
  ArxivRe.search url = Some id ->
  numeric_id id /\
  exists pre kind post,
    url = pre ++ "arxiv.org/" ++ kind ++ "/" ++ id ++ post /\
    (kind = "abs" \/ kind = "pdf").
Proof.
  induction url as [ | a url IH]; cbn [ArxivRe.search].
  - destruct (ArxivRe.match_here "") eqn:E; [ | discriminate].
    intros [= <-]. destruct (match_here_sound _ _ E) as [N (kind & post & E' & K)].
    split; [exact N | ]. now exists "", kind, post.
  - destruct (ArxivRe.match_here (String a url)) eqn:E.
    + intros [= <-]. destruct (match_here_sound _ _ E) as [N (kind & post & E' & K)].
      split; [exact N | ]. now exists "", kind, post.
    + intros H. destruct (IH H) as [N (pre & kind & post & -> & K)].
      split; [exact N | ]. now exists (String a pre), kind, post.
Qed.

Lemma search_complete url : arxiv_form url -> exists id, ArxivRe.search url = Some id.
Proof.
  intros (pre & kind & id & post & -> & K & d1 & d2 & -> & A1 & T1 & A2 & T2).
  destruct (match_id_complete d1 d2 post A1 T1 A2 T2) as [id E].
  assert (H : ArxivRe.match_here
                ("arxiv.org/" ++ kind ++ "/" ++ (d1 ++ "." ++ d2) ++ post)
              = Some id).
  { rewrite !append_assoc. destruct K as [-> | ->]; exact E. }
  clear E K.
  induction pre as [ | a pre IH].
  - exists id. change ("" ++ ?x) with x. now rewrite search_unfold, H.
  - change (String a pre ++ ?x) with (String a (pre ++ x)).
    rewrite search_unfold.
    destruct (ArxivRe.match_here (String a _)) as [id' | ];
      [now exists id' | exact IH].
Qed.

Lemma handle_arxiv_spec self url w :
  handle_arxiv self url w
  = match ArxivRe.search url with
    | None => (Normal (Failed url "Invalid arXiv URL"), w)
    | Some id =>
        let pdf_url := "https://arxiv.org/pdf/" ++ id ++ ".pdf" in
        match delivered self w pdf_url with
        | Some r => (Normal (stored self url pdf_url),
                     after_save self (after_get w SessionGet pdf_url) pdf_url r)
        | None => (Normal (Failed url "arXiv PDF failed"),
                   after_get w SessionGet pdf_url)
        end
    end.
Proof.
  unfold handle_arxiv. destruct (ArxivRe.search url) as [id | ]; [ | reflexivity].
  unfold bind, delivered. rewrite try_direct_pdf_spec. simpl.
  destruct (declared_pdf self w _) as [r | ]; simpl; [ | reflexivity].
  destruct (ok r); reflexivity.
Qed.

Lemma handle_arxiv_requests self url w id :
  ArxivRe.search url = Some id ->
  sent (snd (handle_arxiv self url w))
  = (sent w ++ [mkRequest SessionGet ("https://arxiv.org/pdf/" ++ id ++ ".pdf")])%list.
Proof.
  intros E. rewrite handle_arxiv_spec, E. simpl.
  destruct (delivered self w _); reflexivity.
Qed.

(** *** The identifier the pattern picks *)

Lemma span_rest p s : 
  match snd (Py.span p s) with
  | String c _ => p c = false
  | EmptyString => True
  end.
Proof.
  induction s as [ | a s IH]; simpl; [exact I | ].
  destruct (p a) eqn:E; [ | exact E].
  now destruct (Py.span p s).
Qed.

Lemma no_digit_ahead_span post :
  no_digit_ahead post = true -> Py.span Py.isdigit post = (EmptyString, post).
Proof.
  destruct post as [ | c post]; [reflexivity | ]. simpl.
  now destruct (Py.isdigit c).
Qed.

Lemma span_exact x y :
  Py.all_chars Py.isdigit x = true -> no_digit_ahead y = true ->
  Py.span Py.isdigit (x ++ y) = (x, y).
Proof.
  intros A N. rewrite (span_app_all _ _ _ A), (no_digit_ahead_span _ N).
  simpl. now rewrite append_nil_r.
Qed.

(** The two runs of digits are taken whole. *)
Lemma match_id_pinned id post :
  numeric_id id -> no_digit_ahead post = true ->
  ArxivRe.match_id (id ++ post) = Some id.
Proof.
  intros (d1 & d2 & -> & A1 & T1 & A2 & T2) N. unfold ArxivRe.match_id.
  rewrite !append_assoc.
  rewrite (span_exact d1 ("." ++ d2 ++ post) A1 eq_refl).
  destruct d1 as [ | a d1]; [discriminate | ].
  change ("." ++ d2 ++ post) with (String "." (d2 ++ post)). cbv beta iota.
  rewrite (span_exact d2 post A2 N).
  destruct d2 as [ | c d2]; [discriminate | reflexivity].
Qed.

Lemma match_id_greedy s id :
  ArxivRe.match_id s = Some id ->
  numeric_id id /\ exists post, s = id ++ post /\ no_digit_ahead post = true.
Proof.
  unfold ArxivRe.match_id.
  destruct (span_split Py.isdigit s) as [E1 A1].
  destruct (Py.span Py.isdigit s) as [d1 r1]; simpl in *.
  destruct d1 as [ | a d1]; [discriminate | ].
  destruct r1 as [ | b r2]; [discriminate | ].
  destruct (Ascii.eqb_spec b "."); [subst b | ].
  2:{ destruct b as [[] [] [] [] [] [] [] []]; try discriminate. contradiction. }
  destruct (span_split Py.isdigit r2) as [E2 A2].
  pose proof (span_rest Py.isdigit r2) as R.
  destruct (Py.span Py.isdigit r2) as [d2 r3]; simpl in *.
  destruct d2 as [ | c d2]; [discriminate | ].
  intros [= <-]. split.
  - exists (String a d1), (String c d2). auto.
  - exists r3. split.
    + rewrite E1, E2. simpl. rewrite !append_assoc. reflexivity.
    + destruct r3 as [ | x r3]; [reflexivity | ]. simpl. now rewrite R.
Qed.

Lemma match_here_pinned kind id post :
  kind = "abs" \/ kind = "pdf" -> numeric_id id -> no_digit_ahead post = true ->
  ArxivRe.match_here ("arxiv.org/" ++ kind ++ "/" ++ id ++ post) = Some id.
Proof.
  intros K N P. unfold ArxivRe.match_here.
  destruct K as [-> | ->]; simpl; now apply match_id_pinned.
Qed.

Lemma match_here_greedy s id :
  ArxivRe.match_here s = Some id ->
  numeric_id id /\
  exists kind post,
    s = "arxiv.org/" ++ kind ++ "/" ++ id ++ post /\
    (kind = "abs" \/ kind = "pdf") /\ no_digit_ahead post = true.
Proof.
  unfold ArxivRe.match_here.
  destruct (Py.startswith "arxiv.org/abs/" s) eqn:A; cbn [orb].
  - apply startswith_inv in A as [t ->]. simpl.
    intros H. apply match_id_greedy in H as [N (post & -> & P)].
    split; [exact N | ]. exists "abs", post. auto.
  - destruct (Py.startswith "arxiv.org/pdf/" s) eqn:P; [ | discriminate].
    clear A. apply startswith_inv in P as [t ->]. simpl.
    intros H. apply match_id_greedy in H as [N (post & -> & P)].
    split; [exact N | ]. exists "pdf", post. auto.
Qed.

Lemma match_here_complete kind id post :
  kind = "abs" \/ kind = "pdf" -> numeric_id id ->
  exists id', ArxivRe.match_here ("arxiv.org/" ++ kind ++ "/" ++ id ++ post) = Some id'.
Proof.
  intros K (d1 & d2 & -> & A1 & T1 & A2 & T2).
  destruct (match_id_complete d1 d2 post A1 T1 A2 T2) as [id' E].
  exists id'. rewrite !append_assoc. destruct K as [-> | ->]; exact E.
Qed.

(** *** The first occurrence of the pattern *)

Lemma append_eq_append (a b c d : string) :
  a ++ b = c ++ d ->
  (exists e, a = c ++ e /\ d = e ++ b) \/ (exists e, c = a ++ e /\ b = e ++ d).
Proof.
  revert c. induction a as [ | x a IH]; intros c E.
  - right. exists c. auto.
  - destruct c as [ | y c].
    + left. exists (String x a). auto.
    + simpl in E. injection E as -> E.
      destruct (IH _ E) as [(e & -> & ->) | (e & -> & ->)]; [left | right];
        exists e; auto.
Qed.

Lemma digit_is_not_a c : Py.isdigit c = true -> Ascii.eqb "a" c = false.
Proof.
  destruct c as [[] [] [] [] [] [] [] []]; intros H;
    first [reflexivity | vm_compute in H; discriminate].
Qed.

Lemma digits_hold_no_ar d tail :
  Py.all_chars Py.isdigit d = true ->
  Py.contains "ar" (d ++ tail) = Py.contains "ar" tail.
Proof.
  induction d as [ | x d IH]; [reflexivity | ].
  cbn [append Py.contains Py.startswith Py.all_chars].
  intros H. apply andb_true_iff in H as [X D].
  rewrite (digit_is_not_a _ X). cbn [andb orb]. now apply IH.
Qed.

(** No occurrence of the pattern, cut after the first digit of its
    second run and followed by an "r", goes on with "ar" after its first
    character: an occurrence does not overlap the start of another. *)
Lemma pattern_holds_no_ar kind d1 c :
  kind = "abs" \/ kind = "pdf" ->
  Py.all_chars Py.isdigit d1 = true -> Py.isdigit c = true ->
  Py.contains "ar" ("rxiv.org/" ++ kind ++ "/" ++ d1 ++ "." ++ String c "r") = false.
Proof.
  intros K A C.
  assert (T : Py.contains "ar" (d1 ++ "." ++ String c "r") = false).
  { rewrite (digits_hold_no_ar _ _ A).
    cbn [append Py.contains Py.startswith].
    rewrite (digit_is_not_a _ C). reflexivity. }
  destruct K as [-> | ->]; cbn [append Py.contains Py.startswith];
    cbn [Ascii.eqb Bool.eqb andb orb]; exact T.
Qed.

(** Bring every concatenation of the goal into right-nested form. *)
Ltac flatten_app := repeat first [rewrite append_assoc | progress cbn [append]].

(** An occurrence that starts before the end of [s], in a text that goes
    on with "arxiv.org/", lies within [s]. *)
Lemma match_here_within s t id :
  s <> EmptyString ->
  ArxivRe.match_here (s ++ "arxiv.org/" ++ t) = Some id -> arxiv_form s.
Proof.
  intros Ns H.
  destruct (match_here_sound _ _ H) as [(d1 & d2 & -> & A1 & T1 & A2 & T2)
                                        (kind & post & E & K)].
  destruct d2 as [ | c d2]; [discriminate | ].
  simpl in A2. apply andb_true_iff in A2 as [C A2].
  set (m := "arxiv.org/" ++ kind ++ "/" ++ d1 ++ "." ++ String c "").
  assert (Em : s ++ "arxiv.org/" ++ t = m ++ d2 ++ post).
  { rewrite E. unfold m. flatten_app. reflexivity. }
  assert (F : forall e, s = m ++ e -> arxiv_form s).
  { intros e ->. exists "", kind, (d1 ++ "." ++ String c ""), e. split; [ | split].
    - unfold m. flatten_app. reflexivity.
    - exact K.
    - exists d1, (String c ""). simpl. rewrite C. auto. }
  destruct (append_eq_append _ _ _ _ Em) as [(e & Es & _) | (e & Ee & Et)];
    [exact (F e Es) | ].
  destruct e as [ | y e]; [apply (F ""); now rewrite append_nil_r, Ee, append_nil_r | ].
  exfalso.
  destruct s as [ | x s0]; [congruence | ].
  simpl in Et. injection Et as <- Et.
  assert (Em' : "rxiv.org/" ++ kind ++ "/" ++ d1 ++ "." ++ String c "r"
                = s0 ++ "ar" ++ match e with
                                | EmptyString => EmptyString
                                | String _ e' => e' ++ "r"
                                end).
  { unfold m in Ee. cbn [append] in Ee. injection Ee as _ Ee.
    apply (f_equal (fun z => z ++ "r")) in Ee. revert Ee. flatten_app.
    intros ->. do 2 apply f_equal.
    destruct e as [ | z e']; [reflexivity | ].
    cbn [append] in Et. injection Et as <- _. reflexivity. }
  pose proof (pattern_holds_no_ar kind d1 c K A1 C) as N.
  rewrite Em' in N.
  assert (Y : Py.contains "ar" (s0 ++ "ar" ++ match e with
                                                | EmptyString => EmptyString
                                                | String _ e' => e' ++ "r"
                                                end) = true)
    by (apply contains_iff; eauto).
  congruence.
Qed.

Lemma arxiv_form_cons a s : arxiv_form s -> arxiv_form (String a s).
Proof.
  intros (pre & kind & id & post & -> & K & N).
  now exists (String a pre), kind, id, post.
Qed.

Lemma not_arxiv_form_nil : ~ arxiv_form EmptyString.
Proof.
  intros H. destruct (search_complete _ H) as [id E]. discriminate.
Qed.

(** The search returns the identifier of the first occurrence. *)
Lemma search_pinned url id :
  first_arxiv_id url id -> ArxivRe.search url = Some id.
Proof.
  intros (pre & kind & post & -> & K & N & P & F).
  induction pre as [ | a pre IH].
  - change ("" ++ ?x) with x. now rewrite search_unfold, match_here_pinned.
  - change (String a pre ++ ?x) with (String a (pre ++ x)).
    rewrite search_unfold.
    destruct (ArxivRe.match_here (String a (pre ++ _))) as [id' | ] eqn:E.
    + exfalso. apply F.
      apply (match_here_within (String a pre) (kind ++ "/" ++ id ++ post) id');
        [discriminate | exact E].
    + apply IH. intros G. apply F. now apply arxiv_form_cons.
Qed.

Lemma search_first url id :
  ArxivRe.search url = Some id -> first_arxiv_id url id.
Proof.
  induction url as [ | a url IH]; rewrite search_unfold.
  - destruct (ArxivRe.match_here "") eqn:E; [discriminate | discriminate].
  - destruct (ArxivRe.match_here (String a url)) as [id' | ] eqn:E.
    + intros [= <-].
      destruct (match_here_greedy _ _ E) as [N (kind & post & E' & K & P)].
      exists "", kind, post. repeat split; auto. apply not_arxiv_form_nil.
    + intros H. destruct (IH H) as (pre & kind & post & -> & K & N & P & F).
      exists (String a pre), kind, post. repeat split; auto.
      intros (p & k & i & po & Ep & Kp & Np).
      destruct p as [ | b p].
      * destruct (match_here_complete k i
                    (po ++ "arxiv.org/" ++ kind ++ "/" ++ id ++ post) Kp Np)
          as [id' E'].
        change ("" ++ ?x) with x in Ep.
        assert (X : String a (pre ++ "arxiv.org/" ++ kind ++ "/" ++ id ++ post)
                    = "arxiv.org/" ++ k ++ "/" ++ i ++ po
                      ++ "arxiv.org/" ++ kind ++ "/" ++ id ++ post).
        { change (String a (pre ++ ?x)) with (String a pre ++ x).
          rewrite Ep. now rewrite !append_assoc. }
        rewrite X in E. congruence.
      * simpl in Ep. injection Ep as _ Ep. apply F.
        now exists p, k, i, po.
Qed.

(** C7: for a reference that contains [arxiv.org/abs/<id>] or
    [arxiv.org/pdf/<id>] with [<id>] digits, a dot and digits, the arXiv
    strategy issues exactly one GET, to [https://arxiv.org/pdf/<id>.pdf],
    where [<id>] is the identifier of the first occurrence of the pattern
    in the reference, with both runs of digits taken whole; such an
    identifier exists for every reference that contains the pattern; the
    [abs] and the [pdf] form of a reference lead to the same request; and
    for a reference that does not contain the pattern the strategy
    returns at once the failure "Invalid arXiv URL", with no fallback URL
    and without any request. *)
Theorem C7_arxiv_single_attempt (self : Env) (url : string) (w : World) :
  (forall id,
     first_arxiv_id url id ->
     sent (snd (handle_arxiv self url w))
     = (sent w ++ [mkRequest SessionGet ("https://arxiv.org/pdf/" ++ id ++ ".pdf")])%list) /\
  (arxiv_form url -> exists id, first_arxiv_id url id) /\
  (forall pre rest,
     sent (snd (handle_arxiv self (pre ++ "arxiv.org/abs/" ++ rest) w))
     = sent (snd (handle_arxiv self (pre ++ "arxiv.org/pdf/" ++ rest) w))) /\
  (~ arxiv_form url ->
     handle_arxiv self url w
     = (Normal (mkResult false url None None (Some "Invalid arXiv URL")), w)).
Proof.
  split; [ | split; [ | split]].
  - intros id F. now apply handle_arxiv_requests, search_pinned.
  - intros F. destruct (search_complete url F) as [id E].
    exists id. now apply search_first.
  - intros pre rest. rewrite !handle_arxiv_spec, search_abs_pdf.
    destruct (ArxivRe.search _) as [id | ]; [ | reflexivity].
    simpl. destruct (delivered self w _); reflexivity.
  - intros NF. rewrite handle_arxiv_spec.
    destruct (ArxivRe.search url) as [id | ] eqn:E; [ | reflexivity].
    exfalso. apply NF.
    destruct (search_sound url id E) as [N (pre & kind & post & U & K)].
    now exists pre, kind, id, post.
Qed.

Lemma C7_arxiv_single_attempt_witness :
  first_arxiv_id "https://arxiv.org/abs/1706.03762v5" "1706.03762" /\
  sent (snd (handle_arxiv offline "https://arxiv.org/abs/1706.03762v5" fresh))
  = (sent fresh
       ++ [mkRequest SessionGet "https://arxiv.org/pdf/1706.03762.pdf"])%list.
Proof.
  assert (F : first_arxiv_id "https://arxiv.org/abs/1706.03762v5" "1706.03762").
  { exists "https://", "abs", "v5".
    split; [reflexivity | split; [now left | split; [ | split; [reflexivity | ]]]].
    - exists "1706", "03762". repeat split; reflexivity.
    - intros H. destruct (search_complete _ H) as [id E]. discriminate. }
  split; [exact F | ].
  exact (proj1 (C7_arxiv_single_attempt offline
                  "https://arxiv.org/abs/1706.03762v5" fresh) "1706.03762" F).
Defined.

(** ** C9: the reference a result reports *)

Lemma get_handler_spec self url w :
  get_handler self url w
  = (routing self (resolved_reference self w url),
     if is_doi_url url then after_get w SessionGet url else w).
Proof.
  unfold resolved_reference. destruct (is_doi_url url) eqn:D.
  - now apply get_handler_doi.
  - now apply get_handler_plain.
Qed.

(** When the router returns, it returns the resolved reference and the
    strategy for its host. *)
Lemma get_handler_returned self url w h resolved w1 :
  get_handler self url w = (Normal (h, resolved), w1) ->
  resolved = resolved_reference self w url /\
  h = handler_for self (host_of resolved) /\
  w1 = (if is_doi_url url then after_get w SessionGet url else w).
Proof.
  rewrite get_handler_spec. unfold routing.
  destruct (parses self _); [ | discriminate].
  intros [= <- <- <-]. auto.
Qed.

Lemma before_first_without c s :
  Py.has_char c s = false -> Py.before_first c s = s.
Proof.
  induction s as [ | a s IH]; simpl; [reflexivity | ].
  intros H. apply orb_false_iff in H as [E H]. rewrite E. now rewrite IH.
Qed.

Lemma biorxiv_host_handler self host :
  biorxiv_host host = true -> handler_for self host = handle_biorxiv self.
Proof.
  unfold biorxiv_host, handler_for. intros B.
  destruct (Py.contains "pubmed.ncbi.nlm.nih.gov" host); [discriminate | ].
  destruct (Py.contains "arxiv.org" host); [discriminate | ].
  simpl in B. now rewrite B.
Qed.

(** Every strategy but bioRxiv/medRxiv reports the URL it was given. *)
Lemma handler_for_source self host url w res w' :
  biorxiv_host host = false ->
  handler_for self host url w = (Normal res, w') ->
  source_url res = url.
Proof.
  unfold biorxiv_host, handler_for. intros B Hrun.
  eapply outcome_source, returned_outcome; [ | exact Hrun].
  repeat match goal with
         | |- context [Py.contains ?p host] => destruct (Py.contains p host)
         end;
    simpl in B; try discriminate;
    first [ apply handle_pubmed_for | apply handle_arxiv_for
          | apply handle_nature_for | apply handle_science_for
          | apply handle_cell_for | apply handle_frontiers_for
          | apply handle_generic_for ].
Qed.

(** One turn of the loop of [download]. *)
Lemma routed_result_source self url w h resolved w1 res w2 :
  get_handler self url w = (Normal (h, resolved), w1) ->
  h resolved w1 = (Normal res, w2) ->
  resolved = resolved_reference self w url /\
  source_url res = reported_reference resolved.
Proof.
  intros G Hrun. destruct (get_handler_returned _ _ _ _ _ _ G) as (E & -> & _).
  split; [exact E | ]. unfold reported_reference.
  destruct (biorxiv_host (host_of resolved)) eqn:B.
  - rewrite (biorxiv_host_handler _ _ B) in Hrun.
    exact (outcome_source _ _
             (returned_outcome _ _ _ _ _ (handle_biorxiv_for self resolved) Hrun)).
  - exact (handler_for_source _ _ _ _ _ _ B Hrun).
Qed.

(** What holds of every turn of the loop holds of the report, item by
    item and in the order of the input. *)
Lemma download_loop_inv self (P : string -> DownloadResult -> Prop) :
  (forall url w h resolved w1 res w2,
      get_handler self url w = (Normal (h, resolved), w1) ->
      h resolved w1 = (Normal res, w2) -> P url res) ->
  forall urls results w rs w',
    download_loop self results urls w = (Normal rs, w') ->
    exists new, rs = (results ++ new)%list /\ Forall2 P urls new.
Proof.
  intros Hstep. induction urls as [ | url urls IH]; intros results w rs w'.
  - intros [= <- <-]. exists []. split; [now rewrite app_nil_r | constructor].
  - cbn [download_loop]. unfold bind at 1.
    destruct (get_handler self url w) as [[[h resolved] | e] w1] eqn:G;
      [ | discriminate].
    unfold bind at 1.
    destruct (h resolved w1) as [[res | e] w2] eqn:H; [ | discriminate].
    intros L. destruct (IH _ _ _ _ L) as (new & -> & F).
    exists (res :: new). split.
    + now rewrite <- app_assoc.
    + constructor; [exact (Hstep _ _ _ _ _ _ _ G H) | exact F].
Qed.

(** The report has one result per reference. *)
Lemma download_length self urls w rs w' :
  download self urls w = (Normal rs, w') -> length rs = length urls.
Proof.
  intros D.
  destruct (download_loop_inv self (fun _ _ => True) (fun _ _ _ _ _ _ _ _ _ => I)
              _ _ _ _ _ D) as (new & -> & F).
  simpl. symmetry. exact (Forall2_length F).
Qed.

(** C9, as stated, fails: for a DOI reference that the resolver
    redirects, the result reports the final URL of the redirect, not the
    reference that was put in. *)
Lemma C9_doi_reference_replaced :
  download doi_to_nature [science_doi] fresh
  = (Normal [nature_manual],
     mkWorld [mkRequest SessionGet science_doi;
              mkRequest SessionGet nature_article] [])
  /\ source_url nature_manual = nature_article
  /\ String.eqb (source_url nature_manual) science_doi = false.
Proof. repeat split; reflexivity. Qed.

(** The report of a run follows the run: the reference of each turn is
    resolved in the world that turn starts in. *)
Lemma download_loop_run self urls :
  forall results w rs w',
    download_loop self results urls w = (Normal rs, w') ->
    exists new, rs = (results ++ new)%list /\ reports_resolved self w urls new.
Proof.
  induction urls as [ | url urls IH]; intros results w rs w'.
  - intros [= <- <-]. exists []. split; [now rewrite app_nil_r | exact I].
  - cbn [download_loop]. unfold bind at 1.
    destruct (get_handler self url w) as [[[h resolved] | e] w1] eqn:G;
      [ | discriminate].
    unfold bind at 1.
    destruct (h resolved w1) as [[res | e] w2] eqn:H; [ | discriminate].
    intros L. destruct (IH _ _ _ _ L) as (new & -> & F).
    exists (res :: new). split; [now rewrite <- app_assoc | ].
    cbn [reports_resolved]. split.
    + destruct (routed_result_source _ _ _ _ _ _ _ _ G H) as [<- S]. exact S.
    + replace (after_turn self w url) with w2; [exact F | ].
      unfold after_turn, bind. now rewrite G, H.
Qed.

(** C9, amended: each result of the report carries in [source_url] the
    reference as the router resolved it in the turn of that reference:
    the input reference itself, or, for a reference that contains
    "doi.org/" or starts with "10." and whose GET answered 200, the final
    URL of that GET; the bioRxiv/medRxiv strategy reports it cut before
    its first question mark.  So a reference that is no DOI reference is
    reported as it was put in unless it goes to the bioRxiv/medRxiv
    strategy and holds a question mark.  This holds for every strategy
    and every behaviour of the transport under which [download]
    returns. *)
Theorem C9_source_is_resolved_reference (self : Env) (urls : list string)
    (w w' : World) (rs : list DownloadResult) :
  download self urls w = (Normal rs, w') ->
  reports_resolved self w urls rs /\
  Forall2 (fun url res =>
             is_doi_url url = false ->
             source_url res = reported_reference url /\
             (biorxiv_host (host_of url) = false \/ Py.has_char "?" url = false ->
              source_url res = url)) urls rs.
Proof.
  intros D. split.
  - destruct (download_loop_run self _ _ _ _ _ D) as (new & -> & F). exact F.
  - assert (Hstep : forall url w0 h resolved w1 res w2,
               get_handler self url w0 = (Normal (h, resolved), w1) ->
               h resolved w1 = (Normal res, w2) ->
               is_doi_url url = false ->
               source_url res = reported_reference url /\
               (biorxiv_host (host_of url) = false \/ Py.has_char "?" url = false ->
                source_url res = url)).
    { intros url w0 h resolved w1 res w2 G H Dn.
      destruct (routed_result_source _ _ _ _ _ _ _ _ G H) as [E S].
      unfold resolved_reference in E. rewrite Dn in E. subst resolved.
      split; [exact S | ]. rewrite S. unfold reported_reference.
      intros [B | Q]; [now rewrite B | ].
      destruct (biorxiv_host (host_of url)); [ | reflexivity].
      now apply before_first_without. }
    destruct (download_loop_inv self _ Hstep _ _ _ _ _ D) as (new & -> & F).
    exact F.
Qed.

Lemma C9_source_is_resolved_reference_witness :
  reports_resolved doi_to_nature fresh
    [science_doi; biorxiv_article ++ "?versioned=true"]
    [nature_manual; Failed biorxiv_article "bioRxiv PDF not found"] /\
  Forall2 (fun url res =>
             is_doi_url url = false ->
             source_url res = reported_reference url /\
             (biorxiv_host (host_of url) = false \/ Py.has_char "?" url = false ->
              source_url res = url))
    [science_doi; biorxiv_article ++ "?versioned=true"]
    [nature_manual; Failed biorxiv_article "bioRxiv PDF not found"].
Proof.
  apply (C9_source_is_resolved_reference doi_to_nature
           [science_doi; biorxiv_article ++ "?versioned=true"] fresh
           (snd (download doi_to_nature
                   [science_doi; biorxiv_article ++ "?versioned=true"] fresh))).
  reflexivity.
Defined.

(** ** C10: the Unpaywall resolver is never reached *)

Lemma alike_ret {A} (a : A) : alike (ret a) (ret a).
Proof. intros w. split; [reflexivity | auto]. Qed.

Lemma alike_bind {A B} (m1 m2 : M A) (k1 k2 : A -> M B) :
  alike m1 m2 -> (forall a, alike (k1 a) (k2 a)) ->
  alike (bind m1 k1) (bind m2 k2).
Proof.
  intros Hm Hk w. destruct (Hm w) as [E Q]. unfold bind. rewrite <- E.
  destruct (m1 w) as [[a | e] w1]; simpl in *.
  - destruct (Hk a w1) as [E' Q']. split; auto.
  - split; auto.
Qed.

Lemma alike_try_except {A} (m1 m2 h1 h2 : M A) :
  alike m1 m2 -> alike h1 h2 -> alike (try_except m1 h1) (try_except m2 h2).
Proof.
  intros Hm Hh w. destruct (Hm w) as [E Q]. unfold try_except. rewrite <- E.
  destruct (m1 w) as [[a | e] w1]; simpl in *.
  - split; auto.
  - destruct (Hh w1) as [E' Q']. split; auto.
Qed.

Section Unpaywall.

Variable self : Env.
Variables t1 t2 : Transport.
Hypothesis same : same_but_unpaywall t1 t2.

Local Notation "'e1'" := (with_transport self t1).
Local Notation "'e2'" := (with_transport self t2).

Lemma alike_get client url :
  is_unpaywall_call (mkRequest client url) = false ->
  alike (get e1 client url) (get e2 client url).
Proof.
  intros Q w. unfold get. simpl transport.
  rewrite (same (sent w) _ Q). split; [reflexivity | ].
  intros F. destruct (t2 (sent w) _); simpl;
    (apply Forall_app; split; [exact F | now constructor]).
Qed.

Lemma alike_save_pdf r u : alike (save_pdf e1 r u) (save_pdf e2 r u).
Proof. intros w. split; [reflexivity | auto]. Qed.

Create HintDb alike.

Ltac alike_step :=
  first
    [ apply alike_ret
    | apply alike_save_pdf
    | apply alike_get; reflexivity
    | apply alike_bind; [ | intros ? ]
    | apply alike_try_except
    | match goal with
      | |- alike (match ?x with _ => _ end) (match ?x with _ => _ end) => destruct x
      | |- alike (if ?b then _ else _) (if ?b then _ else _) => destruct b
      | |- alike (let '(_, _) := ?x in _) (let '(_, _) := ?x in _) => destruct x
      end
    | solve [auto with alike] ].

Ltac alike_auto := repeat alike_step.

Lemma alike_try_direct_pdf url :
  alike (try_direct_pdf e1 url) (try_direct_pdf e2 url).
Proof. unfold try_direct_pdf. alike_auto. Qed.
#[local] Hint Resolve alike_try_direct_pdf : alike.

Lemma alike_try_suffix_pdf base suffixes :
  alike (try_suffix_pdf e1 base suffixes) (try_suffix_pdf e2 base suffixes).
Proof.
  induction suffixes as [ | s suffixes IH]; cbn [try_suffix_pdf]; alike_auto.
Qed.
#[local] Hint Resolve alike_try_suffix_pdf : alike.

Lemma alike_get_pubmed_xml url :
  alike (get_pubmed_xml e1 url) (get_pubmed_xml e2 url).
Proof. unfold get_pubmed_xml. alike_auto. Qed.
#[local] Hint Resolve alike_get_pubmed_xml : alike.

Lemma alike_get_doi_from_pubmed url :
  alike (get_doi_from_pubmed e1 url) (get_doi_from_pubmed e2 url).
Proof. unfold get_doi_from_pubmed. simpl article_id. alike_auto. Qed.
#[local] Hint Resolve alike_get_doi_from_pubmed : alike.

Lemma alike_get_pmcid_from_pubmed url :
  alike (get_pmcid_from_pubmed e1 url) (get_pmcid_from_pubmed e2 url).
Proof. unfold get_pmcid_from_pubmed. simpl article_id. alike_auto. Qed.
#[local] Hint Resolve alike_get_pmcid_from_pubmed : alike.

Lemma alike_resolve_doi doi : alike (resolve_doi e1 doi) (resolve_doi e2 doi).
Proof. unfold resolve_doi. alike_auto. Qed.
#[local] Hint Resolve alike_resolve_doi : alike.

Lemma alike_try_pmc_pdf pmcid : alike (try_pmc_pdf e1 pmcid) (try_pmc_pdf e2 pmcid).
Proof. unfold try_pmc_pdf. alike_auto. Qed.
#[local] Hint Resolve alike_try_pmc_pdf : alike.

Lemma alike_if_pdf {A} pdf (y1 y2 : Response -> M A) n1 n2 :
  (forall r, alike (y1 r) (y2 r)) -> alike n1 n2 ->
  alike (if_pdf pdf y1 n1) (if_pdf pdf y2 n2).
Proof. intros Hy Hn. unfold if_pdf. destruct pdf as [r | ]; [destruct (ok r) | ]; auto. Qed.

Lemma alike_fetch_extracted url pdf_url otherwise :
  alike (fetch_extracted e1 url pdf_url otherwise)
        (fetch_extracted e2 url pdf_url otherwise).
Proof.
  unfold fetch_extracted. alike_auto. apply alike_if_pdf; [intros ? | ]; alike_auto.
Qed.
#[local] Hint Resolve alike_fetch_extracted : alike.

Lemma extract_same t html base :
  extract_pdf_from_html (with_transport self t) html base
  = extract_pdf_from_html self html base.
Proof. reflexivity. Qed.

Lemma alike_pubmed_by_doi url : alike (pubmed_by_doi e1 url) (pubmed_by_doi e2 url).
Proof. unfold pubmed_by_doi. rewrite ?extract_same. alike_auto. Qed.
#[local] Hint Resolve alike_pubmed_by_doi : alike.

Lemma alike_handle_pubmed url : alike (handle_pubmed e1 url) (handle_pubmed e2 url).
Proof.
  unfold handle_pubmed. alike_auto. apply alike_if_pdf; [intros ? | ]; alike_auto.
Qed.

Lemma alike_handle_arxiv url : alike (handle_arxiv e1 url) (handle_arxiv e2 url).
Proof.
  unfold handle_arxiv. alike_auto. apply alike_if_pdf; [intros ? | ]; alike_auto.
Qed.

Lemma alike_handle_generic url : alike (handle_generic e1 url) (handle_generic e2 url).
Proof.
  unfold handle_generic. alike_auto. apply alike_if_pdf; [intros ? | ]; alike_auto.
Qed.

Lemma alike_handle_biorxiv url : alike (handle_biorxiv e1 url) (handle_biorxiv e2 url).
Proof.
  unfold handle_biorxiv. alike_auto. apply alike_if_pdf; [intros ? | ]; alike_auto.
Qed.

Lemma alike_handle_nature url : alike (handle_nature e1 url) (handle_nature e2 url).
Proof. unfold handle_nature. rewrite ?extract_same. alike_auto. Qed.

Lemma alike_handle_science url : alike (handle_science e1 url) (handle_science e2 url).
Proof. unfold handle_science. rewrite ?extract_same. alike_auto. Qed.

Lemma alike_handle_cell url : alike (handle_cell e1 url) (handle_cell e2 url).
Proof. unfold handle_cell. rewrite ?extract_same. alike_auto. Qed.

Lemma alike_frontiers_by_page url :
  alike (frontiers_by_page e1 url) (frontiers_by_page e2 url).
Proof. unfold frontiers_by_page. rewrite ?extract_same. alike_auto. Qed.
#[local] Hint Resolve alike_frontiers_by_page : alike.

Lemma alike_handle_frontiers url :
  alike (handle_frontiers e1 url) (handle_frontiers e2 url).
Proof.
  unfold handle_frontiers. alike_auto. apply alike_if_pdf; [intros ? | ]; alike_auto.
Qed.

Lemma alike_handler_for host url :
  alike (handler_for e1 host url) (handler_for e2 host url).
Proof.
  unfold handler_for.
  repeat match goal with
         | |- context [Py.contains ?p host] => destruct (Py.contains p host)
         end; simpl;
    first [ apply alike_handle_pubmed | apply alike_handle_arxiv
          | apply alike_handle_biorxiv | apply alike_handle_nature
          | apply alike_handle_science | apply alike_handle_cell
          | apply alike_handle_frontiers | apply alike_handle_generic ].
Qed.

Lemma resolved_same w url :
  resolved_reference e1 w url = resolved_reference e2 w url.
Proof.
  unfold resolved_reference, doi_target. simpl transport.
  now rewrite (same (sent w) (mkRequest SessionGet url)).
Qed.

Lemma bind_get_handler {A} env url (k : Handler * string -> M A) w :
  bind (get_handler env url) k w
  = if parses env (resolved_reference env w url)
    then k (handler_for env (host_of (resolved_reference env w url)),
            resolved_reference env w url)
           (if is_doi_url url then after_get w SessionGet url else w)
    else (Raised ValueError,
          if is_doi_url url then after_get w SessionGet url else w).
Proof.
  unfold bind. rewrite get_handler_spec. unfold routing.
  now destruct (parses env _).
Qed.

Lemma unpaywall_free_after_session w url :
  unpaywall_free w -> unpaywall_free (after_get w SessionGet url).
Proof.
  intros F. unfold unpaywall_free, after_get. simpl.
  apply Forall_app. split; [exact F | now constructor].
Qed.

Lemma alike_download_loop urls :
  forall results,
    alike (download_loop e1 results urls) (download_loop e2 results urls).
Proof.
  induction urls as [ | url urls IH]; intros results; cbn [download_loop].
  - apply alike_ret.
  - intros w. rewrite !bind_get_handler, resolved_same.
    set (resolved := resolved_reference e2 w url).
    set (w1 := if is_doi_url url then after_get w SessionGet url else w).
    assert (F1 : unpaywall_free w -> unpaywall_free w1).
    { intros F. unfold w1.
      destruct (is_doi_url url); [now apply unpaywall_free_after_session | exact F]. }
    change (parses e1 resolved) with (parses e2 resolved).
    destruct (parses e2 resolved); [ | split; [reflexivity | exact F1]].
    destruct (alike_bind _ _ _ _ (alike_handler_for (host_of resolved) resolved)
                (fun res => IH (results ++ [res])%list) w1) as [E Q].
    split; [exact E | ].
    intros F. apply Q, F1, F.
Qed.

End Unpaywall.

Lemma worldless_bind {A B} (m : M A) (k : A -> M B) :
  worldless m -> (forall a, worldless (k a)) -> worldless (bind m k).
Proof.
  intros Hm Hk w. unfold bind. specialize (Hm w).
  destruct (m w) as [[a | e] w1]; simpl in *; subst; [apply Hk | reflexivity].
Qed.

Lemma worldless_json_get j key : worldless (json_get j key).
Proof. now destruct j. Qed.

Lemma worldless_json_iter j : worldless (json_iter j).
Proof. now destruct j. Qed.

Lemma worldless_first_publisher field locations :
  worldless (first_publisher field locations).
Proof.
  induction locations as [ | loc rest IH]; cbn [first_publisher]; [easy | ].
  apply worldless_bind; [apply worldless_json_get | intros host_type].
  destruct (json_is_str host_type "publisher"); [ | exact IH].
  apply worldless_bind; [apply worldless_json_get | intros v].
  now destruct (json_truthy v).
Qed.

(** Every call of [unpaywall_lookup] sends one request, and it is a
    request to the Unpaywall API. *)
Lemma unpaywall_lookup_calls self doi w :
  sent (snd (unpaywall_lookup self doi w))
  = (sent w ++ [mkRequest RequestsGet
                  ("https://api.unpaywall.org/v2/" ++ doi ++ "?email=" ++ UNPAYWALL_EMAIL)])%list
  /\ is_unpaywall_call
       (mkRequest RequestsGet
          ("https://api.unpaywall.org/v2/" ++ doi ++ "?email=" ++ UNPAYWALL_EMAIL))
     = true.
Proof.
  split; [ | apply startswith_app].
  unfold unpaywall_lookup. set (api := _ ++ _). unfold bind at 1, get.
  destruct (transport self (sent w) (mkRequest RequestsGet api)) as [r | ];
    [ | reflexivity].
  set (w1 := mkWorld _ _).
  change (sent w ++ [mkRequest RequestsGet api])%list with (sent w1).
  f_equal.
  destruct (negb (Resp.status_code r =? 200)%Z); [reflexivity | ].
  destruct (json_loads self (Resp.text r)) as [data | ]; [ | reflexivity].
  destruct data as [ | b | z | s | l | kv]; try reflexivity.
  apply worldless_bind; [apply worldless_json_iter | intros locations].
  apply worldless_bind; [apply worldless_first_publisher | intros [v | ]]; [easy | ].
  apply worldless_bind; [apply worldless_first_publisher | intros [v | ]]; [easy | ].
  destruct (json_truthy _); [ | easy].
  apply worldless_bind; [apply worldless_json_get | intros pdf].
  destruct (json_truthy pdf); [easy | apply worldless_json_get].
Qed.

(** C10: [download] never reaches [unpaywall_lookup].  Its report and
    everything it sends and writes are the same under any two behaviours
    of the Unpaywall API; from a world in which the API has not been
    requested it ends in one in which the API has still not been
    requested; and every call of [unpaywall_lookup] does request it. *)
Theorem C10_unpaywall_unreachable (self : Env) (t1 t2 : Transport)
    (urls : list string) (w : World) :
  same_but_unpaywall t1 t2 ->
  download (with_transport self t1) urls w
  = download (with_transport self t2) urls w
  /\ (unpaywall_free w ->
      unpaywall_free (snd (download (with_transport self t1) urls w)))
  /\ (forall doi w0,
        ~ unpaywall_free (snd (unpaywall_lookup (with_transport self t1) doi w0))).
Proof.
  intros same.
  destruct (alike_download_loop self t1 t2 same urls [] w) as [E Q].
  split; [exact E | split; [exact Q | ]].
  intros doi w0 F. unfold unpaywall_free in F.
  destruct (unpaywall_lookup_calls (with_transport self t1) doi w0) as [S U].
  rewrite S in F. apply Forall_app in F as [_ F].
  apply Forall_inv in F. cbv beta in F. rewrite U in F. discriminate.
Qed.

Lemma same_up_down : same_but_unpaywall api_up api_down.
Proof. intros history rq Q. unfold api_up, api_down. now rewrite Q. Qed.

(** The resolver itself does depend on the API. *)
Example unpaywall_lookup_depends_on_api :
  fst (unpaywall_lookup (with_transport lab api_up) "10.1038/nature12373" fresh)
  = Normal (JStr "https://example.org/oa.pdf")
  /\ fst (unpaywall_lookup (with_transport lab api_down) "10.1038/nature12373" fresh)
     = Raised RequestException.
Proof. split; reflexivity. Qed.

Lemma C10_unpaywall_unreachable_witness :
  download (with_transport lab api_up)
    ["https://pubmed.ncbi.nlm.nih.gov/31452104/"; science_doi] fresh
  = download (with_transport lab api_down)
      ["https://pubmed.ncbi.nlm.nih.gov/31452104/"; science_doi] fresh
  /\ (unpaywall_free fresh ->
      unpaywall_free
        (snd (download (with_transport lab api_up)
                ["https://pubmed.ncbi.nlm.nih.gov/31452104/"; science_doi] fresh)))
  /\ (forall doi w0,
        ~ unpaywall_free (snd (unpaywall_lookup (with_transport lab api_up) doi w0))).
Proof.
  apply (C10_unpaywall_unreachable lab api_up api_down
           ["https://pubmed.ncbi.nlm.nih.gov/31452104/"; science_doi] fresh).
  exact same_up_down.
Defined.

(** ** Where a transport failure escapes *)

(** The landing-page handlers raise as soon as their first GET fails. *)
Lemma landing_page_get_unguarded self url w :
  transport self (sent w) (mkRequest SessionGet url) = TransportFailed ->
  fst (handle_nature self url w) = Raised RequestException /\
  fst (handle_science self url w) = Raised RequestException /\
  fst (handle_cell self url w) = Raised RequestException.
Proof.
  intros T. unfold handle_nature, handle_science, handle_cell, bind, get.
  rewrite T. auto.
Qed.

(** So does the PubMed handler when the E-utilities call fails. *)
Lemma pubmed_xml_get_unguarded self url w :
  (forall api, transport self (sent w) (mkRequest RequestsGet api) = TransportFailed) ->
  fst (handle_pubmed self url w) = Raised RequestException.
Proof.
  intros T.
  unfold handle_pubmed, get_pmcid_from_pubmed, get_pubmed_xml, bind, get.
  now rewrite T.
Qed.

(** ** The scenarios of the specification *)

Example scenario_arxiv :
  fst (download arxiv_only ["https://arxiv.org/abs/2301.00001"] fresh)
  = Normal [Downloaded "https://arxiv.org/abs/2301.00001"
              "downloaded_papers/2301.00001.pdf"].
Proof. reflexivity. Qed.

Example scenario_pubmed_without_ids :
  fst (download pages_only ["https://pubmed.ncbi.nlm.nih.gov/31452104/"] fresh)
  = Normal [Failed "https://pubmed.ncbi.nlm.nih.gov/31452104/" "No PMC and no DOI"].
Proof. reflexivity. Qed.

Example scenario_biorxiv_second_variant :
  download second_variant_only [biorxiv_article ++ "?versioned=true"] fresh
  = (Normal [Downloaded biorxiv_article "downloaded_papers/full.pdf"],
     mkWorld [mkRequest SessionGet (biorxiv_article ++ ".full.pdf");
              mkRequest SessionGet (biorxiv_article ++ "/full.pdf")]
             [("downloaded_papers/full.pdf", "%PDF-1.7")]).
Proof. reflexivity. Qed.

(** A PMC download is stored under the name [.pdf]. *)
Example scenario_pmc_file_name :
  download pmc_available ["https://pubmed.ncbi.nlm.nih.gov/31452104/"] fresh
  = (Normal [Downloaded "https://pubmed.ncbi.nlm.nih.gov/31452104/"
               "downloaded_papers/.pdf"],
     mkWorld
       [mkRequest RequestsGet
          "https://eutils.ncbi.nlm.nih.gov/entrez/eutils/efetch.fcgi?db=pubmed&id=31452104&retmode=xml";
        mkRequest SessionGet
          "https://www.ncbi.nlm.nih.gov/pmc/articles/PMC7029158/pdf/"]
       [("downloaded_papers/.pdf", "%PDF-1.7")]).
Proof. reflexivity. Qed.

(** * Further properties of the code *)

(** ** File names *)

Lemma after_last_no_char c s : Py.has_char c (Py.after_last c s) = false.
Proof.
  induction s as [ | a s IH]; simpl; [reflexivity | ].
  destruct (Py.has_char c s) eqn:H; [exact IH | ].
  destruct (Ascii.eqb a c) eqn:E; [exact H | ].
  simpl. now rewrite E, H.
Qed.

Lemma has_char_app c a b :
  Py.has_char c (a ++ b) = Py.has_char c a || Py.has_char c b.
Proof.
  induction a as [ | x a IH]; simpl; [reflexivity | ].
  now rewrite IH, orb_assoc.
Qed.

Lemma endswith_app suf a : Py.endswith suf (a ++ suf) = true.
Proof.
  induction a as [ | x a IH]; simpl.
  - destruct suf; cbn [Py.endswith append]; now rewrite String.eqb_refl.
  - rewrite IH. apply orb_true_r.
Qed.

Lemma startswith_nil_r p : Py.startswith p (p ++ "") = true.
Proof. apply startswith_app. Qed.

(** X1: the name [safe_filename] derives from any URL is never empty,
    ends in ".pdf" up to case and contains no slash, so that the path
    [save_pdf] writes to is the output directory followed by that name. *)
Theorem safe_filename_is_flat_pdf_name (self : Env) (url : string) :
  Py.truthy (safe_filename url) = true /\
  Py.endswith ".pdf" (Py.lower (safe_filename url)) = true /\
  Py.has_char "/" (safe_filename url) = false /\
  Py.startswith (out_dir self)
    (Py.path_join (out_dir self) (safe_filename url)) = true /\
  Py.endswith (safe_filename url)
    (Py.path_join (out_dir self) (safe_filename url)) = true.
Proof.
  assert (F : Py.has_char "/" (safe_filename url) = false).
  { rewrite safe_filename_closed_form. cbv zeta.
    destruct (Py.endswith ".pdf" _).
    - apply after_last_no_char.
    - rewrite has_char_app. unfold Py.basename. now rewrite after_last_no_char. }
  split; [apply safe_filename_truthy | split; [ | split; [exact F | ]]].
  - rewrite safe_filename_closed_form. cbv zeta.
    set (name := Py.basename _).
    destruct (Py.endswith ".pdf" (Py.lower name)) eqn:E; [exact E | ].
    rewrite lower_app. apply endswith_app.
  - unfold Py.path_join.
    assert (S : Py.startswith "/" (safe_filename url) = false).
    { destruct (safe_filename url) as [ | a s]; [reflexivity | ].
      simpl in F. apply orb_false_iff in F as [F _].
      cbn [Py.startswith]. now rewrite Ascii.eqb_sym, F. }
    rewrite S.
    destruct (negb (Py.truthy (out_dir self)) || Py.endswith "/" (out_dir self)).
    + split; [apply startswith_app | apply endswith_app].
    + split; [apply startswith_app | ].
      rewrite <- append_assoc. apply endswith_app.
Qed.

(** ** The link extracted from a page *)

Lemma contains_pdf_truthy s : Py.contains ".pdf" (Py.lower s) = true -> Py.truthy s = true.
Proof. destruct s; [discriminate | reflexivity]. Qed.

Lemma first_pdf_href_spec hrefs base_url :
  match first_pdf_href hrefs base_url with
  | None => forall a, In a hrefs -> is_pdf_href a = false
  | Some link =>
      exists before a after,
        hrefs = (before ++ a :: after)%list /\
        (forall x, In x before -> is_pdf_href x = false) /\
        is_pdf_href a = true /\
        link = absolutize base_url (Py.strip a)
  end.
Proof.
  induction hrefs as [ | a hrefs IH]; cbn [first_pdf_href].
  - intros a [].
  - unfold is_pdf_href in *. cbv zeta.
    destruct (Py.contains ".pdf" (Py.lower (Py.strip a))) eqn:E.
    + assert (L : (if Py.startswith "/" (Py.strip a)
                   then Some (Url.scheme (Url.urlparse base_url) ++ "://"
                              ++ Url.netloc (Url.urlparse base_url) ++ Py.strip a)
                   else Some (Py.strip a))
                  = Some (absolutize base_url (Py.strip a))).
      { unfold absolutize. now destruct (Py.startswith "/" (Py.strip a)). }
      rewrite L. exists [], a, hrefs. repeat split; auto. intros x [].
    + destruct (first_pdf_href hrefs base_url) as [link | ].
      * destruct IH as (before & b & after & -> & Hb & Hp & ->).
        exists (a :: before), b, after. repeat split; auto.
        intros x [<- | Hx]; auto.
      * intros x [<- | Hx]; auto.
Qed.

Lemma absolutize_truthy base_url href :
  Py.truthy href = true -> Py.truthy (absolutize base_url href) = true.
Proof.
  intros T. unfold absolutize. destruct (Py.startswith "/" href); [ | exact T].
  do 3 apply truthy_app_r. exact T.
Qed.

Lemma extract_pdf_truthy self html base_url link :
  extract_pdf_from_html self html base_url = Some link -> Py.truthy link = true.
Proof.
  unfold extract_pdf_from_html. intros E.
  pose proof (first_pdf_href_spec (anchor_hrefs self html) base_url) as H.
  rewrite E in H. destruct H as (before & a & after & _ & _ & P & ->).
  apply absolutize_truthy. now apply contains_pdf_truthy.
Qed.

(** X2: [extract_pdf_from_html] returns the first anchor, in document
    order, whose stripped [href] contains ".pdf" up to case, made
    absolute on the site of the base URL when it starts with a slash;
    the link is never empty; and it returns [None] exactly when no
    anchor qualifies. *)
Theorem extract_pdf_takes_first_link (self : Env) (html base_url : string) :
  match extract_pdf_from_html self html base_url with
  | None => forall a, In a (anchor_hrefs self html) -> is_pdf_href a = false
  | Some link =>
      Py.truthy link = true /\
      exists before a after,
        anchor_hrefs self html = (before ++ a :: after)%list /\
        (forall x, In x before -> is_pdf_href x = false) /\
        is_pdf_href a = true /\
        link = absolutize base_url (Py.strip a)
  end.
Proof.
  unfold extract_pdf_from_html.
  pose proof (first_pdf_href_spec (anchor_hrefs self html) base_url) as H.
  destruct (first_pdf_href _ _) as [link | ]; [ | exact H].
  split; [ | exact H].
  destruct H as (before & a & after & _ & _ & P & ->).
  apply absolutize_truthy. now apply contains_pdf_truthy.
Qed.

(** ** The guarded fetch helpers *)

Lemma try_suffix_pdf_quiet self base_url suffixes :
  returns_quietly (try_suffix_pdf self base_url suffixes).
Proof.
  induction suffixes as [ | s suffixes IH]; intros w.
  - exists None, w. split; reflexivity.
  - rewrite try_suffix_pdf_cons.
    destruct (delivered self w _) as [r | ].
    + eexists _, _. split; reflexivity.
    + destruct (IH (after_get w SessionGet (Py.rstrip "/" base_url ++ s)))
        as (a & w' & E & W).
      exists a, w'. split; [exact E | exact W].
Qed.

(** X3: [try_direct_pdf], [try_suffix_pdf], [try_pmc_pdf] and
    [resolve_doi] return in every world, whatever the transport does, and
    write no file.  The router [get_handler] writes no file either and
    lets no failure of the transport escape: it returns when [urlparse]
    accepts the resolved reference, and raises the [ValueError] of
    [urlparse] when it does not. *)
Theorem guarded_helpers_return (self : Env) :
  (forall url, returns_quietly (try_direct_pdf self url)) /\
  (forall base_url suffixes, returns_quietly (try_suffix_pdf self base_url suffixes)) /\
  (forall pmcid, returns_quietly (try_pmc_pdf self pmcid)) /\
  (forall doi, returns_quietly (resolve_doi self doi)) /\
  (forall url w,
     written (snd (get_handler self url w)) = written w /\
     if parses self (resolved_reference self w url)
     then exists p, fst (get_handler self url w) = Normal p
     else fst (get_handler self url w) = Raised ValueError).
Proof.
  repeat split.
  - intros url w. rewrite try_direct_pdf_spec. eexists _, _. split; reflexivity.
  - intros base_url suffixes. apply try_suffix_pdf_quiet.
  - intros pmcid w. unfold try_pmc_pdf, bind. rewrite try_direct_pdf_spec.
    eexists _, _. split; reflexivity.
  - intros doi w. unfold resolve_doi, try_except, bind, get.
    destruct (transport self (sent w) _) as [r | ]; simpl.
    + destruct (Resp.status_code r =? 200)%Z; eexists _, _; split; reflexivity.
    + eexists _, _. split; reflexivity.
  - rewrite get_handler_spec. now destruct (is_doi_url url).
  - rewrite get_handler_spec. unfold routing.
    destruct (parses self _); [eexists | ]; reflexivity.
Qed.

(** X4: [try_suffix_pdf] requests the variants in the order of the
    list and stops at the first that is delivered: when it finds one,
    the requests sent are exactly the variants up to and including it
    and the response is a declared PDF without error status; when it
    finds none, every variant was requested once, in order. *)
Theorem try_suffix_pdf_stops_at_first (self : Env) (base_url : string)
    (suffixes : list string) (w : World) :
  match fst (try_suffix_pdf self base_url suffixes w) with
  | Normal None =>
      sent (snd (try_suffix_pdf self base_url suffixes w))
      = (sent w ++ variant_requests base_url suffixes)%list
  | Normal (Some (r, pdf_url)) =>
      exists before s after,
        suffixes = (before ++ s :: after)%list /\
        pdf_url = Py.rstrip "/" base_url ++ s /\
        sent (snd (try_suffix_pdf self base_url suffixes w))
        = (sent w ++ variant_requests base_url (before ++ [s]))%list /\
        is_pdf r = true /\ ok r = true
  | Raised _ => False
  end.
Proof.
  revert w. induction suffixes as [ | s suffixes IH]; intros w.
  - simpl. now rewrite app_nil_r.
  - rewrite try_suffix_pdf_cons.
    destruct (delivered self w _) as [r | ] eqn:D.
    + simpl. exists [], s, suffixes. repeat split.
      * unfold delivered, declared_pdf in D.
        destruct (transport self (sent w) _) as [r' | ]; [ | discriminate].
        destruct (is_pdf r') eqn:P; [ | discriminate].
        destruct (ok r'); [ | discriminate]. now injection D as <-.
      * exact (delivered_ok _ _ _ _ D).
    + specialize (IH (after_get w SessionGet (Py.rstrip "/" base_url ++ s))).
      destruct (try_suffix_pdf self base_url suffixes _) as [[[[r u] | ] | e] w'];
        simpl in *.
      * destruct IH as (before & s' & after & -> & -> & S & P & O).
        exists (s :: before), s', after. repeat split; auto.
        rewrite S. simpl. now rewrite <- app_assoc.
      * rewrite IH. simpl. now rewrite <- app_assoc.
      * exact IH.
Qed.

(** ** What does not matter in a reference *)

Lemma before_first_app c s rest :
  Py.has_char c s = false -> Py.before_first c (s ++ String c rest) = s.
Proof.
  induction s as [ | a s IH]; simpl.
  - now rewrite Ascii.eqb_refl.
  - intros H. apply orb_false_iff in H as [E H]. rewrite E. now rewrite IH.
Qed.

(** X5: the bioRxiv/medRxiv strategy ignores the query string: a
    reference with a query string is handled exactly as the reference
    without it (same requests, same file, same result). *)
Theorem handle_biorxiv_ignores_query (self : Env) (url query : string) (w : World) :
  Py.has_char "?" url = false ->
  handle_biorxiv self (url ++ "?" ++ query) w = handle_biorxiv self url w.
Proof.
  intros H. unfold handle_biorxiv.
  change (url ++ "?" ++ query) with (url ++ String "?" query).
  now rewrite (before_first_app _ _ _ H), (before_first_without _ _ H).
Qed.

Lemma handle_biorxiv_ignores_query_witness :
  handle_biorxiv second_variant_only (biorxiv_article ++ "?" ++ "versioned=true") fresh
  = handle_biorxiv second_variant_only biorxiv_article fresh.
Proof.
  apply (handle_biorxiv_ignores_query second_variant_only biorxiv_article
           "versioned=true" fresh).
  reflexivity.
Defined.

Lemma rstrip_app_char c s : Py.rstrip c (s ++ String c "") = Py.rstrip c s.
Proof.
  induction s as [ | a s IH]; simpl.
  - now rewrite Ascii.eqb_refl.
  - now rewrite IH.
Qed.

Lemma try_suffix_pdf_rstrip self base_url base_url' suffixes :
  Py.rstrip "/" base_url = Py.rstrip "/" base_url' ->
  try_suffix_pdf self base_url suffixes = try_suffix_pdf self base_url' suffixes.
Proof.
  intros E. induction suffixes as [ | s suffixes IH]; cbn [try_suffix_pdf].
  - reflexivity.
  - now rewrite E, IH.
Qed.

(** X6: trailing slashes of a reference do not matter to the PubMed
    metadata call, nor to the probing of suffix variants (bioRxiv,
    Frontiers): the same requests are made with or without them. *)
Theorem trailing_slash_is_ignored (self : Env) (url : string) :
  get_pubmed_xml self (url ++ "/") = get_pubmed_xml self url /\
  get_doi_from_pubmed self (url ++ "/") = get_doi_from_pubmed self url /\
  get_pmcid_from_pubmed self (url ++ "/") = get_pmcid_from_pubmed self url /\
  (forall suffixes,
     try_suffix_pdf self (url ++ "/") suffixes = try_suffix_pdf self url suffixes).
Proof.
  assert (E : get_pubmed_xml self (url ++ "/") = get_pubmed_xml self url).
  { unfold get_pubmed_xml. now rewrite rstrip_app_char. }
  repeat split.
  - exact E.
  - unfold get_doi_from_pubmed. now rewrite E.
  - unfold get_pmcid_from_pubmed. now rewrite E.
  - intros suffixes. apply try_suffix_pdf_rstrip, rstrip_app_char.
Qed.

(** ** The request budget *)

Lemma spends_ret {A} (a : A) : spends 0 (ret a).
Proof. intros w. exists []. simpl. now rewrite app_nil_r. Qed.

Lemma spends_more {A} n n' (m : M A) : n <= n' -> spends n m -> spends n' m.
Proof. intros L H w. destruct (H w) as (new & E & B). exists new. split; [exact E | lia]. Qed.

Lemma spends_bind {A B} n1 n2 (m : M A) (k : A -> M B) :
  spends n1 m -> (forall a, spends n2 (k a)) -> spends (n1 + n2) (bind m k).
Proof.
  intros Hm Hk w. destruct (Hm w) as (new1 & E1 & B1). unfold bind.
  destruct (m w) as [[a | e] w1]; simpl in *.
  - destruct (Hk a w1) as (new2 & E2 & B2).
    exists (new1 ++ new2)%list. rewrite E2, E1, app_assoc, length_app.
    split; [reflexivity | lia].
  - exists new1. split; [exact E1 | lia].
Qed.

Lemma spends_try_except {A} n1 n2 (m h : M A) :
  spends n1 m -> spends n2 h -> spends (n1 + n2) (try_except m h).
Proof.
  intros Hm Hh w. destruct (Hm w) as (new1 & E1 & B1). unfold try_except.
  destruct (m w) as [[a | e] w1]; simpl in *.
  - exists new1. split; [exact E1 | lia].
  - destruct (Hh w1) as (new2 & E2 & B2).
    exists (new1 ++ new2)%list. rewrite E2, E1, app_assoc, length_app.
    split; [reflexivity | lia].
Qed.

Section Budget.

Variable self : Env.

Lemma spends_get client url : spends 1 (get self client url).
Proof.
  intros w. exists [mkRequest client url]. unfold get.
  destruct (transport self (sent w) _); simpl; split; auto.
Qed.

Lemma spends_save_pdf r u : spends 0 (save_pdf self r u).
Proof. intros w. exists []. simpl. now rewrite app_nil_r. Qed.

Lemma spends_try_direct_pdf url : spends 1 (try_direct_pdf self url).
Proof.
  intros w. rewrite try_direct_pdf_spec. exists [mkRequest SessionGet url].
  simpl. auto.
Qed.

Lemma spends_try_suffix_pdf base_url suffixes :
  spends (length suffixes) (try_suffix_pdf self base_url suffixes).
Proof.
  induction suffixes as [ | s suffixes IH]; cbn [try_suffix_pdf length].
  - apply spends_ret.
  - apply (spends_bind 1 (length suffixes)); [apply spends_try_direct_pdf | ].
    intros [r | ]; [destruct (ok r) | ]; auto.
    apply (spends_more 0); [lia | apply spends_ret].
Qed.

Lemma spends_store r u url :
  spends 0 (path <- save_pdf self r u ;; ret (Downloaded url path)).
Proof.
  apply (spends_bind 0 0); [apply spends_save_pdf | intros; apply spends_ret].
Qed.

Lemma spends_if_pdf {A} n pdf (yes : Response -> M A) no :
  (forall r, spends n (yes r)) -> spends n no -> spends n (if_pdf pdf yes no).
Proof. intros Hy Hn. unfold if_pdf. destruct pdf as [r | ]; [destruct (ok r) | ]; auto. Qed.

Lemma spends_fetch_extracted url pdf_url otherwise :
  spends 1 (fetch_extracted self url pdf_url otherwise).
Proof.
  unfold fetch_extracted.
  destruct pdf_url as [p | ]; [ | apply (spends_more 0); [lia | apply spends_ret]].
  destruct (Py.truthy p); [ | apply (spends_more 0); [lia | apply spends_ret]].
  apply (spends_bind 1 0); [apply spends_try_direct_pdf | intros pdf].
  apply spends_if_pdf; [intros r; apply spends_store | apply spends_ret].
Qed.

Lemma spends_get_pubmed_xml url : spends 1 (get_pubmed_xml self url).
Proof.
  unfold get_pubmed_xml.
  apply (spends_bind 1 0); [apply spends_get | intros; apply spends_ret].
Qed.

Lemma spends_pubmed_id url :
  spends 1 (get_doi_from_pubmed self url) /\
  spends 1 (get_pmcid_from_pubmed self url).
Proof.
  split; unfold get_doi_from_pubmed, get_pmcid_from_pubmed;
    (apply (spends_bind 1 0); [apply spends_get_pubmed_xml | ]);
    intros [xml | ]; [destruct (negb (Py.truthy xml)) | | destruct (negb (Py.truthy xml)) | ];
    apply spends_ret.
Qed.

Lemma spends_resolve_doi doi : spends 1 (resolve_doi self doi).
Proof.
  unfold resolve_doi. apply (spends_try_except 1 0); [ | apply spends_ret].
  apply (spends_bind 1 0); [apply spends_get | intros r].
  destruct (Resp.status_code r =? 200)%Z; apply spends_ret.
Qed.

Lemma spends_pubmed_by_doi url : spends 3 (pubmed_by_doi self url).
Proof.
  unfold pubmed_by_doi.
  apply (spends_bind 1 2); [apply spends_pubmed_id | intros [doi | ]];
    [ | apply (spends_more 0); [lia | apply spends_ret]].
  destruct (negb (Py.truthy doi)); [apply (spends_more 0); [lia | apply spends_ret] | ].
  apply (spends_bind 1 1); [apply spends_resolve_doi | intros [[landing_url html] | ]];
    [ | apply (spends_more 0); [lia | apply spends_ret]].
  destruct (negb (Py.truthy landing_url) || negb (Py.truthy html));
    [apply (spends_more 0); [lia | apply spends_ret] | ].
  apply spends_fetch_extracted.
Qed.

Lemma spends_handle_pubmed url : spends 5 (handle_pubmed self url).
Proof.
  unfold handle_pubmed.
  apply (spends_bind 1 4); [apply spends_pubmed_id | intros [pmcid | ]];
    [ | apply (spends_more 3); [lia | apply spends_pubmed_by_doi]].
  destruct (Py.truthy pmcid); [ | apply (spends_more 3); [lia | apply spends_pubmed_by_doi]].
  apply (spends_bind 1 3).
  - unfold try_pmc_pdf.
    apply (spends_bind 1 0); [apply spends_try_direct_pdf | intros; apply spends_ret].
  - intros [pdf pdf_url].
    apply spends_if_pdf; [ | apply spends_pubmed_by_doi].
    intros r. apply (spends_more 0); [lia | apply spends_store].
Qed.

Lemma spends_handle_arxiv url : spends 1 (handle_arxiv self url).
Proof.
  unfold handle_arxiv.
  destruct (ArxivRe.search url) as [id | ];
    [ | apply (spends_more 0); [lia | apply spends_ret]].
  apply (spends_bind 1 0); [apply spends_try_direct_pdf | intros pdf].
  apply spends_if_pdf; [intros r; apply spends_store | apply spends_ret].
Qed.

Lemma spends_handle_generic url : spends 1 (handle_generic self url).
Proof.
  unfold handle_generic.
  apply (spends_bind 1 0); [apply spends_try_direct_pdf | intros pdf].
  apply spends_if_pdf; [intros r; apply spends_store | apply spends_ret].
Qed.

Lemma spends_handle_biorxiv url : spends 2 (handle_biorxiv self url).
Proof.
  unfold handle_biorxiv.
  apply (spends_bind 2 0); [apply (spends_try_suffix_pdf _ [_; _]) | ].
  intros [[pdf pdf_url] | ]; [ | apply spends_ret].
  apply spends_if_pdf; [intros r; apply spends_store | apply spends_ret].
Qed.

Lemma spends_landing_page url unreachable not_found :
  spends 2
    (r <- get self SessionGet url ;;
     if negb (Resp.status_code r =? 200)%Z then ret (Failed url unreachable)
     else fetch_extracted self url
            (extract_pdf_from_html self (Resp.text r) (Resp.url r))
            (Manual url url not_found)).
Proof.
  apply (spends_bind 1 1); [apply spends_get | intros r].
  destruct (negb (Resp.status_code r =? 200)%Z);
    [apply (spends_more 0); [lia | apply spends_ret] | apply spends_fetch_extracted].
Qed.

Lemma spends_frontiers_by_page url : spends 2 (frontiers_by_page self url).
Proof.
  unfold frontiers_by_page.
  apply (spends_bind 1 1); [apply spends_get | intros r].
  destruct (Resp.status_code r =? 200)%Z;
    [apply spends_fetch_extracted | apply (spends_more 0); [lia | apply spends_ret]].
Qed.

Lemma spends_handle_frontiers url : spends 3 (handle_frontiers self url).
Proof.
  unfold handle_frontiers.
  apply (spends_bind 1 2); [apply (spends_try_suffix_pdf _ [_]) | ].
  intros [[pdf pdf_url] | ]; [ | apply spends_frontiers_by_page].
  apply spends_if_pdf; [ | apply spends_frontiers_by_page].
  intros r. apply (spends_more 0); [lia | apply spends_store].
Qed.

Lemma spends_handler_for host url : spends 5 (handler_for self host url).
Proof.
  unfold handler_for.
  repeat match goal with
         | |- context [Py.contains ?p host] => destruct (Py.contains p host)
         end; simpl.
  all: first
         [ apply spends_handle_pubmed
         | apply (spends_more 1); [lia | apply spends_handle_arxiv]
         | apply (spends_more 2); [lia | apply spends_handle_biorxiv]
         | apply (spends_more 2); [lia | apply spends_landing_page]
         | apply (spends_more 3); [lia | apply spends_handle_frontiers]
         | apply (spends_more 1); [lia | apply spends_handle_generic] ].
Qed.

Lemma spends_download_loop urls :
  forall results, spends (6 * length urls) (download_loop self results urls).
Proof.
  induction urls as [ | url urls IH]; intros results; cbn [download_loop].
  - apply spends_ret.
  - intros w. rewrite bind_get_handler.
    set (w1 := if is_doi_url url then after_get w SessionGet url else w).
    assert (S1 : exists new, sent w1 = (sent w ++ new)%list /\ length new <= 1).
    { unfold w1. destruct (is_doi_url url).
      - exists [mkRequest SessionGet url]. simpl. auto.
      - exists []. rewrite app_nil_r. simpl. auto. }
    destruct S1 as (new1 & E1 & B1).
    destruct (parses self (resolved_reference self w url)).
    2:{ exists new1. split; [exact E1 | simpl length; lia]. }
    destruct (spends_bind 5 (6 * length urls) _ _
                (spends_handler_for (host_of (resolved_reference self w url))
                   (resolved_reference self w url))
                (fun res => IH (results ++ [res])%list) w1) as (new2 & E2 & B2).
    exists (new1 ++ new2)%list. rewrite E2, E1, app_assoc, length_app.
    split; [reflexivity | simpl length; lia].
Qed.

End Budget.

(** X7: no retries and a bounded number of requests: [download] sends
    at most six GETs per reference (one by the router, at most five by
    a strategy), whether it returns or raises, and the log of requests
    only grows. *)
Theorem download_request_budget (self : Env) (urls : list string) (w : World) :
  exists new,
    sent (snd (download self urls w)) = (sent w ++ new)%list /\
    length new <= 6 * length urls.
Proof. exact (spends_download_loop self urls [] w). Qed.

(** ** Files and results *)

Lemma keeps_ret {A} (a : A) : keeps_files (ret a).
Proof. intros w. reflexivity. Qed.

Lemma keeps_bind {A B} (m : M A) (k : A -> M B) :
  keeps_files m -> (forall a, keeps_files (k a)) -> keeps_files (bind m k).
Proof.
  intros Hm Hk w. specialize (Hm w). unfold bind.
  destruct (m w) as [[a | e] w1]; simpl in *; [ | exact Hm].
  now rewrite Hk.
Qed.

Lemma keeps_try_except {A} (m h : M A) :
  keeps_files m -> keeps_files h -> keeps_files (try_except m h).
Proof.
  intros Hm Hh w. specialize (Hm w). unfold try_except.
  destruct (m w) as [[a | e] w1]; simpl in *; [exact Hm | ].
  now rewrite Hh.
Qed.

Lemma accounts_failure res : success res = false -> accounts (ret res).
Proof.
  intros F w. exists []. unfold stored_paths. simpl. rewrite F, app_nil_r. auto.
Qed.

Lemma accounts_bind {A} (m : M A) (k : A -> M DownloadResult) :
  keeps_files m -> (forall a, accounts (k a)) -> accounts (bind m k).
Proof.
  intros Hm Hk w. specialize (Hm w). unfold bind.
  destruct (m w) as [[a | e] w1]; simpl in *; [ | exact I].
  specialize (Hk a w1). destruct (k a w1) as [[res | e] w2]; [ | exact I].
  destruct Hk as (files & E & P). exists files. now rewrite E, Hm.
Qed.

Section Accounting.

Variable self : Env.

Lemma keeps_get client url : keeps_files (get self client url).
Proof. intros w. unfold get. now destruct (transport self (sent w) _). Qed.

Lemma keeps_try_direct_pdf url : keeps_files (try_direct_pdf self url).
Proof. intros w. now rewrite try_direct_pdf_spec. Qed.

Lemma keeps_try_suffix_pdf base_url suffixes :
  keeps_files (try_suffix_pdf self base_url suffixes).
Proof.
  intros w. destruct (try_suffix_pdf_quiet self base_url suffixes w) as (a & w' & E & W).
  now rewrite E.
Qed.

Lemma keeps_get_pubmed_xml url : keeps_files (get_pubmed_xml self url).
Proof.
  unfold get_pubmed_xml. apply keeps_bind; [apply keeps_get | intros; apply keeps_ret].
Qed.

Lemma keeps_pubmed_id url :
  keeps_files (get_doi_from_pubmed self url) /\
  keeps_files (get_pmcid_from_pubmed self url).
Proof.
  split; unfold get_doi_from_pubmed, get_pmcid_from_pubmed;
    (apply keeps_bind; [apply keeps_get_pubmed_xml | ]);
    intros [xml | ]; [destruct (negb (Py.truthy xml)) | | destruct (negb (Py.truthy xml)) | ];
    apply keeps_ret.
Qed.

Lemma keeps_resolve_doi doi : keeps_files (resolve_doi self doi).
Proof.
  unfold resolve_doi. apply keeps_try_except; [ | apply keeps_ret].
  apply keeps_bind; [apply keeps_get | intros r].
  destruct (Resp.status_code r =? 200)%Z; apply keeps_ret.
Qed.

Lemma keeps_try_pmc_pdf pmcid : keeps_files (try_pmc_pdf self pmcid).
Proof.
  unfold try_pmc_pdf.
  apply keeps_bind; [apply keeps_try_direct_pdf | intros; apply keeps_ret].
Qed.

Lemma accounts_store r u url :
  accounts (path <- save_pdf self r u ;; ret (Downloaded url path)).
Proof.
  intros w. unfold bind. rewrite save_pdf_spec.
  eexists [_]. split; reflexivity.
Qed.

Lemma accounts_if_pdf pdf yes no :
  (forall r, accounts (yes r)) -> accounts no -> accounts (if_pdf pdf yes no).
Proof. intros Hy Hn. unfold if_pdf. destruct pdf as [r | ]; [destruct (ok r) | ]; auto. Qed.

Lemma accounts_fetch_extracted url pdf_url otherwise :
  success otherwise = false ->
  accounts (fetch_extracted self url pdf_url otherwise).
Proof.
  intros F. unfold fetch_extracted.
  destruct pdf_url as [p | ]; [ | now apply accounts_failure].
  destruct (Py.truthy p); [ | now apply accounts_failure].
  apply accounts_bind; [apply keeps_try_direct_pdf | intros pdf].
  apply accounts_if_pdf; [intros r; apply accounts_store | now apply accounts_failure].
Qed.

Lemma accounts_pubmed_by_doi url : accounts (pubmed_by_doi self url).
Proof.
  unfold pubmed_by_doi.
  apply accounts_bind; [apply keeps_pubmed_id | intros [doi | ]];
    [ | now apply accounts_failure].
  destruct (negb (Py.truthy doi)); [now apply accounts_failure | ].
  apply accounts_bind; [apply keeps_resolve_doi | intros [[landing_url html] | ]];
    [ | now apply accounts_failure].
  destruct (negb (Py.truthy landing_url) || negb (Py.truthy html));
    [now apply accounts_failure | now apply accounts_fetch_extracted].
Qed.

Lemma accounts_handle_pubmed url : accounts (handle_pubmed self url).
Proof.
  unfold handle_pubmed.
  apply accounts_bind; [apply keeps_pubmed_id | intros [pmcid | ]];
    [ | apply accounts_pubmed_by_doi].
  destruct (Py.truthy pmcid); [ | apply accounts_pubmed_by_doi].
  apply accounts_bind; [apply keeps_try_pmc_pdf | intros [pdf pdf_url]].
  apply accounts_if_pdf; [intros r; apply accounts_store | apply accounts_pubmed_by_doi].
Qed.

Lemma accounts_handle_arxiv url : accounts (handle_arxiv self url).
Proof.
  unfold handle_arxiv.
  destruct (ArxivRe.search url) as [id | ]; [ | now apply accounts_failure].
  apply accounts_bind; [apply keeps_try_direct_pdf | intros pdf].
  apply accounts_if_pdf; [intros r; apply accounts_store | now apply accounts_failure].
Qed.

Lemma accounts_handle_generic url : accounts (handle_generic self url).
Proof.
  unfold handle_generic.
  apply accounts_bind; [apply keeps_try_direct_pdf | intros pdf].
  apply accounts_if_pdf; [intros r; apply accounts_store | now apply accounts_failure].
Qed.

Lemma accounts_handle_biorxiv url : accounts (handle_biorxiv self url).
Proof.
  unfold handle_biorxiv.
  apply accounts_bind; [apply keeps_try_suffix_pdf | intros [[pdf pdf_url] | ]];
    [ | now apply accounts_failure].
  apply accounts_if_pdf; [intros r; apply accounts_store | now apply accounts_failure].
Qed.

Lemma accounts_landing_page url unreachable not_found :
  accounts
    (r <- get self SessionGet url ;;
     if negb (Resp.status_code r =? 200)%Z then ret (Failed url unreachable)
     else fetch_extracted self url
            (extract_pdf_from_html self (Resp.text r) (Resp.url r))
            (Manual url url not_found)).
Proof.
  apply accounts_bind; [apply keeps_get | intros r].
  destruct (negb (Resp.status_code r =? 200)%Z);
    [now apply accounts_failure | now apply accounts_fetch_extracted].
Qed.

Lemma accounts_frontiers_by_page url : accounts (frontiers_by_page self url).
Proof.
  unfold frontiers_by_page.
  apply accounts_bind; [apply keeps_get | intros r].
  destruct (Resp.status_code r =? 200)%Z;
    [now apply accounts_fetch_extracted | now apply accounts_failure].
Qed.

Lemma accounts_handle_frontiers url : accounts (handle_frontiers self url).
Proof.
  unfold handle_frontiers.
  apply accounts_bind; [apply keeps_try_suffix_pdf | intros [[pdf pdf_url] | ]];
    [ | apply accounts_frontiers_by_page].
  apply accounts_if_pdf; [intros r; apply accounts_store | apply accounts_frontiers_by_page].
Qed.

Lemma accounts_handler_for host url : accounts (handler_for self host url).
Proof.
  unfold handler_for.
  repeat match goal with
         | |- context [Py.contains ?p host] => destruct (Py.contains p host)
         end; simpl.
  all: first
         [ apply accounts_handle_pubmed | apply accounts_handle_arxiv
         | apply accounts_handle_biorxiv | apply accounts_landing_page
         | apply accounts_handle_frontiers | apply accounts_handle_generic ].
Qed.

Lemma stored_paths_app rs1 rs2 :
  stored_paths (rs1 ++ rs2) = (stored_paths rs1 ++ stored_paths rs2)%list.
Proof. unfold stored_paths. apply flat_map_app. Qed.

Lemma download_loop_files urls :
  forall results w rs w',
    download_loop self results urls w = (Normal rs, w') ->
    exists files new,
      written w' = (written w ++ files)%list /\
      rs = (results ++ new)%list /\ map fst files = stored_paths new.
Proof.
  induction urls as [ | url urls IH]; intros results w rs w'; cbn [download_loop].
  - intros [= <- <-]. exists [], []. now rewrite !app_nil_r.
  - rewrite bind_get_handler.
    set (resolved := resolved_reference self w url).
    set (w1 := if is_doi_url url then after_get w SessionGet url else w).
    assert (W1 : written w1 = written w) by (unfold w1; now destruct (is_doi_url url)).
    destruct (parses self resolved); [ | discriminate].
    unfold bind.
    pose proof (accounts_handler_for (host_of resolved) resolved w1) as H.
    destruct (handler_for self (host_of resolved) resolved w1) as [[res | e] w2];
      [ | discriminate].
    destruct H as (files1 & E1 & P1). intros L.
    destruct (IH _ _ _ _ L) as (files2 & new & E2 & -> & P2).
    exists (files1 ++ files2)%list, (res :: new). split; [ | split].
    + now rewrite E2, E1, W1, app_assoc.
    + now rewrite <- app_assoc.
    + rewrite map_app, P1, P2.
      change (res :: new) with ([res] ++ new)%list.
      now rewrite stored_paths_app.
Qed.

End Accounting.

(** X8: when [download] returns, the writes it made are exactly one per
    successful result, in the order of the report, each to the path the
    result gives as [local_path]; a failed reference causes no write.
    (A write to a path that was written before replaces that file:
    [save_pdf] opens it with "wb".) *)
Theorem download_files_match_report (self : Env) (urls : list string)
    (w w' : World) (rs : list DownloadResult) :
  download self urls w = (Normal rs, w') ->
  exists files,
    written w' = (written w ++ files)%list /\
    map fst files = stored_paths rs.
Proof.
  intros D.
  destruct (download_loop_files self urls [] w rs w' D) as (files & new & E & -> & P).
  exists files. split; [exact E | exact P].
Qed.

Lemma download_files_match_report_witness :
  exists files,
    written (snd (download pmc_available two_pubmed_references fresh))
    = (written fresh ++ files)%list /\
    map fst files = ["downloaded_papers/.pdf"; "downloaded_papers/.pdf"].
Proof.
  apply (download_files_match_report pmc_available two_pubmed_references fresh
           (snd (download pmc_available two_pubmed_references fresh))
           [Downloaded "https://pubmed.ncbi.nlm.nih.gov/31452104/"
              "downloaded_papers/.pdf";
            Downloaded "https://pubmed.ncbi.nlm.nih.gov/29892012/"
              "downloaded_papers/.pdf"]).
  reflexivity.
Defined.

(** ** The landing-page strategies *)

Lemma landing_page_handlers self url :
  handle_nature self url
  = landing_page_handler self "Nature page unreachable" "Nature PDF not found" url /\
  handle_science self url
  = landing_page_handler self "Science page unreachable" "Science PDF not found" url /\
  handle_cell self url
  = landing_page_handler self "Cell page unreachable" "Cell PDF not found" url.
Proof. repeat split. Qed.

Lemma landing_page_result self u n url w :
  landing_page_handler self u n url w
  = match transport self (sent w) (mkRequest SessionGet url) with
    | TransportFailed => (Raised RequestException, after_get w SessionGet url)
    | Responded r =>
        let w1 := after_get w SessionGet url in
        if negb (Resp.status_code r =? 200)%Z then (Normal (Failed url u), w1)
        else
          match extract_pdf_from_html self (Resp.text r) (Resp.url r) with
          | None => (Normal (Manual url url n), w1)
          | Some link =>
              match delivered self w1 link with
              | Some pdf =>
                  (Normal (stored self url link),
                   after_save self (after_get w1 SessionGet link) link pdf)
              | None => (Normal (Manual url url n), after_get w1 SessionGet link)
              end
          end
    end.
Proof.
  unfold landing_page_handler, bind at 1, get. fold (after_get w SessionGet url).
  destruct (transport self (sent w) _) as [r | ]; [ | reflexivity].
  cbv zeta. destruct (negb (Resp.status_code r =? 200)%Z); [reflexivity | ].
  unfold fetch_extracted.
  destruct (extract_pdf_from_html self (Resp.text r) (Resp.url r)) as [link | ] eqn:X;
    [ | reflexivity].
  rewrite (extract_pdf_truthy _ _ _ _ X).
  unfold bind, delivered. rewrite try_direct_pdf_spec.
  destruct (declared_pdf self _ link) as [pdf | ]; [ | reflexivity].
  unfold if_pdf. destruct (ok pdf); reflexivity.
Qed.

Lemma landing_pages_agree self u1 n1 u2 n2 url w :
  snd (landing_page_handler self u1 n1 url w)
  = snd (landing_page_handler self u2 n2 url w) /\
  same_up_to_reason (fst (landing_page_handler self u1 n1 url w))
                    (fst (landing_page_handler self u2 n2 url w)).
Proof.
  rewrite !landing_page_result.
  destruct (transport self (sent w) _) as [r | ]; [ | now split].
  cbv zeta. destruct (negb (Resp.status_code r =? 200)%Z); [now split | ].
  destruct (extract_pdf_from_html self _ _) as [link | ]; [ | now split].
  destruct (delivered self _ link); now split.
Qed.

(** X9: the Nature, Science and Cell strategies are one procedure: in
    every world they send the same requests, write the same file, end
    the same way, and their results differ in the wording of the reason
    only. *)
Theorem landing_strategies_agree (self : Env) (url : string) (w : World) :
  snd (handle_science self url w) = snd (handle_nature self url w) /\
  snd (handle_cell self url w) = snd (handle_nature self url w) /\
  same_up_to_reason (fst (handle_science self url w)) (fst (handle_nature self url w)) /\
  same_up_to_reason (fst (handle_cell self url w)) (fst (handle_nature self url w)).
Proof.
  destruct (landing_page_handlers self url) as (-> & -> & ->).
  repeat split; apply landing_pages_agree.
Qed.

(** X10: when the landing page of a Nature, Science or Cell reference
    answers, a failure carries the reference itself as fallback URL if
    the page answered 200, and no fallback URL at all if it answered
    another status; in the second case nothing but the page was
    requested. *)
Theorem landing_failure_fallback (self : Env) (url : string) (w w' : World)
    (r : Response) (h : string -> M DownloadResult) (res : DownloadResult) :
  In h [handle_nature self; handle_science self; handle_cell self] ->
  transport self (sent w) (mkRequest SessionGet url) = Responded r ->
  h url w = (Normal res, w') ->
  success res = false ->
  fallback_url res = (if (Resp.status_code r =? 200)%Z then Some url else None) /\
  ((Resp.status_code r =? 200)%Z = false -> w' = after_get w SessionGet url).
Proof.
  intros Hh T Hrun F.
  assert (L : exists u n, h url = landing_page_handler self u n url).
  { destruct Hh as [<- | [<- | [<- | []]]]; eexists _, _; reflexivity. }
  destruct L as (u & n & L). rewrite L, landing_page_result, T in Hrun.
  cbv zeta in Hrun.
  destruct (Resp.status_code r =? 200)%Z; simpl in Hrun.
  - split; [ | discriminate].
    destruct (extract_pdf_from_html self _ _) as [link | ].
    + destruct (delivered self _ link).
      * injection Hrun as <- <-. discriminate.
      * now injection Hrun as <- <-.
    + now injection Hrun as <- <-.
  - injection Hrun as <- <-. now split.
Qed.

Lemma landing_failure_fallback_witness :
  fallback_url nature_manual
  = (if (Resp.status_code (page nature_article) =? 200)%Z
     then Some nature_article else None) /\
  ((Resp.status_code (page nature_article) =? 200)%Z = false ->
   mkWorld [mkRequest SessionGet nature_article] []
   = after_get fresh SessionGet nature_article).
Proof.
  apply (landing_failure_fallback pages_only nature_article fresh
           (mkWorld [mkRequest SessionGet nature_article] [])
           (page nature_article) (handle_nature pages_only) nature_manual).
  - now left.
  - reflexivity.
  - reflexivity.
  - reflexivity.
Defined.

(** ** Frontiers, and the strategies without fallback *)

Lemma frontiers_by_page_failure self url w res w' :
  frontiers_by_page self url w = (Normal res, w') ->
  success res = false ->
  res = Manual url url "Frontiers PDF not found".
Proof.
  unfold frontiers_by_page, bind at 1, get.
  destruct (transport self (sent w) _) as [r | ]; [ | discriminate].
  destruct (Resp.status_code r =? 200)%Z; [ | now intros [= <- <-]].
  unfold fetch_extracted.
  destruct (extract_pdf_from_html self _ _) as [link | ]; [ | now intros [= <- <-]].
  destruct (Py.truthy link); [ | now intros [= <- <-]].
  unfold bind. rewrite try_direct_pdf_spec.
  destruct (declared_pdf self _ link) as [pdf | ]; [ | now intros [= <- <-]].
  unfold if_pdf. destruct (ok pdf); [ | now intros [= <- <-]].
  intros [= <- <-]. discriminate.
Qed.

Lemma handle_frontiers_spec self url w :
  handle_frontiers self url w
  = let first := Py.rstrip "/" url ++ "/pdf" in
    match delivered self w first with
    | Some r => (Normal (stored self url first),
                 after_save self (after_get w SessionGet first) first r)
    | None => frontiers_by_page self url (after_get w SessionGet first)
    end.
Proof.
  unfold handle_frontiers, bind at 1. rewrite try_suffix_pdf_cons. cbv zeta.
  destruct (delivered self w _) as [r | ] eqn:D; [ | reflexivity].
  unfold if_pdf. now rewrite (delivered_ok _ _ _ _ D).
Qed.

(** X11: the Frontiers strategy always requests the [/pdf] variant of
    the reference first, and each of its failures carries the reference
    itself as fallback URL, with the reason "Frontiers PDF not found". *)
Theorem frontiers_failure_is_manual (self : Env) (url : string) (w : World) :
  (exists rest,
     sent (snd (handle_frontiers self url w))
     = (sent w ++ mkRequest SessionGet (Py.rstrip "/" url ++ "/pdf") :: rest)%list) /\
  (forall res w',
     handle_frontiers self url w = (Normal res, w') ->
     success res = false ->
     res = mkResult false url None (Some url) (Some "Frontiers PDF not found")).
Proof.
  rewrite handle_frontiers_spec. cbv zeta.
  set (first := Py.rstrip "/" url ++ "/pdf").
  destruct (delivered self w first) as [r | ].
  - split.
    + exists []. reflexivity.
    + intros res w' [= <- <-]. discriminate.
  - split.
    + destruct (spends_frontiers_by_page self url (after_get w SessionGet first))
        as (new & E & _).
      exists new. rewrite E. simpl. now rewrite <- app_assoc.
    + intros res w' Hrun F. exact (frontiers_by_page_failure _ _ _ _ _ Hrun F).
Qed.

Lemma cut_off_delivered self w url : cut_off self -> delivered self w url = None.
Proof. intros C. unfold delivered, declared_pdf. now rewrite C. Qed.

Lemma handle_biorxiv_result self url w :
  handle_biorxiv self url w
  = let src := Py.before_first "?" url in
    let first := Py.rstrip "/" src ++ ".full.pdf" in
    let second := Py.rstrip "/" src ++ "/full.pdf" in
    let w1 := after_get w SessionGet first in
    let w2 := after_get w1 SessionGet second in
    match delivered self w first with
    | Some r => (Normal (stored self src first), after_save self w1 first r)
    | None =>
        match delivered self w1 second with
        | Some r => (Normal (stored self src second), after_save self w2 second r)
        | None => (Normal (Failed src "bioRxiv PDF not found"), w2)
        end
    end.
Proof.
  cbv zeta. unfold handle_biorxiv, bind at 1. rewrite try_suffix_pdf_two. cbv zeta.
  destruct (delivered self w _) as [r | ] eqn:D1.
  - unfold if_pdf. now rewrite (delivered_ok _ _ _ _ D1).
  - destruct (delivered self (after_get _ _ _) _) as [r | ] eqn:D2; [ | reflexivity].
    unfold if_pdf. now rewrite (delivered_ok _ _ _ _ D2).
Qed.

(** X12: the results of the Generic, arXiv and bioRxiv/medRxiv
    strategies never carry a fallback URL; and no failure of a GET
    escapes them: when no request is answered at all, each of them
    returns a failure and writes nothing. *)
Theorem direct_strategies_have_no_fallback (self : Env) (url : string) (w : World) :
  (forall h res w',
     In h [handle_generic self; handle_arxiv self; handle_biorxiv self] ->
     h url w = (Normal res, w') -> fallback_url res = None) /\
  (cut_off self ->
   forall h,
     In h [handle_generic self; handle_arxiv self; handle_biorxiv self] ->
     exists res w',
       h url w = (Normal res, w') /\ success res = false /\ written w' = written w).
Proof.
  split.
  - intros h res w' [<- | [<- | [<- | []]]].
    + rewrite handle_generic_spec.
      destruct (delivered self w url); intros [= <- _]; reflexivity.
    + rewrite handle_arxiv_spec.
      destruct (ArxivRe.search url); cbv zeta;
        [destruct (delivered self w _) | ]; intros [= <- _]; reflexivity.
    + rewrite handle_biorxiv_result. cbv zeta.
      destruct (delivered self w _);
        [ | destruct (delivered self (after_get _ _ _) _)];
        intros [= <- _]; reflexivity.
  - intros C h [<- | [<- | [<- | []]]].
    + rewrite handle_generic_spec, (cut_off_delivered _ _ _ C).
      eexists _, _. repeat split.
    + rewrite handle_arxiv_spec.
      destruct (ArxivRe.search url); cbv zeta;
        [rewrite (cut_off_delivered _ _ _ C) | ]; eexists _, _; repeat split.
    + rewrite handle_biorxiv_result. cbv zeta.
      rewrite !(cut_off_delivered _ _ _ C). eexists _, _. repeat split.
Qed.

(** ** PubMed without identifiers *)

Lemma get_pubmed_id_spec self url w r id_type :
  transport self (sent w) (mkRequest RequestsGet (efetch_url url)) = Responded r ->
  (id_type = "pmc" ->
   get_pmcid_from_pubmed self url w
   = (Normal (listed_id self r "pmc"), after_get w RequestsGet (efetch_url url))) /\
  (id_type = "doi" ->
   get_doi_from_pubmed self url w
   = (Normal (listed_id self r "doi"), after_get w RequestsGet (efetch_url url))).
Proof.
  intros T.
  split; intros ->;
    unfold get_pmcid_from_pubmed, get_doi_from_pubmed, get_pubmed_xml, bind, get;
    fold (efetch_url url); rewrite T; unfold listed_id, after_get; simpl;
    destruct (Resp.status_code r =? 200)%Z; simpl; try reflexivity;
    destruct (Py.truthy (Resp.text r)); reflexivity.
Qed.

(** X13: when both metadata calls of the PubMed strategy are answered
    and neither yields a non-empty PMC identifier or DOI (no such
    element, an empty one, an empty body or a status other than 200), the
    result is the failure "No PMC and no DOI", without fallback URL,
    after exactly these two calls of the same E-utilities URL. *)
Theorem pubmed_without_identifiers (self : Env) (url : string) (w : World)
    (r1 r2 : Response) :
  transport self (sent w) (mkRequest RequestsGet (efetch_url url)) = Responded r1 ->
  transport self (sent (after_get w RequestsGet (efetch_url url)))
    (mkRequest RequestsGet (efetch_url url)) = Responded r2 ->
  truthy_opt (listed_id self r1 "pmc") = false ->
  truthy_opt (listed_id self r2 "doi") = false ->
  handle_pubmed self url w
  = (Normal (mkResult false url None None (Some "No PMC and no DOI")),
     after_get (after_get w RequestsGet (efetch_url url)) RequestsGet (efetch_url url)).
Proof.
  intros T1 T2 N1 N2.
  assert (D : pubmed_by_doi self url (after_get w RequestsGet (efetch_url url))
              = (Normal (Failed url "No PMC and no DOI"),
                 after_get (after_get w RequestsGet (efetch_url url))
                   RequestsGet (efetch_url url))).
  { unfold pubmed_by_doi, bind at 1.
    rewrite (proj2 (get_pubmed_id_spec self url _ r2 "doi" T2) eq_refl).
    destruct (listed_id self r2 "doi") as [doi | ]; [ | reflexivity].
    simpl in N2. now rewrite N2. }
  unfold handle_pubmed, bind at 1.
  rewrite (proj1 (get_pubmed_id_spec self url _ r1 "pmc" T1) eq_refl).
  destruct (listed_id self r1 "pmc") as [pmcid | ]; [ | exact D].
  simpl in N1. rewrite N1. exact D.
Qed.

Lemma pubmed_without_identifiers_witness :
  handle_pubmed pages_only "https://pubmed.ncbi.nlm.nih.gov/31452104/" fresh
  = (Normal (mkResult false "https://pubmed.ncbi.nlm.nih.gov/31452104/" None None
               (Some "No PMC and no DOI")),
     after_get
       (after_get fresh RequestsGet
          (efetch_url "https://pubmed.ncbi.nlm.nih.gov/31452104/"))
       RequestsGet (efetch_url "https://pubmed.ncbi.nlm.nih.gov/31452104/")).
Proof.
  apply (pubmed_without_identifiers pages_only
           "https://pubmed.ncbi.nlm.nih.gov/31452104/" fresh
           (page (efetch_url "https://pubmed.ncbi.nlm.nih.gov/31452104/"))
           (page (efetch_url "https://pubmed.ncbi.nlm.nih.gov/31452104/")));
    reflexivity.
Defined.

(** ** The report *)

Lemma handler_for_in_handlers self host : In (handler_for self host) (handlers self).
Proof.
  unfold handler_for, handlers.
  repeat match goal with
         | |- context [Py.contains ?p host] => destruct (Py.contains p host)
         end; simpl; tauto.
Qed.

(** X14: whenever [download] returns, the report has exactly one result
    per reference and every result has the shape of a handler result: a
    success with a non-empty path and nothing else, or a failure with a
    non-empty reason and no path. *)
Theorem download_report_is_well_formed (self : Env) (urls : list string)
    (w w' : World) (rs : list DownloadResult) :
  download self urls w = (Normal rs, w') ->
  length rs = length urls /\ Forall shaped rs.
Proof.
  intros D. split; [exact (download_length _ _ _ _ _ D) | ].
  assert (Hstep : forall url w0 h resolved w1 res w2,
             get_handler self url w0 = (Normal (h, resolved), w1) ->
             h resolved w1 = (Normal res, w2) -> shaped res).
  { intros url w0 h resolved w1 res w2 G H.
    destruct (get_handler_returned _ _ _ _ _ _ G) as (_ & -> & _).
    exact (handlers_shaped self _ _ _ _ _ (handler_for_in_handlers self _) H). }
  destruct (download_loop_inv self (fun _ res => shaped res) Hstep _ _ _ _ _ D)
    as (new & -> & F).
  simpl. clear D. induction F; constructor; auto.
Qed.

Lemma download_report_is_well_formed_witness :
  length [nature_manual] = length [science_doi] /\ Forall shaped [nature_manual].
Proof.
  apply (download_report_is_well_formed doi_to_nature [science_doi] fresh
           (mkWorld [mkRequest SessionGet science_doi;
                     mkRequest SessionGet nature_article] [])).
  reflexivity.
Defined.

(** X24: when PubMed lists no PMC identifier but a DOI, and the DOI link
    does not lead to a page (no answer, a status other than 200, or an
    empty final URL or body), the PubMed strategy returns the failure
    "Could not resolve publisher page" whose fallback URL is the DOI link
    itself, after three requests; the router takes that fallback for a DOI
    reference. *)
Theorem pubmed_unresolved_doi (self : Env) (url doi : string) (w : World)
    (r1 r2 : Response) :
  transport self (sent w) (mkRequest RequestsGet (efetch_url url)) = Responded r1 ->
  transport self (sent (after_get w RequestsGet (efetch_url url)))
    (mkRequest RequestsGet (efetch_url url)) = Responded r2 ->
  truthy_opt (listed_id self r1 "pmc") = false ->
  listed_id self r2 "doi" = Some doi ->
  Py.truthy doi = true ->
  unresolved
    (transport self
       (sent (after_get (after_get w RequestsGet (efetch_url url))
                RequestsGet (efetch_url url)))
       (mkRequest SessionGet ("https://doi.org/" ++ doi))) = true ->
  handle_pubmed self url w
  = (Normal (Manual url ("https://doi.org/" ++ doi) "Could not resolve publisher page"),
     after_get (after_get (after_get w RequestsGet (efetch_url url))
                  RequestsGet (efetch_url url))
       SessionGet ("https://doi.org/" ++ doi)) /\
  is_doi_url ("https://doi.org/" ++ doi) = true.
Proof.
  intros T1 T2 N1 D Td U. split.
  - assert (B : pubmed_by_doi self url (after_get w RequestsGet (efetch_url url))
                = (Normal (Manual url ("https://doi.org/" ++ doi)
                             "Could not resolve publisher page"),
                   after_get (after_get (after_get w RequestsGet (efetch_url url))
                                RequestsGet (efetch_url url))
                     SessionGet ("https://doi.org/" ++ doi))).
    { unfold pubmed_by_doi, bind at 1.
      rewrite (proj2 (get_pubmed_id_spec self url _ r2 "doi" T2) eq_refl), D, Td.
      cbn [negb]. unfold resolve_doi, try_except, bind, get. cbv beta zeta.
      destruct (transport self _ (mkRequest SessionGet ("https://doi.org/" ++ doi)))
        as [r | ]; [ | reflexivity].
      cbn [unresolved] in U. cbv beta iota.
      destruct (Resp.status_code r =? 200)%Z; [ | reflexivity].
      cbn [negb orb] in U. unfold ret. cbv beta iota. cbn [fst snd].
      now rewrite U. }
    unfold handle_pubmed, bind at 1.
    rewrite (proj1 (get_pubmed_id_spec self url _ r1 "pmc" T1) eq_refl).
    destruct (listed_id self r1 "pmc") as [pmcid | ]; [ | exact B].
    simpl in N1. rewrite N1. exact B.
  - unfold is_doi_url. apply orb_true_iff. left. apply contains_iff.
    exists "https://", doi. reflexivity.
Qed.

Lemma pubmed_unresolved_doi_witness :
  handle_pubmed doi_listed (Paper.url pubmed_record) fresh
  = (Normal (Manual (Paper.url pubmed_record) "https://doi.org/10.1000/x"
               "Could not resolve publisher page"),
     after_get (after_get (after_get fresh RequestsGet
                             (efetch_url (Paper.url pubmed_record)))
                  RequestsGet (efetch_url (Paper.url pubmed_record)))
       SessionGet "https://doi.org/10.1000/x") /\
  is_doi_url "https://doi.org/10.1000/x" = true.
Proof.
  eapply (pubmed_unresolved_doi doi_listed (Paper.url pubmed_record) "10.1000/x" fresh);
    reflexivity.
Defined.

(** ** The Unpaywall resolver *)

Lemma first_publisher_skips field before rest w :
  forallb is_object before = true ->
  (forall loc, In loc before -> publisher_value field loc = None) ->
  first_publisher field (before ++ rest) w = first_publisher field rest w.
Proof.
  induction before as [ | loc before IH]; intros O N; [reflexivity | ].
  simpl in O. apply andb_true_iff in O as [Oloc O].
  assert (Nloc := N loc (or_introl eq_refl)).
  destruct loc as [ | | | | | kv]; try discriminate.
  cbn [app first_publisher]. unfold bind, json_get, ret.
  unfold publisher_value in Nloc.
  destruct (json_is_str (dict_get "host_type" kv) "publisher"); simpl in *.
  - destruct (json_truthy (dict_get field kv)); [discriminate | ].
    apply IH; [exact O | intros; apply N; now right].
  - apply IH; [exact O | intros; apply N; now right].
Qed.

Lemma first_publisher_hit field kv rest w v :
  publisher_value field (JObj kv) = Some v ->
  first_publisher field (JObj kv :: rest) w = (Normal (Some v), w).
Proof.
  unfold publisher_value. cbn [first_publisher]. unfold bind, json_get, ret.
  destruct (json_is_str (dict_get "host_type" kv) "publisher"); [ | discriminate].
  simpl. destruct (json_truthy (dict_get field kv)); [ | discriminate].
  now intros [= <-].
Qed.

(** X15: with a 200 answer whose JSON object lists open-access
    locations, [unpaywall_lookup] returns the PDF URL of the first
    location that is hosted by the publisher and has one, whatever the
    locations after it and the "best" location say, and even when an
    earlier publisher location has a landing URL only. *)
Theorem unpaywall_prefers_publisher_pdf (self : Env) (doi : string) (w : World)
    (r : Response) (kv : list (string * Json)) (before after : list Json)
    (loc : list (string * Json)) (v : Json) :
  transport self (sent w) (mkRequest RequestsGet (unpaywall_url doi)) = Responded r ->
  Resp.status_code r = 200%Z ->
  json_loads self (Resp.text r) = Some (JObj kv) ->
  has_key "oa_locations" kv = true ->
  dict_get "oa_locations" kv = JArr (before ++ JObj loc :: after) ->
  forallb is_object before = true ->
  (forall l, In l before -> publisher_value "url_for_pdf" l = None) ->
  publisher_value "url_for_pdf" (JObj loc) = Some v ->
  unpaywall_lookup self doi w
  = (Normal v, after_get w RequestsGet (unpaywall_url doi)).
Proof.
  intros T S J K L O N P.
  unfold unpaywall_lookup. fold (unpaywall_url doi).
  unfold bind at 1, get. rewrite T, S. cbn [Z.eqb negb Pos.eqb].
  rewrite J, K, L. unfold bind at 1. cbn [json_iter]. unfold ret at 1.
  unfold bind at 1.
  rewrite (first_publisher_skips _ _ _ _ O N), (first_publisher_hit _ _ _ _ _ P).
  reflexivity.
Qed.

Lemma unpaywall_prefers_publisher_pdf_witness :
  unpaywall_lookup (with_transport lab api_up) "10.1038/nature12373" fresh
  = (Normal (JStr "https://example.org/oa.pdf"),
     after_get fresh RequestsGet (unpaywall_url "10.1038/nature12373")).
Proof.
  apply (unpaywall_prefers_publisher_pdf (with_transport lab api_up)
           "10.1038/nature12373" fresh
           (Resp.mk 200 [("Content-Type", "application/json")]
              (unpaywall_url "10.1038/nature12373") "oa" "oa")
           [("oa_locations",
             JArr [JObj [("host_type", JStr "repository");
                         ("url_for_pdf", JStr "https://europepmc.org/a.pdf")];
                   JObj [("host_type", JStr "publisher");
                         ("url_for_pdf", JStr "https://example.org/oa.pdf")]]);
            ("best_oa_location", JNull)]
           [JObj [("host_type", JStr "repository");
                  ("url_for_pdf", JStr "https://europepmc.org/a.pdf")]]
           []
           [("host_type", JStr "publisher");
            ("url_for_pdf", JStr "https://example.org/oa.pdf")]);
    try reflexivity.
  intros l [<- | []]. reflexivity.
Defined.

(** X16: [unpaywall_lookup] always sends exactly one request and writes
    nothing.  A transport failure leaves it as an exception (the call is
    not guarded); a status other than 200 gives [None]; a body that is
    not JSON raises; a JSON value that is not an object raises; and an
    object without locations and without a true "best" location gives
    [None]. *)
Theorem unpaywall_edge_cases (self : Env) (doi : string) (w : World) :
  snd (unpaywall_lookup self doi w) = after_get w RequestsGet (unpaywall_url doi) /\
  match transport self (sent w) (mkRequest RequestsGet (unpaywall_url doi)) with
  | TransportFailed => fst (unpaywall_lookup self doi w) = Raised RequestException
  | Responded r =>
      if negb (Resp.status_code r =? 200)%Z
      then fst (unpaywall_lookup self doi w) = Normal JNull
      else
        match json_loads self (Resp.text r) with
        | None => fst (unpaywall_lookup self doi w) = Raised JSONDecodeError
        | Some (JObj kv) =>
            has_key "oa_locations" kv = false ->
            json_truthy (dict_get "best_oa_location" kv) = false ->
            fst (unpaywall_lookup self doi w) = Normal JNull
        | Some _ => fst (unpaywall_lookup self doi w) = Raised AttributeError
        end
  end.
Proof.
  split.
  - unfold unpaywall_lookup. fold (unpaywall_url doi). unfold bind at 1, get.
    fold (after_get w RequestsGet (unpaywall_url doi)).
    destruct (transport self (sent w) _) as [r | ]; [ | reflexivity].
    destruct (negb (Resp.status_code r =? 200)%Z); [reflexivity | ].
    destruct (json_loads self (Resp.text r)) as [[ | b | z | s | l | kv] | ];
      try reflexivity.
    apply worldless_bind; [apply worldless_json_iter | intros locations].
    apply worldless_bind; [apply worldless_first_publisher | intros [v | ]]; [easy | ].
    apply worldless_bind; [apply worldless_first_publisher | intros [v | ]]; [easy | ].
    destruct (json_truthy _); [ | easy].
    apply worldless_bind; [apply worldless_json_get | intros pdf].
    destruct (json_truthy pdf); [easy | apply worldless_json_get].
  - assert (U : unpaywall_lookup self doi w
                = bind (get self RequestsGet (unpaywall_url doi))
                    (fun r =>
                       if negb (Resp.status_code r =? 200)%Z then ret JNull
                       else
                         match json_loads self (Resp.text r) with
                         | None => raise JSONDecodeError
                         | Some (JObj kv) =>
                             locations <-
                               json_iter (if has_key "oa_locations" kv
                                          then dict_get "oa_locations" kv
                                          else JArr []) ;;
                             by_pdf <- first_publisher "url_for_pdf" locations ;;
                             match by_pdf with
                             | Some v => ret v
                             | None =>
                                 by_url <- first_publisher "url" locations ;;
                                 match by_url with
                                 | Some v => ret v
                                 | None =>
                                     if json_truthy (dict_get "best_oa_location" kv)
                                     then
                                       pdf <- json_get (dict_get "best_oa_location" kv)
                                                "url_for_pdf" ;;
                                       if json_truthy pdf then ret pdf
                                       else json_get (dict_get "best_oa_location" kv) "url"
                                     else ret JNull
                                 end
                             end
                         | Some _ => raise AttributeError
                         end) w) by reflexivity.
    revert U. generalize (unpaywall_lookup self doi w) as run. intros run U.
    unfold bind at 1, get in U.
    destruct (transport self (sent w) _) as [r | ]; [ | now rewrite U].
    destruct (negb (Resp.status_code r =? 200)%Z); [now rewrite U | ].
    destruct (json_loads self (Resp.text r)) as [[ | b | z | s | l | kv] | ];
      try (now rewrite U).
    intros K B. rewrite K, B in U. now rewrite U.
Qed.

(** ** Topics and keywords *)

Lemma lower_char_idem a : Py.lower_char (Py.lower_char a) = Py.lower_char a.
Proof. destruct a as [[] [] [] [] [] [] [] []]; reflexivity. Qed.

Lemma lower_char_space a : Py.isspace (Py.lower_char a) = Py.isspace a.
Proof. destruct a as [[] [] [] [] [] [] [] []]; reflexivity. Qed.

Lemma lower_char_comma a : Ascii.eqb (Py.lower_char a) "," = Ascii.eqb a ",".
Proof. destruct a as [[] [] [] [] [] [] [] []]; reflexivity. Qed.

Lemma lower_idem s : Py.lower (Py.lower s) = Py.lower s.
Proof. induction s; simpl; [reflexivity | now rewrite lower_char_idem, IHs]. Qed.

Lemma lower_length s : String.length (Py.lower s) = String.length s.
Proof. induction s; simpl; congruence. Qed.

Lemma lower_comma s : Py.has_char "," (Py.lower s) = Py.has_char "," s.
Proof. induction s; simpl; [reflexivity | now rewrite lower_char_comma, IHs]. Qed.

Lemma lstrip_lower s :
  Py.lstrip Py.isspace (Py.lower s) = Py.lower (Py.lstrip Py.isspace s).
Proof.
  induction s as [ | a s IH]; simpl; [reflexivity | ].
  rewrite lower_char_space. now destruct (Py.isspace a).
Qed.

Lemma rstrip_by_lower s :
  Py.rstrip_by Py.isspace (Py.lower s) = Py.lower (Py.rstrip_by Py.isspace s).
Proof.
  induction s as [ | a s IH]; simpl; [reflexivity | ].
  rewrite IH, lower_char_space.
  destruct (Py.rstrip_by Py.isspace s); simpl; [now destruct (Py.isspace a) | reflexivity].
Qed.

Lemma strip_lower s : Py.strip (Py.lower s) = Py.lower (Py.strip s).
Proof. unfold Py.strip. now rewrite lstrip_lower, rstrip_by_lower. Qed.

Lemma lstrip_head p s :
  match Py.lstrip p s with
  | EmptyString => True
  | String a _ => p a = false
  end.
Proof.
  induction s as [ | a s IH]; simpl; [exact I | ].
  destruct (p a) eqn:E; [exact IH | exact E].
Qed.

Lemma rstrip_by_cons p a s :
  p a = false -> Py.rstrip_by p (String a s) = String a (Py.rstrip_by p s).
Proof. intros E. simpl. rewrite E. now destruct (Py.rstrip_by p s). Qed.

Lemma rstrip_by_idem p s : Py.rstrip_by p (Py.rstrip_by p s) = Py.rstrip_by p s.
Proof.
  induction s as [ | a s IH]; simpl; [reflexivity | ].
  destruct (Py.rstrip_by p s) as [ | b t] eqn:E.
  - destruct (p a) eqn:Pa; simpl; [reflexivity | now rewrite Pa].
  - change (Py.rstrip_by p (String a (String b t)))
      with (match Py.rstrip_by p (String b t) with
            | EmptyString => if p a then EmptyString else String a EmptyString
            | r' => String a r'
            end).
    now rewrite IH.
Qed.

Lemma strip_idem s : Py.strip (Py.strip s) = Py.strip s.
Proof.
  unfold Py.strip.
  pose proof (lstrip_head Py.isspace s) as H.
  destruct (Py.lstrip Py.isspace s) as [ | a t]; [reflexivity | ].
  rewrite (rstrip_by_cons _ _ _ H). cbn [Py.lstrip]. rewrite H.
  rewrite (rstrip_by_cons _ _ _ H). now rewrite rstrip_by_idem.
Qed.

Lemma lstrip_keeps_out c p s :
  Py.has_char c s = false -> Py.has_char c (Py.lstrip p s) = false.
Proof.
  induction s as [ | a s IH]; simpl; [reflexivity | ].
  intros H. apply orb_false_iff in H as [E H].
  destruct (p a); [now apply IH | simpl; now rewrite E, H].
Qed.

Lemma rstrip_by_keeps_out c p s :
  Py.has_char c s = false -> Py.has_char c (Py.rstrip_by p s) = false.
Proof.
  induction s as [ | a s IH]; simpl; [reflexivity | ].
  intros H. apply orb_false_iff in H as [E H]. specialize (IH H).
  destruct (Py.rstrip_by p s) as [ | b t].
  - destruct (p a); simpl; [reflexivity | now rewrite E].
  - simpl in *. now rewrite E, IH.
Qed.

Lemma strip_keeps_out c s :
  Py.has_char c s = false -> Py.has_char c (Py.strip s) = false.
Proof. intros H. now apply rstrip_by_keeps_out, lstrip_keeps_out. Qed.

Lemma split_not_nil c s : PyStr.split c s <> [].
Proof.
  destruct s as [ | a s]; simpl; [discriminate | ].
  destruct (Ascii.eqb a c); [discriminate | ].
  destruct (PyStr.split c s); discriminate.
Qed.

Lemma split_pieces_without c s :
  Forall (fun t => Py.has_char c t = false) (PyStr.split c s).
Proof.
  induction s as [ | a s IH]; simpl; [now constructor | ].
  destruct (Ascii.eqb a c) eqn:E; [now constructor | ].
  destruct (PyStr.split c s) as [ | piece pieces]; [constructor; [simpl | constructor] | ].
  - now rewrite E.
  - inversion IH as [ | ? ? Hp Hr]; subst. constructor; [ | exact Hr].
    simpl. now rewrite E, Hp.
Qed.

Lemma split_without c s : Py.has_char c s = false -> PyStr.split c s = [s].
Proof.
  induction s as [ | a s IH]; simpl; [reflexivity | ].
  intros H. apply orb_false_iff in H as [E H]. now rewrite E, (IH H).
Qed.

Lemma topics_clean (topic_input : string) :
  Forall (fun t =>
            Py.truthy t = true /\ Py.has_char "," t = false /\
            Py.strip t = t /\ Py.lower t = t /\ parse_topics t = [t])
         (parse_topics topic_input).
Proof.
  unfold parse_topics at 1.
  apply Forall_map, Forall_forall. intros t Ht.
  apply filter_In in Ht as [Hin T].
  assert (C : Py.has_char "," t = false).
  { exact (proj1 (Forall_forall _ _) (split_pieces_without "," topic_input) t Hin). }
  set (u := Py.lower (Py.strip t)).
  assert (Tu : Py.truthy u = true) by (unfold u; now rewrite lower_truthy).
  assert (Cu : Py.has_char "," u = false).
  { unfold u. rewrite lower_comma. now apply strip_keeps_out. }
  assert (Su : Py.strip u = u) by (unfold u; now rewrite strip_lower, strip_idem).
  assert (Lu : Py.lower u = u) by (unfold u; apply lower_idem).
  clearbody u. repeat split; auto.
  unfold parse_topics. rewrite (split_without _ _ Cu).
  cbn [filter]. rewrite Su, Tu. cbn [map]. now rewrite Su, Lu.
Qed.

(** X17: every topic [parse_topics] returns is non-empty, contains no
    comma, has no white space at either end and no upper-case letter,
    and is a fixed point: parsed on its own it comes back unchanged. *)
Theorem parse_topics_are_clean (topic_input : string) :
  Forall (fun t =>
            Py.truthy t = true /\ Py.has_char "," t = false /\
            Py.strip t = t /\ Py.lower t = t /\ parse_topics t = [t])
         (parse_topics topic_input).
Proof. exact (topics_clean topic_input). Qed.

Lemma lstrip_all p s : Py.all_chars p s = true -> Py.lstrip p s = EmptyString.
Proof.
  induction s as [ | a s IH]; simpl; [reflexivity | ].
  intros H. apply andb_true_iff in H as [E H]. now rewrite E, IH.
Qed.

Lemma all_chars_lstrip p s :
  Py.all_chars p (Py.lstrip p s) = Py.all_chars p s.
Proof.
  induction s as [ | a s IH]; simpl; [reflexivity | ].
  destruct (p a) eqn:E; simpl; [exact IH | now rewrite E].
Qed.

Lemma rstrip_by_nil p s :
  Py.rstrip_by p s = EmptyString -> Py.all_chars p s = true.
Proof.
  induction s as [ | a s IH]; simpl; [reflexivity | ].
  destruct (Py.rstrip_by p s); [ | discriminate].
  destruct (p a); [intros _; now apply IH | discriminate].
Qed.

Lemma strip_nil_iff s :
  Py.truthy (Py.strip s) = false <-> Py.all_chars Py.isspace s = true.
Proof.
  unfold Py.strip. split.
  - intros H. rewrite <- all_chars_lstrip. apply rstrip_by_nil.
    now destruct (Py.rstrip_by _ _).
  - intros H. now rewrite (lstrip_all _ _ H).
Qed.

Lemma split_blank s :
  Py.all_chars blank_or_comma s = true <->
  Forall (fun t => Py.all_chars Py.isspace t = true) (PyStr.split "," s).
Proof.
  induction s as [ | a s IH]; simpl.
  - split; [now repeat constructor | reflexivity].
  - unfold blank_or_comma at 1. destruct (Ascii.eqb a ",") eqn:E; simpl.
    + rewrite IH. split.
      * now constructor.
      * now inversion 1.
    + pose proof (split_not_nil "," s) as N.
      destruct (PyStr.split "," s) as [ | piece pieces]; [contradiction | ].
      rewrite andb_true_iff, IH. split.
      * intros [Pa F]. inversion F; subst. constructor; [simpl; now rewrite Pa | auto].
      * inversion 1 as [ | ? ? Hp Hr]; subst. simpl in Hp.
        apply andb_true_iff in Hp as [Pa Hp]. split; [exact Pa | now constructor].
Qed.

(** X18: [parse_topics] returns no topic exactly when the input consists
    of commas and white space only (the empty input included); the
    PubMed query built from such an input is the empty string, and the
    keyword filter built from it accepts every text. *)
Theorem no_topic_iff_blank (topic_input : string) :
  (parse_topics topic_input = [] <->
   Py.all_chars blank_or_comma topic_input = true) /\
  (parse_topics topic_input = [] ->
   build_pubmed_query topic_input = EmptyString /\
   forall text, contains_all_keywords text (parse_topics topic_input) = true).
Proof.
  split.
  - rewrite split_blank. unfold parse_topics. split.
    + intros H. apply map_eq_nil in H.
      apply Forall_forall. intros t Hin.
      apply strip_nil_iff. destruct (Py.truthy (Py.strip t)) eqn:T; [ | reflexivity].
      assert (In t []) by (rewrite <- H; apply filter_In; auto). contradiction.
    + intros F.
      replace (filter _ _) with (@nil string); [reflexivity | ].
      symmetry. induction F as [ | t l Ht F IH]; [reflexivity | ].
      simpl. apply strip_nil_iff in Ht. now rewrite Ht.
  - intros H. unfold build_pubmed_query. rewrite H. split; reflexivity.
Qed.

Lemma string_app_inv_length (a a' b b' : string) :
  a ++ b = a' ++ b' -> String.length a = String.length a' -> a = a' /\ b = b'.
Proof.
  revert a'. induction a as [ | x a IH]; intros [ | y a'] E L; simpl in *;
    try discriminate; [now split | ].
  injection E as -> E. injection L as L.
  destruct (IH _ E L) as [-> ->]. now split.
Qed.

Lemma contains_lower_is_lower k text :
  Py.contains k (Py.lower text) = true -> Py.lower k = k.
Proof.
  intros H. apply contains_iff in H as (pre & post & E).
  assert (E2 : Py.lower pre ++ Py.lower k ++ Py.lower post = pre ++ k ++ post).
  { rewrite <- !lower_app, <- E. apply lower_idem. }
  apply string_app_inv_length in E2 as [_ E2]; [ | apply lower_length].
  apply string_app_inv_length in E2 as [E2 _]; [exact E2 | apply lower_length].
Qed.

(** X19: [contains_all_keywords] ignores the case of the text but takes
    the keywords as they are: a text and its lower-case form are accepted
    alike, and a list is accepted only when every keyword in it is free
    of upper-case letters, which is why [parse_topics] lowers them. *)
Theorem keywords_match_lowered_text (text : string) (keywords : list string) :
  contains_all_keywords (Py.lower text) keywords = contains_all_keywords text keywords /\
  (contains_all_keywords text keywords = true ->
   Forall (fun k => Py.lower k = k) keywords).
Proof.
  unfold contains_all_keywords. cbv zeta. split.
  - now rewrite lower_idem.
  - intros H. apply Forall_forall. intros k Hk.
    rewrite forallb_forall in H. exact (contains_lower_is_lower _ _ (H k Hk)).
Qed.

(** ** The link of a PubMed record *)

Lemma length_app (a b : string) :
  String.length (a ++ b) = String.length a + String.length b.
Proof. induction a; simpl; congruence. Qed.

Lemma drop_app (a b : string) : Py.drop (String.length a) (a ++ b) = b.
Proof. induction a; simpl; [now destruct b | assumption]. Qed.

Lemma take_app (a b : string) : PyStr.take (String.length a) (a ++ b) = a.
Proof. induction a; simpl; [reflexivity | congruence]. Qed.

Lemma startswith_short p s t :
  Py.startswith p (s ++ t) = true -> String.length p <= String.length s ->
  Py.startswith p s = true.
Proof.
  revert s. induction p as [ | a p IH]; intros [ | b s] H L; simpl in *;
    try reflexivity; try lia.
  apply andb_true_iff in H as [E H]. rewrite E. apply IH; [exact H | lia].
Qed.

Lemma find_at_eq sub s i :
  PyStr.find_at sub s i =
  if Py.startswith sub s then i
  else match s with
       | EmptyString => (-1)%Z
       | String _ r => PyStr.find_at sub r (i + 1)%Z
       end.
Proof. now destruct s. Qed.

Lemma find_at_none sub s i :
  Py.contains sub s = false -> PyStr.find_at sub s i = (-1)%Z.
Proof.
  revert i. induction s as [ | a s IH]; intros i H.
  - simpl in *. apply orb_false_iff in H as [-> _]. reflexivity.
  - cbn [Py.contains] in H. apply orb_false_iff in H as [H1 H2].
    cbn [PyStr.find_at]. rewrite H1. now apply IH.
Qed.

(** [sub] occurs right after [pre] and nowhere earlier: an earlier
    occurrence would end inside [pre ++ sub'], [sub'] being [sub] without
    its last character. *)
Lemma find_at_first sub' c pre rest i :
  Py.contains (sub' ++ String c EmptyString) (pre ++ sub') = false ->
  PyStr.find_at (sub' ++ String c EmptyString)
                (pre ++ (sub' ++ String c EmptyString) ++ rest) i
  = (i + Z.of_nat (String.length pre))%Z.
Proof.
  revert i. induction pre as [ | a pre IH]; intros i H.
  - cbn [append String.length]. rewrite find_at_eq, startswith_app. lia.
  - cbn [append Py.contains] in H. apply orb_false_iff in H as [H1 H2].
    cbn [append PyStr.find_at].
    destruct (Py.startswith (sub' ++ String c EmptyString)
               (String a (pre ++ (sub' ++ String c EmptyString) ++ rest))) eqn:S.
    + exfalso.
      assert (S' : Py.startswith (sub' ++ String c EmptyString)
                     (String a (pre ++ sub') ++ String c EmptyString ++ rest) = true).
      { cbn [append]. now rewrite !append_assoc in *. }
      apply startswith_short in S'; [congruence | ].
      cbn [String.length]. rewrite !length_app. simpl. lia.
    + rewrite (IH _ H2). cbn [String.length]. lia.
Qed.

Lemma contains_char_app q a b :
  Py.contains (String q EmptyString) (a ++ b) =
  Py.contains (String q EmptyString) a || Py.contains (String q EmptyString) b.
Proof.
  induction a as [ | x a IH]; cbn [append].
  - simpl. now destruct b.
  - cbn [Py.contains Py.startswith]. rewrite IH.
    destruct (Ascii.eqb q x); simpl; [reflexivity | ].
    now destruct a.
Qed.

Lemma startswith_length p s :
  Py.startswith p s = true -> String.length p <= String.length s.
Proof.
  revert s. induction p as [ | a p IH]; intros [ | b s] H; simpl in *;
    try lia; try discriminate.
  apply andb_true_iff in H as [_ H]. apply IH in H. lia.
Qed.

Lemma find_at_range sub s i r :
  PyStr.find_at sub s i = r ->
  r = (-1)%Z \/
  (i <= r /\ r + Z.of_nat (String.length sub) <= i + Z.of_nat (String.length s))%Z.
Proof.
  revert i. induction s as [ | a s IH]; intros i; rewrite find_at_eq.
  - destruct (Py.startswith sub EmptyString) eqn:S; intros <-; [ | now left].
    apply startswith_length in S. lia.
  - destruct (Py.startswith sub (String a s)) eqn:S.
    + intros <-. apply startswith_length in S. lia.
    + intros H. apply IH in H. cbn [String.length]. lia.
Qed.

Lemma find_from sub text (k : nat) :
  k <= String.length text ->
  PyStr.find sub text (Z.of_nat k) = PyStr.find_at sub (Py.drop k text) (Z.of_nat k).
Proof.
  intros L. unfold PyStr.find. cbv zeta.
  destruct (Z.ltb_spec (Z.of_nat k) 0); [lia | ].
  destruct (Z.ltb_spec (Z.of_nat (String.length text)) (Z.of_nat k)); [lia | ].
  now rewrite Nat2Z.id.
Qed.

Lemma slice_mid pre mid post :
  PyStr.slice (pre ++ mid ++ post) (Z.of_nat (String.length pre))
              (Z.of_nat (String.length pre) + Z.of_nat (String.length mid)) = mid.
Proof.
  unfold PyStr.slice, PyStr.clamp. cbv zeta. rewrite !length_app.
  destruct (Z.ltb_spec (Z.of_nat (String.length pre)) 0); [lia | ].
  destruct (Z.ltb_spec (Z.of_nat (String.length pre) + Z.of_nat (String.length mid)) 0);
    [lia | ].
  rewrite !Z.min_l by lia.
  replace (Z.to_nat (_ - _)) with (String.length mid) by lia.
  now rewrite Nat2Z.id, drop_app, take_app.
Qed.

(** [text[k:-1]] for [k] inside the text. *)
Lemma slice_to_last pre rest :
  rest <> EmptyString ->
  PyStr.slice (pre ++ rest) (Z.of_nat (String.length pre)) (-1) =
  PyStr.take (String.length rest - 1) rest.
Proof.
  intros N. unfold PyStr.slice, PyStr.clamp. cbv zeta. rewrite length_app.
  assert (0 < String.length rest) by (destruct rest; [congruence | simpl; lia]).
  destruct (Z.ltb_spec (Z.of_nat (String.length pre)) 0); [lia | ].
  change (-1 <? 0)%Z with true. cbv iota.
  rewrite Z.min_l, Z.max_r by lia.
  replace (Z.to_nat (_ - _)) with (String.length rest - 1) by lia.
  now rewrite Nat2Z.id, drop_app.
Qed.

(** [text[-1:j]] when [j] is -1 or the last index: nothing. *)
Lemma slice_from_last text j :
  j = (-1)%Z \/ j = (Z.of_nat (String.length text) - 1)%Z ->
  PyStr.slice text (-1) j = EmptyString.
Proof.
  intros J. unfold PyStr.slice, PyStr.clamp. cbv zeta.
  change (-1 <? 0)%Z with true. cbv iota.
  replace (Z.to_nat (_ - _)) with 0; [reflexivity | ].
  destruct (Z.ltb_spec j 0); lia.
Qed.

Lemma drop_length k s : String.length (Py.drop k s) = String.length s - k.
Proof.
  revert s. induction k as [ | k IH]; intros [ | a s]; simpl; auto.
Qed.

Lemma find_pdf_link_page (self : Env) (paper : Paper.t) (w : World) (r : Response) :
  Paper.source paper = "pubmed" ->
  transport self (sent w) (mkRequest RequestsGet (Paper.url paper)) = Responded r ->
  Resp.status_code r = 200%Z ->
  Py.contains "doi.org" (Resp.text r) = true ->
  find_pdf_link self paper w =
  (Normal (PyStr.slice (Resp.text r)
             (PyStr.find doi_link (Resp.text r) 0)
             (PyStr.find PyStr.dquote (Resp.text r)
                (PyStr.find doi_link (Resp.text r) 0))),
   after_get w RequestsGet (Paper.url paper)).
Proof.
  intros S T C D. unfold find_pdf_link. rewrite S, String.eqb_refl.
  unfold bind, get. cbv zeta beta. rewrite T. cbv iota beta.
  rewrite C, D. reflexivity.
Qed.

Lemma contains_doi_link s :
  Py.contains doi_link s = true -> Py.contains "doi.org" s = true.
Proof.
  intros H. apply contains_iff in H as (a & b & ->). apply contains_iff.
  exists (a ++ "https://"), ("/" ++ b). now rewrite !append_assoc.
Qed.

(** X20: for a PubMed record whose page answers 200, [find_pdf_link]
    returns the first [https://doi.org/] link of the page, up to the
    double quote that closes it; one request is sent, and the router takes
    the link for a DOI reference. *)
Theorem find_pdf_link_takes_first_doi
  (self : Env) (paper : Paper.t) (w : World) (r : Response) (pre d post : string) :
  Paper.source paper = "pubmed" ->
  transport self (sent w) (mkRequest RequestsGet (Paper.url paper)) = Responded r ->
  Resp.status_code r = 200%Z ->
  Resp.text r = pre ++ doi_link ++ d ++ PyStr.dquote ++ post ->
  Py.contains doi_link (pre ++ "https://doi.org") = false ->
  Py.contains PyStr.dquote d = false ->
  find_pdf_link self paper w =
    (Normal (doi_link ++ d), after_get w RequestsGet (Paper.url paper)) /\
  is_doi_url (doi_link ++ d) = true.
Proof.
  intros S T C E First Q. split.
  - rewrite (find_pdf_link_page _ _ _ _ S T C).
    2:{ apply contains_doi_link, contains_iff. rewrite E. eauto. }
    assert (F : PyStr.find doi_link (Resp.text r) 0 = Z.of_nat (String.length pre)).
    { rewrite (find_from _ _ 0) by lia. cbn [Py.drop]. rewrite E.
      change doi_link with ("https://doi.org" ++ "/") at 1 2.
      now rewrite (find_at_first "https://doi.org" "/" pre _ 0 First). }
    rewrite F.
    assert (G : PyStr.find PyStr.dquote (Resp.text r) (Z.of_nat (String.length pre))
                = (Z.of_nat (String.length pre)
                   + Z.of_nat (String.length (doi_link ++ d)))%Z).
    { rewrite find_from by (rewrite E, length_app; lia).
      rewrite E, drop_app.
      replace (doi_link ++ d ++ PyStr.dquote ++ post)
        with ((doi_link ++ d) ++ (EmptyString ++ PyStr.dquote) ++ post)
        by (now rewrite !append_assoc).
      apply (find_at_first EmptyString). rewrite append_nil_r.
      cbn [append]. unfold PyStr.dquote in Q.
      rewrite contains_char_app, Q. reflexivity. }
    rewrite G, E.
    replace (pre ++ doi_link ++ d ++ PyStr.dquote ++ post)
      with (pre ++ (doi_link ++ d) ++ PyStr.dquote ++ post)
      by (now rewrite !append_assoc).
    now rewrite slice_mid.
  - unfold is_doi_url. apply orb_true_iff. left. apply contains_iff.
    exists "https://", d. reflexivity.
Qed.

Lemma find_pdf_link_takes_first_doi_witness :
  find_pdf_link
    (serving ("<a href=" ++ PyStr.dquote ++ "https://doi.org/10.1000/x"
                ++ PyStr.dquote ++ ">doi</a>"))
    pubmed_record fresh
  = (Normal "https://doi.org/10.1000/x",
     after_get fresh RequestsGet (Paper.url pubmed_record)) /\
  is_doi_url "https://doi.org/10.1000/x" = true.
Proof.
  eapply (find_pdf_link_takes_first_doi _ _ _ _ ("<a href=" ++ PyStr.dquote)
           "10.1000/x" ">doi</a>");
    reflexivity.
Defined.

(** X21: when the page of a PubMed record answers 200 and mentions
    [doi.org] but holds no [https://doi.org/] link, [find_pdf_link] returns
    the empty string, not the record's own URL: the failed search gives
    -1, which the slice then reads as the last position. *)
Theorem find_pdf_link_without_https_link
  (self : Env) (paper : Paper.t) (w : World) (r : Response) :
  Paper.source paper = "pubmed" ->
  transport self (sent w) (mkRequest RequestsGet (Paper.url paper)) = Responded r ->
  Resp.status_code r = 200%Z ->
  Py.contains "doi.org" (Resp.text r) = true ->
  Py.contains doi_link (Resp.text r) = false ->
  find_pdf_link self paper w =
    (Normal EmptyString, after_get w RequestsGet (Paper.url paper)).
Proof.
  intros S T C D N. rewrite (find_pdf_link_page _ _ _ _ S T C D).
  assert (F : PyStr.find doi_link (Resp.text r) 0 = (-1)%Z).
  { rewrite (find_from _ _ 0) by lia. now apply find_at_none. }
  rewrite F, slice_from_last; [reflexivity | ].
  assert (L : 7 <= String.length (Resp.text r)).
  { apply contains_iff in D as (a & b & ->). rewrite !length_app. simpl. lia. }
  unfold PyStr.find. cbv zeta. change (-1 <? 0)%Z with true. cbv iota.
  set (n := String.length (Resp.text r)) in *.
  rewrite Z.max_r by lia.
  destruct (Z.ltb_spec (Z.of_nat n) (-1 + Z.of_nat n)); [lia | ].
  destruct (find_at_range PyStr.dquote
              (Py.drop (Z.to_nat (-1 + Z.of_nat n)) (Resp.text r))
              (-1 + Z.of_nat n) _ eq_refl) as [-> | [A B]]; [now left | right].
  rewrite drop_length in B. fold n in B. cbn [PyStr.dquote String.length] in B. lia.
Qed.

Lemma find_pdf_link_without_https_link_witness :
  find_pdf_link (serving "see http://dx.doi.org/10.1000/x") pubmed_record fresh
  = (Normal EmptyString, after_get fresh RequestsGet (Paper.url pubmed_record)).
Proof.
  eapply find_pdf_link_without_https_link; reflexivity.
Defined.

(** X22: when no double quote follows the first [https://doi.org/] link
    of the page, [find_pdf_link] returns the rest of the page from the
    link on without its last character: the missing quote gives -1, which
    the slice reads as the last position. *)
Theorem find_pdf_link_unterminated
  (self : Env) (paper : Paper.t) (w : World) (r : Response) (pre d : string) :
  Paper.source paper = "pubmed" ->
  transport self (sent w) (mkRequest RequestsGet (Paper.url paper)) = Responded r ->
  Resp.status_code r = 200%Z ->
  Resp.text r = pre ++ doi_link ++ d ->
  Py.contains doi_link (pre ++ "https://doi.org") = false ->
  Py.contains PyStr.dquote d = false ->
  find_pdf_link self paper w =
    (Normal (PyStr.take (String.length (doi_link ++ d) - 1) (doi_link ++ d)),
     after_get w RequestsGet (Paper.url paper)).
Proof.
  intros S T C E First Q.
  rewrite (find_pdf_link_page _ _ _ _ S T C).
  2:{ apply contains_doi_link, contains_iff. rewrite E. exists pre, d. reflexivity. }
  assert (F : PyStr.find doi_link (Resp.text r) 0 = Z.of_nat (String.length pre)).
  { rewrite (find_from _ _ 0) by lia. cbn [Py.drop]. rewrite E.
    rewrite <- (append_nil_r d), <- append_assoc.
    change doi_link with ("https://doi.org" ++ "/") at 1 2.
    rewrite append_assoc.
    now rewrite (find_at_first "https://doi.org" "/" pre _ 0 First). }
  rewrite F.
  assert (G : PyStr.find PyStr.dquote (Resp.text r) (Z.of_nat (String.length pre))
              = (-1)%Z).
  { rewrite find_from by (rewrite E, length_app; lia).
    rewrite E, drop_app. apply find_at_none.
    unfold PyStr.dquote in *. rewrite contains_char_app, Q. reflexivity. }
  rewrite G, E. apply f_equal2; [ | reflexivity]. f_equal.
  apply slice_to_last. discriminate.
Qed.

Lemma find_pdf_link_unterminated_witness :
  find_pdf_link (serving "doi: https://doi.org/") pubmed_record fresh
  = (Normal "https://doi.org", after_get fresh RequestsGet (Paper.url pubmed_record)).
Proof.
  eapply (find_pdf_link_unterminated _ _ _ _ "doi: " EmptyString); reflexivity.
Defined.

Lemma split_app_sep c x rest :
  Py.has_char c x = false ->
  PyStr.split c (x ++ String c rest) = x :: PyStr.split c rest.
Proof.
  induction x as [ | a x IH]; simpl.
  - intros _. now rewrite Ascii.eqb_refl.
  - intros H. apply orb_false_iff in H as [E H]. now rewrite E, (IH H).
Qed.

Lemma split_join c ts :
  Forall (fun t => Py.has_char c t = false) ts -> ts <> [] ->
  PyStr.split c (PyStr.join (String c EmptyString) ts) = ts.
Proof.
  induction 1 as [ | x ts Hx F IH]; [congruence | intros _].
  destruct ts as [ | y ts].
  - simpl. now apply split_without.
  - change (PyStr.join (String c EmptyString) (x :: y :: ts))
      with (x ++ String c (PyStr.join (String c EmptyString) (y :: ts))).
    rewrite (split_app_sep _ _ _ Hx), IH; [reflexivity | discriminate].
Qed.

(** X23: the topics are a normal form: joined again with commas and
    parsed again they come back unchanged, so the query built from the
    joined topics is the query built from the input. *)
Theorem parse_topics_round_trip (topic_input : string) :
  parse_topics (PyStr.join "," (parse_topics topic_input)) = parse_topics topic_input /\
  build_pubmed_query (PyStr.join "," (parse_topics topic_input))
  = build_pubmed_query topic_input.
Proof.
  assert (E : parse_topics (PyStr.join "," (parse_topics topic_input))
              = parse_topics topic_input).
  { pose proof (topics_clean topic_input) as C.
    destruct (parse_topics topic_input) as [ | t ts] eqn:P; [reflexivity | ].
    unfold parse_topics at 1. rewrite split_join; [ | | discriminate].
    - clear P. induction C as [ | x xs (T & _ & S & L & _) C IH]; [reflexivity | ].
      cbn [filter]. rewrite S, T. cbn [map]. now rewrite S, L, IH.
    - eapply Forall_impl; [ | exact C]. now intros x (_ & H & _). }
  split; [exact E | ]. unfold build_pubmed_query. now rewrite E.
Qed.
